(** * tableau-report-gen: the Streamlit front end [app.py]

    A shallow embedding of [app.py]: the graph renderer
    [plot_dag_graphviz], the table toggle [toggle_table_display] and the
    pipeline [main], over a small model of the Python values, pandas
    frames, Streamlit calls and files they touch.  The workbook parser
    and the [utils] helpers live in other modules of the repository; the
    pipeline is written against their observable outcomes. *)

From Stdlib Require Import ZArith String List Bool Lia.
From stdpp Require Import base option list strings gmap.

Set Warnings "-clear-no-such-hyp".

Open Scope string_scope.
Open Scope list_scope.
Open Scope Z_scope.

(** ** Python values and exceptions *)

Module Py.

(** The exceptions the modelled code can meet.  [Other] stands for any
    exception raised by a collaborator. *)
Inductive exn :=
| KeyError (key : string)
| AttributeError (msg : string)
| OSError (msg : string)
| Other (msg : string).

(** [str(e)], as interpolated by the f-strings of the log messages. *)
Definition exn_str (e : exn) : string :=
  match e with
  | KeyError k => "'" +:+ k +:+ "'"
  | AttributeError m => m
  | OSError m => m
  | Other m => m
  end.

Inductive result (A : Type) :=
| Ok (a : A)
| Raise (e : exn).
Arguments Ok {A} a.
Arguments Raise {A} e.

#[global] Instance exn_eq_dec : EqDecision exn.
Proof. solve_decision. Defined.

#[global] Instance result_eq_dec {A} `{EqDecision A} : EqDecision (result A).
Proof. solve_decision. Defined.

Definition rbind {A B} (r : result A) (k : A → result B) : result B :=
  match r with
  | Ok a => k a
  | Raise e => Raise e
  end.

Definition is_ok {A} (r : result A) : bool :=
  match r with Ok _ => true | Raise _ => false end.

(** Truth value of a string-or-[None]: [None] and [''] are false. *)
Definition truthy (v : option string) : bool :=
  match v with
  | None => false
  | Some s => negb (bool_decide (s = ""))
  end.

(** [repr] of a list of plain strings. *)
Definition list_repr (l : list string) : string :=
  "[" +:+ String.concat ", " (map (λ x, "'" +:+ x +:+ "'") l) +:+ "]".

(** [s.replace(old, new)] for a non-empty [old]: occurrences are replaced
    from the left, without overlap. *)
Fixpoint drop_prefix (p s : string) : option string :=
  match p, s with
  | EmptyString, _ => Some s
  | String a p', String b s' =>
      if Ascii.eqb a b then drop_prefix p' s' else None
  | String _ _, EmptyString => None
  end.

Fixpoint replace_from (skip : nat) (old new s : string) : string :=
  match s with
  | EmptyString => EmptyString
  | String c s' =>
      match skip with
      | S k => replace_from k old new s'
      | O =>
          match drop_prefix old s with
          | Some _ => new +:+ replace_from (String.length old - 1) old new s'
          | None => String c (replace_from 0 old new s')
          end
      end
  end.

Definition str_replace (old new s : string) : string := replace_from 0 old new s.

End Py.
Export Py.

Notation "'try!' x ':=' r 'in' k" := (rbind r (λ x, k))
  (at level 10, x name, r at level 100, k at level 200, only parsing).

(** ** pandas frames *)

Module DF.

(** A cell holds a string or is missing ([NaN]/[None]). *)
Definition cell := option string.

(** Row-oriented frame: index labels, column names, one list of cells
    per row (as wide as [columns]). *)
Record DataFrame := mkDF {
  index : list Z;
  columns : list string;
  rows : list (list cell)
}.

(** [pd.DataFrame()] *)
Definition empty_frame : DataFrame := mkDF [] [] [].

(** [RangeIndex(n)] *)
Definition range_index (n : nat) : list Z := map Z.of_nat (seq 0 n).

(** [len(df)] *)
Definition len (df : DataFrame) : Z := Z.of_nat (length (rows df)).

(** [df.empty]: some axis has length 0. *)
Definition empty (df : DataFrame) : bool :=
  match columns df, rows df with
  | [], _ | _, [] => true
  | _, _ => false
  end.

(** [c in df.columns] *)
Definition has_column (c : string) (df : DataFrame) : bool :=
  bool_decide (c ∈ columns df).

(** Position of the first column called [c]. *)
Fixpoint col_index (c : string) (cols : list string) : option nat :=
  match cols with
  | [] => None
  | c' :: cols' =>
      if bool_decide (c' = c) then Some 0%nat
      else S <$> col_index c cols'
  end.

(** The cell of row [r] under column [c]. *)
Definition cell_at (cols : list string) (c : string) (r : list cell)
  : option cell :=
  i ← col_index c cols; r !! i.

(** [df[c]] as the list of its cells, [None] when there is no such
    column. *)
Definition column (c : string) (df : DataFrame) : option (list cell) :=
  i ← col_index c (columns df);
  Some (map (λ r, default None (r !! i)) (rows df)).

(** [df[cs]] for a list of column names: [KeyError] on a missing one. *)
Fixpoint select_positions (cs cols : list string) : result (list nat) :=
  match cs with
  | [] => Ok []
  | c :: cs' =>
      match col_index c cols with
      | None => Raise (KeyError c)
      | Some i => try! ps := select_positions cs' cols in Ok (i :: ps)
      end
  end.

Definition select (cs : list string) (df : DataFrame) : result DataFrame :=
  try! ps := select_positions cs (columns df) in
  Ok (mkDF (index df) cs
        (map (λ r, map (λ i, default None (r !! i)) ps) (rows df))).

(** [df.head(n)], that is [df.iloc[:n]]: a negative [n] drops the last
    [-n] rows. *)
Definition head_count (n : Z) (total : nat) : nat :=
  if 0 <=? n then Z.to_nat n else Z.to_nat (Z.of_nat total + n).

Definition head (n : Z) (df : DataFrame) : DataFrame :=
  let k := head_count n (length (rows df)) in
  mkDF (take k (index df)) (columns df) (take k (rows df)).

(** [df.reset_index(drop=True)] followed by [df.index = df.index + 1] *)
Definition reset_index (df : DataFrame) : DataFrame :=
  mkDF (range_index (length (rows df))) (columns df) (rows df).

Definition shift_index (k : Z) (df : DataFrame) : DataFrame :=
  mkDF (map (Z.add k) (index df)) (columns df) (rows df).

(** [df.rename(columns={old: new})] *)
Definition rename (old new : string) (df : DataFrame) : DataFrame :=
  mkDF (index df)
    (map (λ c, if bool_decide (c = old) then new else c) (columns df))
    (rows df).

(** *** [left.merge(right, on=key, how='left')] *)

(** The position of the key column.  pandas raises [KeyError] when no
    column carries the label and [ValueError] when several do. *)
Definition key_position (key : string) (cols : list string) : result nat :=
  match col_index key cols with
  | None => Raise (KeyError key)
  | Some i =>
      if bool_decide (key ∈ drop (S i) cols)
      then Raise (Other "ValueError") else Ok i
  end.

(** A column present on both sides, other than the key, gets a suffix. *)
Definition suffixed (sfx key : string) (others : list string) (c : string)
  : string :=
  if bool_decide (c ≠ key) && bool_decide (c ∈ others) then c +:+ sfx else c.

(** [Index.duplicated()]: the positions that repeat an earlier label. *)
Fixpoint duplicated (seen l : list string) : list bool :=
  match l with
  | [] => []
  | x :: l' => bool_decide (x ∈ seen) :: duplicated (x :: seen) l'
  end.

(** Some label repeats an earlier one after the renaming and did not
    before it: the duplicate is the suffix's doing. *)
Definition suffix_duplicates (labels renamed : list string) : bool :=
  existsb (λ p : bool * bool, p.1 && negb p.2)
    (zip (duplicated [] renamed) (duplicated [] labels)).

(** The labels of the result: the left ones, then the right ones without
    the key.  pandas raises [MergeError] when a suffix produces a
    duplicate label on one side; labels that were repeated to begin with
    are let through. *)
Definition merge_columns (key : string) (kr : nat) (lc rc : list string)
  : result (list string) :=
  let ll := map (suffixed "_x" key rc) lc in
  let rl := map (suffixed "_y" key lc) rc in
  if suffix_duplicates lc ll || suffix_duplicates rc rl
  then Raise (Other "MergeError")
  else Ok (ll ++ delete kr rl).

(** The right rows whose key equals the key of [lrow]; missing keys match
    each other, as in pandas. *)
Definition matches (kl kr : nat) (lrow : list cell) (rrows : list (list cell))
  : list (list cell) :=
  filter (λ rrow, default None (rrow !! kr) = default None (lrow !! kl)) rrows.

(** Every left row is kept, in order: once per matching right row, or once
    with missing cells when nothing matches. *)
Definition merge_row (kl kr width : nat) (rrows : list (list cell))
    (lrow : list cell) : list (list cell) :=
  match matches kl kr lrow rrows with
  | [] => [lrow ++ replicate (width - 1) None]
  | ms => map (λ rrow, lrow ++ delete kr rrow) ms
  end.

Definition merge_left (key : string) (l r : DataFrame) : result DataFrame :=
  try! kr := key_position key (columns r) in
  try! kl := key_position key (columns l) in
  try! cols := merge_columns key kr (columns l) (columns r) in
  let rs :=
    concat (map (merge_row kl kr (length (columns r)) (rows r)) (rows l)) in
  Ok (mkDF (range_index (length rs)) cols rs).

(** [series.dropna().unique().tolist()] *)
Fixpoint unique (seen : list string) (l : list string) : list string :=
  match l with
  | [] => []
  | x :: l' =>
      if bool_decide (x ∈ seen) then unique seen l'
      else x :: unique (x :: seen) l'
  end.

Definition dropna_unique (s : list cell) : list string :=
  unique [] (omap id s).

End DF.
Export DF.

(** ** networkx graphs and graphviz sources *)

Module Graphviz.

(** Attribute dictionaries of nodes and edges; a value is a string or
    Python's [None]. *)
Abbreviation attrs := (gmap string (option string)).

(** A [networkx.DiGraph] as [G.nodes(data=True)] and [G.edges(data=True)]
    enumerate it. *)
Record DiGraph := mkGraph {
  nodes : list (string * attrs);
  edges : list (string * string * attrs)
}.

(** Keyword arguments of a graphviz call, in call order. *)
Abbreviation kwargs := (list (string * string)).

Inductive stmt :=
| GraphAttr (kw : kwargs)
| NodeAttr (kw : kwargs)
| Node (name : string) (kw : kwargs)
| Edge (tail_name head_name : string) (kw : kwargs).

(** A [graphviz.Digraph]: its comment, its output format and its body. *)
Record Digraph := mkDot {
  comment : string;
  format : string;
  body : list stmt
}.

#[global] Instance stmt_eq_dec : EqDecision stmt.
Proof. solve_decision. Defined.

#[global] Instance Digraph_eq_dec : EqDecision Digraph.
Proof. solve_decision. Defined.

Definition style_calculated : kwargs :=
  [("shape", "box"); ("style", "filled"); ("color", "lightblue")].
Definition style_original : kwargs :=
  [("shape", "ellipse"); ("style", "filled"); ("color", "#89CFF0")].
Definition style_data_source : kwargs :=
  [("shape", "rectangle"); ("style", "filled"); ("color", "orange")].
Definition style_default : kwargs :=
  [("shape", "ellipse"); ("style", "filled"); ("color", "grey")].

(** [data.get('type', 'Original Field')] *)
Definition node_type (data : attrs) : option string :=
  default (Some "Original Field") (data !! "type").

Definition node_style (data : attrs) : kwargs :=
  let node_type := node_type data in
  if bool_decide (node_type = Some "Calculated Field") then style_calculated
  else if bool_decide (node_type = Some "Original Field") then style_original
  else if bool_decide (node_type = Some "Data Source") then style_data_source
  else style_default.

(** [attrs.get('label', '')] *)
Definition edge_label (a : attrs) : option string :=
  default (Some "") (a !! "label").

Definition edge_stmt (e : string * string * attrs) : stmt :=
  let '(source, target, a) := e in
  let label := edge_label a in
  if truthy label
  then Edge source target
         [("label", default "" label); ("fontsize", "8"); ("fontcolor", "gray")]
  else Edge source target [].

Definition plot_dag_graphviz (G : DiGraph) : Digraph :=
  mkDot "Dependency DAG" "png"
    ([GraphAttr [("rankdir", "LR")]; NodeAttr [("fontsize", "10")]]
     ++ map (λ nd, Node nd.1 (node_style nd.2)) (nodes G)
     ++ map edge_stmt (edges G)).

End Graphviz.
Export Graphviz.

(** ** The report aggregate, the files and the Streamlit page *)

Module Rt.

(** What a slot of the report can hold. *)
Inductive pyval :=
| PNone
| PStr (s : string)
| PFrame (df : DataFrame).

(** [report]: a dict of namespaces, each a dict. *)
Abbreviation pydict := (gmap string pyval).
Abbreviation Report := (gmap string (gmap string pyval)).

(** [report[ns]] *)
Definition namespace (ns : string) (report : Report) : result pydict :=
  match report !! ns with
  | Some d => Ok d
  | None => Raise (KeyError ns)
  end.

(** [d[k]] and [d.get(k, dflt)] *)
Definition item (k : string) (d : pydict) : result pyval :=
  match d !! k with
  | Some v => Ok v
  | None => Raise (KeyError k)
  end.

Definition get (k : string) (dflt : pyval) (d : pydict) : pyval :=
  default dflt (d !! k).

(** Reading a frame attribute ([.empty], [.columns], [.merge], ...) off a
    value: only frames have them. *)
Definition as_frame (attr : string) (v : pyval) : result DataFrame :=
  match v with
  | PFrame df => Ok df
  | PNone =>
      Raise (AttributeError ("'NoneType' object has no attribute '" +:+ attr +:+ "'"))
  | PStr _ =>
      Raise (AttributeError ("'str' object has no attribute '" +:+ attr +:+ "'"))
  end.

(** Files: a path holds a directory or a file, written in chunks. *)
Inductive node :=
| Dir
| File (content : list string).

Abbreviation FS := (gmap string node).

(** Where a widget is drawn. *)
Inductive place := Page | Sidebar | Placeholder.

(** The Streamlit calls of the script.  [WGraphvizChart] carries the
    [Digraph] whose [.source] is charted. *)
Inductive widget :=
| WPageConfig (page_title layout initial_sidebar_state : string)
| WTitle (s : string)
| WWrite (s : string)
| WMarkdown (s : string)
| WHeader (s : string)
| WSuccess (s : string)
| WError (s : string)
| WJson (obj : list (string * pyval))
| WDataframe (df : DataFrame)
| WButton (label : string) (key : option string)
| WCheckbox (label : string) (value : bool)
| WSelectbox (label : string) (options : list string)
| WGraphvizChart (dot : Digraph)
| WSpinner (text : string)
| WDownloadButton (label data file_name mime : string).

Definition event : Type := place * widget.

(** The state a run of the script works on: the files, Streamlit's
    [session_state], the report object once the parser has built it, and
    the widgets drawn so far. *)
Record State := mkState {
  fs : FS;
  session_state : gmap string bool;
  report : option Report;
  out : list event
}.

(** Computations over [State] that may raise. *)
Definition M (A : Type) : Type := State → result A * State.

Definition ret {A} (a : A) : M A := λ s, (Ok a, s).

Definition bind {A B} (m : M A) (k : A → M B) : M B :=
  λ s, match m s with
       | (Ok a, s') => k a s'
       | (Raise e, s') => (Raise e, s')
       end.

Definition raise {A} (e : exn) : M A := λ s, (Raise e, s).

Definition lift {A} (r : result A) : M A := λ s, (r, s).

(** [try: m except Exception as e: h e] *)
Definition try_except {A} (m : M A) (h : exn → M A) : M A :=
  λ s, match m s with
       | (Ok a, s') => (Ok a, s')
       | (Raise e, s') => h e s'
       end.

Definition emit (p : place) (w : widget) : M unit :=
  λ s, (Ok tt, mkState (fs s) (session_state s) (report s) (out s ++ [(p, w)])).

Definition get_fs : M FS := λ s, (Ok (fs s), s).
Definition put_fs (f : FS) : M unit :=
  λ s, (Ok tt, mkState f (session_state s) (report s) (out s)).

Definition get_session : M (gmap string bool) := λ s, (Ok (session_state s), s).
Definition put_session (ss : gmap string bool) : M unit :=
  λ s, (Ok tt, mkState (fs s) ss (report s) (out s)).

Definition put_report (r : Report) : M unit :=
  λ s, (Ok tt, mkState (fs s) (session_state s) (Some r) (out s)).

End Rt.
Export Rt.

Notation "'let!' x ':=' m 'in' k" := (bind m (λ x, k))
  (at level 10, x name, m at level 100, k at level 200, only parsing).
Notation "m >> k" := (bind m (λ _, k))
  (at level 90, right associativity, only parsing).

(** ** [app.py] *)

Module App.

(** What one run of the script receives from outside: the user's
    actions on the widgets, the clock, and the outcomes of the calls into
    [parser.tableau_parser], [utils.dag], [utils.report],
    [utils.helpers] and graphviz' [pipe]. *)
Record Env := mkEnv {
  uploaded_file : option string;
  checkbox : string → bool;
  button : string → bool;
  selectbox : string → list string → string;
  now : string;
  decompress_twbx : FS → result unit * FS;
  twb_content : option string;
  parse_twb : result unit;
  get_report : result Report;
  generate_dag : pyval → pyval → pyval → option string → result DiGraph;
  generate_html_report : list string → Report → result string;
  convert_html_to_pdf : string → result (option string);
  image_to_base64 : string → string;
  pipe : Digraph → result string
}.

(** *** Logging through logzero *)

Definition log_path : string := "logs/app.log".

(** A log line: the level and the message (logzero's time stamp and
    source position are left out). *)
Definition log_line (lvl msg : string) : string := "[" +:+ lvl +:+ "] " +:+ msg.

Definition append_line (line : string) (f : FS) : FS :=
  match f !! log_path with
  | Some (File c) => <[log_path := File (c ++ [line])]> f
  | _ => <[log_path := File [line]]> f
  end.

Definition logger_info (msg : string) : M unit :=
  let! f := get_fs in put_fs (append_line (log_line "I" msg) f).

Definition logger_error (msg : string) : M unit :=
  let! f := get_fs in put_fs (append_line (log_line "E" msg) f).

(** [if not os.path.exists('logs'): os.makedirs('logs')] *)
Definition ensure_logs_dir : M unit :=
  let! f := get_fs in
  match f !! "logs" with
  | Some _ => ret tt
  | None => put_fs (<["logs" := Dir]> f)
  end.

(** [logzero.logfile("logs/app.log", ...)]: opens the file for appending
    (rotation of a full log is left out). *)
Definition logfile : M unit :=
  let! f := get_fs in
  match f !! "logs", f !! log_path with
  | Some Dir, Some (File _) => ret tt
  | Some Dir, None => put_fs (<[log_path := File []]> f)
  | Some Dir, Some Dir => raise (OSError "IsADirectoryError")
  | _, _ => raise (OSError "NotADirectoryError")
  end.

(** *** Widgets that return a value *)

Definition st_button (env : Env) (p : place) (label : string)
    (key : option string) : M bool :=
  emit p (WButton label key) >> ret (button env (default label key)).

Definition st_checkbox (env : Env) (p : place) (label : string)
    (value : bool) : M bool :=
  emit p (WCheckbox label value) >> ret (checkbox env label).

Definition st_selectbox (env : Env) (p : place) (label : string)
    (options : list string) : M string :=
  emit p (WSelectbox label options) >> ret (selectbox env label options).

(** *** Session state *)

(** [if key not in st.session_state: st.session_state[key] = False] *)
Definition init_flag (key : string) : M unit :=
  let! ss := get_session in
  match ss !! key with
  | Some _ => ret tt
  | None => put_session (<[key := false]> ss)
  end.

(** [st.session_state[key]] *)
Definition read_flag (key : string) : M bool :=
  let! ss := get_session in
  match ss !! key with
  | Some b => ret b
  | None => raise (KeyError key)
  end.

Definition write_flag (key : string) (b : bool) : M unit :=
  let! ss := get_session in put_session (<[key := b]> ss).

(** *** [toggle_table_display] (lines 44-73) *)

Definition toggle_table_display (env : Env) (section_key : string)
    (dataframe : DataFrame) (display_limit : Z) (section_label : string)
  : M unit :=
  init_flag section_key >>
  let! expanded := read_flag section_key in
  if expanded then
    emit Page (WDataframe dataframe) >>
    let! clicked := st_button env Page ("📂 Show Less " +:+ section_label)
                      (Some ("show_less_" +:+ section_key)) in
    if clicked then write_flag section_key false else ret tt
  else
    if len dataframe >? display_limit then
      emit Page (WDataframe (head display_limit dataframe)) >>
      let! clicked := st_button env Page ("📂 Show More " +:+ section_label)
                        (Some ("show_more_" +:+ section_key)) in
      if clicked then write_flag section_key true else ret tt
    else
      emit Page (WDataframe dataframe).

(** *** [main] (lines 75-347) *)

Definition section_keys : list (string * string) :=
  [("Original Fields", "show_original_fields");
   ("Calculated Fields", "show_calculated_fields");
   ("Worksheets", "show_worksheets");
   ("Data Sources", "show_data_sources")].

(** [section_keys[name]], for the four names above. *)
Definition section_key (name : string) : string :=
  default "" (snd <$> find (λ kv, String.eqb kv.1 name) section_keys).

Fixpoint for_each {A} (l : list A) (body : A → M unit) : M unit :=
  match l with
  | [] => ret tt
  | x :: l' => body x >> for_each l' body
  end.

Definition init_session_states : M unit :=
  for_each (map snd section_keys) init_flag.

Definition page_title : string :=
  "📊 Tableau Workbook Parser and Report Generator".

Definition description : string :=
  "
    Upload a Tableau Workbook (`.twbx` file) to parse its contents and generate comprehensive reports, 
    including version information, calculated fields, original fields, worksheets, and data sources. Additionally, visualize 
    dependencies between calculated fields and original columns using a Directed Acyclic Graph (DAG).
    ".

Definition temp_twbx_path : string := "temp_uploaded.twbx".

(** [with open(path, "wb") as f: f.write(buf)] *)
Definition write_binary (path buf : string) : M unit :=
  let! f := get_fs in
  match f !! path with
  | Some Dir => raise (OSError "IsADirectoryError")
  | _ => put_fs (<[path := File [buf]]> f)
  end.

(** [open(path, "rb")], read in full. *)
Definition read_binary (path : string) : M string :=
  let! f := get_fs in
  match f !! path with
  | Some (File c) => ret (String.concat "" c)
  | Some Dir => raise (OSError "IsADirectoryError")
  | None => raise (OSError "FileNotFoundError")
  end.

(** Lines 117-127.  The result tells whether [main] goes on ([false]
    stands for its [return]); likewise below. *)
Definition save_upload (buf : string) : M bool :=
  try_except
    (write_binary temp_twbx_path buf >>
     logger_info ("Uploaded file saved to " +:+ temp_twbx_path) >>
     emit Sidebar (WSuccess "File uploaded successfully.") >>
     emit Page (WWrite "✅ **File uploaded and saved successfully.**") >>
     ret true)
    (λ e,
     logger_error ("Failed to save uploaded file: " +:+ exn_str e) >>
     emit Page (WError "❌ Failed to save the uploaded file.") >>
     ret false).

(** [parser.decompress_twbx()]: may raise, may touch files. *)
Definition run_decompress (env : Env) : M unit :=
  λ s, let '(r, f) := decompress_twbx env (fs s) in
       (r, mkState f (session_state s) (report s) (out s)).

(** Lines 129-138. *)
Definition decompress (env : Env) : M bool :=
  try_except
    (run_decompress env >>
     logger_info "Decompressed the .twbx file." >>
     emit Page (WWrite "🗜️ **Decompressed the `.twbx` file successfully.**") >>
     ret true)
    (λ e,
     logger_error ("Failed to decompress `.twbx` file: " +:+ exn_str e) >>
     emit Page (WError "❌ Failed to decompress the `.twbx` file.") >>
     ret false).

(** Lines 140-154. *)
Definition parse (env : Env) : M bool :=
  if truthy (twb_content env) then
    try_except
      (lift (parse_twb env) >>
       logger_info "Parsed the .twb content." >>
       emit Page (WWrite "📄 **Parsed the `.twb` content successfully.**") >>
       let! r := lift (get_report env) in
       put_report r >>
       logger_info "Report generated from parsed data." >>
       ret true)
      (λ e,
       logger_error ("Failed to parse `.twb` content: " +:+ exn_str e) >>
       emit Page (WError "❌ Failed to parse the `.twb` content.") >>
       ret false)
  else
    logger_error "Failed to extract `.twb` content from the uploaded `.twbx` file." >>
    emit Page (WError "❌ Failed to extract `.twb` content from the uploaded `.twbx` file.") >>
    ret false.

Definition report_sections : list string :=
  ["Version Information"; "Calculated Fields"; "Original Fields";
   "Worksheets"; "Data Sources"; "Dependency DAG"].

(** Lines 156-167. *)
Fixpoint choose_sections (env : Env) (sections : list string)
  : M (list string) :=
  match sections with
  | [] => ret []
  | section :: rest =>
      let! checked := st_checkbox env Sidebar ("Include " +:+ section) true in
      let! selected := choose_sections env rest in
      ret (if checked then section :: selected else selected)
  end.

Definition select_sections (env : Env) : M (list string) :=
  emit Sidebar (WHeader "Report Generation") >>
  let! selected_sections := choose_sections env report_sections in
  logger_info ("Selected report sections: " +:+ list_repr selected_sections) >>
  emit Page (WWrite "### Selected Report Sections") >>
  emit Page (WWrite (String.concat ", " selected_sections)) >>
  emit Page (WMarkdown "---") >>
  ret selected_sections.

(** The report object built by the parser. *)
Definition the_report : M Report :=
  λ s, match report s with
       | Some r => (Ok r, s)
       | None => (Raise (Other "NameError: report"), s)
       end.

(** [report['metadata'][k] = v] *)
Definition set_metadata (k : string) (v : pyval) : M unit :=
  let! r := the_report in
  let! metadata := lift (namespace "metadata" r) in
  put_report (<["metadata" := <[k := v]> metadata]> r).

(** Lines 176-181 (and 184-189): the left join with the captions and the
    renaming of the joined column. *)
Definition caption_merge (fields df_data_sources : DataFrame)
  : result DataFrame :=
  try! captions := select ["Data Source ID"; "Caption"] df_data_sources in
  try! merged := merge_left "Data Source ID" fields captions in
  Ok (rename "Caption" "Data Source Caption" merged).

(** Lines 175-182 for [key = "calculated_fields"], 183-190 for
    [key = "original_fields"]. *)
Definition merge_field_table (key : string) (fields_df : pyval)
    (df_data_sources : DataFrame) : M unit :=
  let! fields := lift (as_frame "empty" fields_df) in
  if negb (empty fields) && has_column "Data Source ID" fields then
    let! merged := lift (caption_merge fields df_data_sources) in
    set_metadata key (PFrame merged)
  else ret tt.

(** Lines 169-190. *)
Definition merge_captions : M unit :=
  let! r := the_report in
  let! data := lift (namespace "data" r) in
  let df_data_sources := get "data_sources" (PFrame empty_frame) data in
  let! metadata := lift (namespace "metadata" r) in
  let calculated_fields_df := get "calculated_fields" (PFrame empty_frame) metadata in
  let original_fields_df := get "original_fields" (PFrame empty_frame) metadata in
  let! data_sources := lift (as_frame "empty" df_data_sources) in
  if negb (empty data_sources) then
    merge_field_table "calculated_fields" calculated_fields_df data_sources >>
    merge_field_table "original_fields" original_fields_df data_sources
  else ret tt.

(** Lines 197-203. *)
Definition version_info (metadata : pydict) : list (string * pyval) :=
  [("Version", get "version" (PStr "Unknown") metadata);
   ("Source Platform", get "source_platform" (PStr "Unknown") metadata);
   ("Source Build", get "source_build" (PStr "Unknown") metadata)].

Definition version_information : M unit :=
  let! r := the_report in
  let! metadata := lift (namespace "metadata" r) in
  emit Page (WJson (version_info metadata)).

(** The four table sections (lines 205-259) differ in the namespace and
    key of their table, their title and their message only. *)
Definition table_section (env : Env) (ns key section empty_msg : string)
  : M unit :=
  let! r := the_report in
  let! d := lift (namespace ns r) in
  let! df := lift (as_frame "empty" (get key (PFrame empty_frame) d)) in
  if negb (empty df) then
    let df := shift_index 1 (reset_index df) in
    toggle_table_display env (section_key section) df 10 section
  else emit Page (WWrite empty_msg).

(** Lines 266-267: the worksheet names offered for the graph.  Without a
    ['Worksheet Name'] column [.get] yields the list [[]], which has no
    [dropna]. *)
Definition worksheet_names (worksheets : pyval) : result (list string) :=
  try! ws := as_frame "get" worksheets in
  match column "Worksheet Name" ws with
  | Some cells => Ok (dropna_unique cells)
  | None => Raise (AttributeError "'list' object has no attribute 'dropna'")
  end.

Definition insufficient_data : M unit :=
  emit Page (WWrite "Insufficient data to generate Dependency DAG.").

(** Lines 261-274. *)
Definition dependency_dag (env : Env) : M unit :=
  let! r := the_report in
  let! metadata := lift (namespace "metadata" r) in
  let calculated_fields_df := get "calculated_fields" (PFrame empty_frame) metadata in
  let original_fields_df := get "original_fields" (PFrame empty_frame) metadata in
  let! data := lift (namespace "data" r) in
  let data_sources_df := get "data_sources" (PFrame empty_frame) data in
  let! calculated := lift (as_frame "empty" calculated_fields_df) in
  if negb (empty calculated) then
    let! original := lift (as_frame "empty" original_fields_df) in
    if negb (empty original) then
      let! worksheets :=
        lift (worksheet_names (get "worksheets" (PFrame empty_frame) metadata)) in
      let! selected_worksheet :=
        st_selectbox env Page "Select Worksheet for DAG:" ("All" :: worksheets) in
      let! G := lift (generate_dag env calculated_fields_df original_fields_df
                        data_sources_df (Some selected_worksheet)) in
      let dot := plot_dag_graphviz G in
      emit Page (WGraphvizChart dot)
    else insufficient_data
  else insufficient_data.

Definition section_body (env : Env) (section : string) : M unit :=
  if String.eqb section "Version Information" then version_information
  else if String.eqb section "Calculated Fields" then
    table_section env "metadata" "calculated_fields" "Calculated Fields"
      "No calculated fields found."
  else if String.eqb section "Original Fields" then
    table_section env "metadata" "original_fields" "Original Fields"
      "No original fields found."
  else if String.eqb section "Worksheets" then
    table_section env "metadata" "worksheets" "Worksheets"
      "No worksheets found."
  else if String.eqb section "Data Sources" then
    table_section env "data" "data_sources" "Data Sources"
      "No data sources found."
  else if String.eqb section "Dependency DAG" then dependency_dag env
  else ret tt.

(** Lines 195-278: one selected section. *)
Definition render_section (env : Env) (section : string) : M unit :=
  emit Page (WHeader section) >>
  try_except (section_body env section)
    (λ e,
     logger_error ("Error displaying section '" +:+ section +:+ "': " +:+ exn_str e) >>
     emit Page (WError ("❌ An error occurred while displaying the '"
                        +:+ section +:+ "' section."))).

(** Lines 192-278. *)
Definition render_sections (env : Env) (selected_sections : list string)
  : M unit :=
  for_each report_sections
    (λ section,
     if bool_decide (section ∈ selected_sections)
     then render_section env section else ret tt).

Definition dag_placeholder : string :=
  "<p>See the Dependency DAG visualization within the app.</p>".

Definition dag_image (img_base64 : string) : string :=
  "<h3>Dependency DAG</h3><img src='data:image/png;base64," +:+ img_base64 +:+ "'/>".

(** Lines 293-301. *)
Definition embed_dag (env : Env) (html_report : string) : M string :=
  let! r := the_report in
  let! metadata := lift (namespace "metadata" r) in
  let! calculated_fields := lift (item "calculated_fields" metadata) in
  let! original_fields := lift (item "original_fields" metadata) in
  let! data := lift (namespace "data" r) in
  let! data_sources := lift (item "data_sources" data) in
  let! G := lift (generate_dag env calculated_fields original_fields
                    data_sources None) in
  let dot := plot_dag_graphviz G in
  let! img_bytes := lift (pipe env dot) in
  let img_base64 := image_to_base64 env img_bytes in
  let html_report := str_replace dag_placeholder (dag_image img_base64) html_report in
  logger_info "Dependency DAG embedded in HTML report." >>
  ret html_report.

(** Line 292: whether the exported report gets the graph. *)
Definition export_embeds_dag (selected_sections : list string) (r : Report)
  : result bool :=
  if bool_decide ("Dependency DAG" ∈ selected_sections) then
    try! metadata := namespace "metadata" r in
    try! calculated := as_frame "empty"
                         (get "calculated_fields" (PFrame empty_frame) metadata) in
    Ok (negb (empty calculated))
  else Ok false.

(** Lines 303-329. *)
Definition offer_download (env : Env) (export_format html_report : string)
  : M unit :=
  if String.eqb export_format "HTML" then
    emit Placeholder (WMarkdown "### 📥 Download Report") >>
    emit Placeholder
      (WDownloadButton "📄 Download HTML Report" html_report
         ("tableau_report_" +:+ now env +:+ ".html") "text/html") >>
    logger_info "HTML report ready for download."
  else if String.eqb export_format "PDF" then
    try_except
      (let! pdf := lift (convert_html_to_pdf env html_report) in
       if truthy pdf then
         emit Placeholder (WMarkdown "### 📥 Download Report") >>
         emit Placeholder
           (WDownloadButton "📄 Download PDF Report" (default "" pdf)
              ("tableau_report_" +:+ now env +:+ ".pdf") "application/pdf") >>
         logger_info "PDF report ready for download."
       else
         emit Placeholder (WError "❌ Failed to generate PDF report.") >>
         logger_error "Failed to generate PDF report: convert_html_to_pdf returned None.")
      (λ e,
       logger_error ("Failed to generate PDF: " +:+ exn_str e) >>
       emit Placeholder (WError ("❌ Failed to generate PDF: " +:+ exn_str e)))
  else ret tt.

(** Lines 289-332: the body of the [try] under the spinner. *)
Definition generate_export (env : Env) (selected_sections : list string)
    (export_format : string) : M unit :=
  let! r := the_report in
  let! html_report := lift (generate_html_report env selected_sections r) in
  logger_info "HTML report generated." >>
  let! embeds := lift (export_embeds_dag selected_sections r) in
  let! html_report :=
    (if embeds then embed_dag env html_report else ret html_report) in
  offer_download env export_format html_report.

(** Lines 280-332. *)
Definition export_report (env : Env) (selected_sections : list string)
  : M unit :=
  emit Page (WMarkdown "---") >>
  emit Sidebar (WHeader "Export Report") >>
  let! export_format :=
    st_selectbox env Sidebar "Select export format:" ["HTML"; "PDF"] in
  let! clicked := st_button env Sidebar "Generate and Download Report" None in
  if clicked then
    logger_info "Generate and Download Report button clicked." >>
    emit Placeholder (WSpinner "🔄 Generating report...") >>
    try_except (generate_export env selected_sections export_format)
      (λ e,
       logger_error ("Failed during report generation: " +:+ exn_str e) >>
       emit Placeholder
         (WError ("❌ An error occurred during report generation: " +:+ exn_str e)))
  else ret tt.

(** Lines 334-347. *)
Definition download_original (env : Env) : M unit :=
  emit Sidebar (WHeader "Download Original File") >>
  let! clicked := st_button env Sidebar "⬇️ Download Uploaded `.twbx`" None in
  if clicked then
    try_except
      (let! data := read_binary temp_twbx_path in
       emit Sidebar
         (WDownloadButton "⬇️ Download `.twbx` File" data temp_twbx_path
            "application/octet-stream") >>
       logger_info "Original .twbx file ready for download.")
      (λ e,
       logger_error ("Failed to download .twbx file: " +:+ exn_str e) >>
       emit Sidebar (WError "❌ Failed to download the original `.twbx` file."))
  else ret tt.

(** Lines 156-347: what [main] does with a parsed report. *)
Definition present (env : Env) : M unit :=
  let! selected_sections := select_sections env in
  merge_captions >>
  render_sections env selected_sections >>
  export_report env selected_sections >>
  download_original env.

(** Lines 75-114. *)
Definition startup : M unit :=
  init_session_states >>
  ensure_logs_dir >>
  logfile >>
  logger_info "Streamlit app started." >>
  emit Page (WPageConfig page_title "wide" "expanded") >>
  emit Page (WTitle page_title) >>
  emit Page (WWrite description) >>
  emit Sidebar (WHeader "Upload and Settings").

Definition main (env : Env) : M unit :=
  startup >>
  match uploaded_file env with
  | None => ret tt
  | Some buf =>
      let! saved := save_upload buf in
      if negb saved then ret tt else
      let! decompressed := decompress env in
      if negb decompressed then ret tt else
      let! parsed := parse env in
      if negb parsed then ret tt else
      present env
  end.

End App.
Export App.

(** ** The parser's side of the contract *)

Module ParserSpec.

(** Modelled from the spec: the version info of the Document Parser.
    Section 4.2: a version or platform attribute missing from the root
    element defaults to the sentinel ["Unknown"]. *)
Definition attribute (root : gmap string string) (name : string) : pyval :=
  PStr (default "Unknown" (root !! name)).

Definition version_entries (root : gmap string string) : pydict :=
  {[ "version" := attribute root "version";
     "source_platform" := attribute root "source-platform";
     "source_build" := attribute root "source-build" ]}.

(** The records of section 3, each with the cells of the columns the
    spec does not name. *)
Record DataSource := mkDataSource {
  ds_id : string;
  ds_caption : cell;
  ds_more : list cell
}.

Record Field := mkField {
  field_owner : string;
  field_more : list cell
}.

Record Worksheet := mkWorksheet {
  ws_name : string;
  ws_more : list cell
}.

Section Tables.

(** The names of the further columns of each table. *)
Variables ds_columns field_columns ws_columns : list string.

(** Modelled from the spec: the tables of the report (section 6), row
    oriented under the stable column names ['Data Source ID'],
    ['Caption'] and ['Worksheet Name']. *)
Definition data_sources_table (l : list DataSource) : DataFrame :=
  mkDF (range_index (length l))
    ("Data Source ID" :: "Caption" :: ds_columns)
    (map (λ d, Some (ds_id d) :: ds_caption d :: ds_more d) l).

Definition fields_table (l : list Field) : DataFrame :=
  mkDF (range_index (length l))
    ("Data Source ID" :: field_columns)
    (map (λ f, Some (field_owner f) :: field_more f) l).

Definition worksheets_table (l : list Worksheet) : DataFrame :=
  mkDF (range_index (length l))
    ("Worksheet Name" :: ws_columns)
    (map (λ w, Some (ws_name w) :: ws_more w) l).

(** Modelled from the spec: the report aggregate of section 6, with its
    two namespaces [metadata] and [data]. *)
Definition get_report (root : gmap string string)
    (data_sources : list DataSource) (original calculated : list Field)
    (worksheets : list Worksheet) : Report :=
  {[ "metadata" :=
       <["calculated_fields" := PFrame (fields_table calculated)]>
       (<["original_fields" := PFrame (fields_table original)]>
       (<["worksheets" := PFrame (worksheets_table worksheets)]>
       (version_entries root)));
     "data" :=
       {[ "data_sources" := PFrame (data_sources_table data_sources) ]} ]}.

End Tables.

End ParserSpec.

(** ** A sample run *)

Module Sample.

Definition data_sources : DataFrame :=
  mkDF [0] ["Data Source ID"; "Caption"] [[Some "ds1"; Some "Sales DB"]].

Definition calculated_fields : DataFrame :=
  mkDF [0; 1] ["Field Name"; "Formula"; "Data Source ID"]
    [[Some "Profit Ratio"; Some "SUM([Profit])/SUM([Sales])"; Some "ds1"];
     [Some "Margin"; Some "[Profit Ratio] * 100"; Some "ds2"]].

Definition original_fields : DataFrame :=
  mkDF [0; 1] ["Field Name"; "Data Source ID"]
    [[Some "Sales"; Some "ds1"]; [Some "Profit"; Some "ds1"]].

Definition worksheets : DataFrame :=
  mkDF [0] ["Worksheet Name"] [[Some "Overview"]].

Definition sample_report : Report :=
  {[ "metadata" :=
       {[ "version" := PStr "18.1";
          "calculated_fields" := PFrame calculated_fields;
          "original_fields" := PFrame original_fields;
          "worksheets" := PFrame worksheets ]};
     "data" := {[ "data_sources" := PFrame data_sources ]} ]}.

Definition sample_graph : DiGraph :=
  mkGraph
    [("ds1", {[ "type" := Some "Data Source" ]});
     ("Sales", {[ "type" := Some "Original Field" ]});
     ("Profit Ratio", {[ "type" := Some "Calculated Field" ]});
     ("Margin", ∅)]
    [("ds1", "Sales", ∅);
     ("Sales", "Profit Ratio", {[ "label" := Some "SUM" ]})].

Definition sample_env : Env :=
  mkEnv (Some "PK-bytes") (λ _, true) (λ _, false) (λ _ _, "All")
    "20261104_100300"
    (λ f, (Ok tt, f)) (Some "<workbook/>") (Ok tt) (Ok sample_report)
    (λ _ _ _ _, Ok sample_graph)
    (λ _ _, Ok "<html><p>See the Dependency DAG visualization within the app.</p></html>")
    (λ _, Ok (Some "%PDF"))
    (λ b, b)
    (λ _, Ok "png").

Definition start : State := mkState ∅ ∅ None [].

(** The same upload, but the archive cannot be opened. *)
Definition broken_archive_env : Env :=
  mkEnv (Some "PK-bytes") (λ _, true) (λ _, false) (λ _ _, "All")
    "20261104_100300"
    (λ f, (Raise (Other "BadZipFile"), f)) None (Ok tt) (Ok sample_report)
    (λ _ _ _ _, Ok sample_graph)
    (λ _ _, Ok "<html></html>")
    (λ _, Ok (Some "%PDF"))
    (λ b, b)
    (λ _, Ok "png").

(** A report with calculated fields and no original field. *)
Definition no_originals : DataFrame := mkDF [] ["Field Name"; "Data Source ID"] [].

Definition no_originals_metadata : pydict :=
  {[ "version" := PStr "18.1";
     "calculated_fields" := PFrame calculated_fields;
     "original_fields" := PFrame no_originals;
     "worksheets" := PFrame worksheets ]}.

Definition sample_data : pydict := {[ "data_sources" := PFrame data_sources ]}.

Definition no_originals_report : Report :=
  {[ "metadata" := no_originals_metadata; "data" := sample_data ]}.

Definition no_originals_state : State :=
  mkState ∅ ∅ (Some no_originals_report) [].

(** A report whose metadata has no worksheet table at all. *)
Definition no_worksheet_table_metadata : pydict :=
  {[ "version" := PStr "18.1";
     "calculated_fields" := PFrame calculated_fields;
     "original_fields" := PFrame original_fields ]}.

Definition no_worksheet_table_report : Report :=
  {[ "metadata" := no_worksheet_table_metadata; "data" := sample_data ]}.

Definition no_worksheet_table_state : State :=
  mkState ∅ ∅ (Some no_worksheet_table_report) [].

(** A data source table that has ids and nothing else. *)
Definition ids_only : DataFrame := mkDF [0] ["Data Source ID"] [[Some "ds1"]].

Definition ids_only_data : pydict := {[ "data_sources" := PFrame ids_only ]}.

Definition ids_only_report : Report :=
  {[ "metadata" := no_worksheet_table_metadata; "data" := ids_only_data ]}.

Definition ids_only_state : State := mkState ∅ ∅ (Some ids_only_report) [].


(** A run without an upload. *)
Definition no_upload_env : Env :=
  mkEnv None (λ _, true) (λ _, false) (λ _ _, "All")
    "20261104_100300"
    (λ f, (Ok tt, f)) None (Ok tt) (Ok sample_report)
    (λ _ _ _ _, Ok sample_graph)
    (λ _ _, Ok "<html></html>")
    (λ _, Ok (Some "%PDF"))
    (λ b, b)
    (λ _, Ok "png").

(** A working directory where [logs] is a plain file. *)
Definition logs_is_a_file : State :=
  mkState {[ "logs" := File ["not a directory"] ]} ∅ None [].

(** A working directory where the upload's path is taken by a directory. *)
Definition upload_path_is_a_directory : State :=
  mkState {[ "temp_uploaded.twbx" := Dir ]} ∅ None [].

(** The sample run with 'Download Uploaded .twbx' clicked. *)
Definition download_env : Env :=
  mkEnv (Some "PK-bytes") (λ _, true)
    (λ k, String.eqb k "⬇️ Download Uploaded `.twbx`") (λ _ _, "All")
    "20261104_100300"
    (λ f, (Ok tt, f)) (Some "<workbook/>") (Ok tt) (Ok sample_report)
    (λ _ _ _ _, Ok sample_graph)
    (λ _ _, Ok "<html></html>")
    (λ _, Ok (Some "%PDF"))
    (λ b, b)
    (λ _, Ok "png").

(** A run where the export is asked for and the report generator fails. *)
Definition broken_export_env : Env :=
  mkEnv (Some "PK-bytes") (λ _, true)
    (λ k, String.eqb k "Generate and Download Report") (λ _ _, "HTML")
    "20261104_100300"
    (λ f, (Ok tt, f)) (Some "<workbook/>") (Ok tt) (Ok sample_report)
    (λ _ _ _ _, Ok sample_graph)
    (λ _ _, Raise (Other "template missing"))
    (λ _, Ok (Some "%PDF"))
    (λ b, b)
    (λ _, Ok "png").

(** A worksheet table with a repeated name and a missing one. *)
Definition repeated_worksheets : DataFrame :=
  mkDF [0; 1; 2; 3] ["Worksheet Name"]
    [[Some "Overview"]; [None]; [Some "Detail"]; [Some "Overview"]].

Definition repeated_worksheets_metadata : pydict :=
  {[ "version" := PStr "18.1";
     "calculated_fields" := PFrame calculated_fields;
     "original_fields" := PFrame original_fields;
     "worksheets" := PFrame repeated_worksheets ]}.

Definition repeated_worksheets_report : Report :=
  {[ "metadata" := repeated_worksheets_metadata; "data" := sample_data ]}.

Definition repeated_worksheets_state : State :=
  mkState ∅ ∅ (Some repeated_worksheets_report) [].

(** Three worksheets. *)
Definition three_rows : DataFrame :=
  mkDF [1; 2; 3] ["Worksheet Name"] [[Some "A"]; [Some "B"]; [Some "C"]].

(** A root element with a version and nothing else, and the report the
    parser makes of it for a workbook without content. *)
Definition version_only : gmap string string := {[ "version" := "18.1" ]}.

Definition version_only_report : Report :=
  ParserSpec.get_report [] [] [] version_only [] [] [] [].

(** A workbook without worksheets. *)
Definition no_worksheets : DataFrame := mkDF [] ["Worksheet Name"] [].

Definition no_worksheets_report : Report :=
  {[ "metadata" :=
       {[ "version" := PStr "18.1";
          "calculated_fields" := PFrame calculated_fields;
          "original_fields" := PFrame original_fields;
          "worksheets" := PFrame no_worksheets ]};
     "data" := {[ "data_sources" := PFrame data_sources ]} ]}.

Definition no_worksheets_env : Env :=
  mkEnv (Some "PK-bytes") (λ _, true) (λ _, false) (λ _ _, "All")
    "20261104_100300"
    (λ f, (Ok tt, f)) (Some "<workbook/>") (Ok tt) (Ok no_worksheets_report)
    (λ _ _ _ _, Ok sample_graph)
    (λ _ _, Ok "<html></html>")
    (λ _, Ok (Some "%PDF"))
    (λ b, b)
    (λ _, Ok "png").

(** A workbook without worksheets whose data source table has ids and
    no captions. *)
Definition captionless_report : Report :=
  {[ "metadata" :=
       {[ "version" := PStr "18.1";
          "calculated_fields" := PFrame calculated_fields;
          "original_fields" := PFrame original_fields;
          "worksheets" := PFrame no_worksheets ]};
     "data" := ids_only_data ]}.

Definition captionless_env : Env :=
  mkEnv (Some "PK-bytes") (λ _, true) (λ _, false) (λ _ _, "All")
    "20261104_100300"
    (λ f, (Ok tt, f)) (Some "<workbook/>") (Ok tt) (Ok captionless_report)
    (λ _ _ _ _, Ok sample_graph)
    (λ _ _, Ok "<html></html>")
    (λ _, Ok (Some "%PDF"))
    (λ b, b)
    (λ _, Ok "png").

End Sample.

(** * The vocabulary of the properties *)

(** The style a node is to get, read off its ['type'] tag. *)
Definition claimed_style (data : attrs) (kw : kwargs) : Prop :=
  match data !! "type" with
  | None => kw = style_original
  | Some tag =>
      (tag = Some "Calculated Field" ∧ kw = style_calculated) ∨
      (tag = Some "Original Field" ∧ kw = style_original) ∨
      (tag = Some "Data Source" ∧ kw = style_data_source) ∨
      (tag ≠ Some "Calculated Field" ∧ tag ≠ Some "Original Field" ∧
       tag ≠ Some "Data Source" ∧ kw = style_default)
  end.

(** An edge statement carries a label exactly when the edge has a
    non-empty one, and then that one. *)
Definition claimed_label (a : attrs) (kw : kwargs) : Prop :=
  ∀ l, ("label", l) ∈ kw ↔ a !! "label" = Some (Some l) ∧ l ≠ "".

(** The section's flag as [toggle_table_display] reads it: an unset flag
    is initialised to [False]. *)
Definition expanded (s : State) (section_key : string) : bool :=
  default false (session_state s !! section_key).

Definition show_less (section_key section_label : string) : event :=
  (Page, WButton ("📂 Show Less " +:+ section_label)
           (Some ("show_less_" +:+ section_key))).

Definition show_more (section_key section_label : string) : event :=
  (Page, WButton ("📂 Show More " +:+ section_label)
           (Some ("show_more_" +:+ section_key))).

(** What [toggle_table_display] draws, and the flags it leaves. *)
Definition toggle_events (section_key section_label : string)
    (dataframe : DataFrame) (display_limit : Z) (s : State) : list event :=
  if expanded s section_key then
    [(Page, WDataframe dataframe); show_less section_key section_label]
  else if len dataframe >? display_limit then
    [(Page, WDataframe (head display_limit dataframe));
     show_more section_key section_label]
  else [(Page, WDataframe dataframe)].

Definition toggle_flags (env : Env) (section_key : string)
    (dataframe : DataFrame) (display_limit : Z) (s : State)
  : gmap string bool :=
  let ss := <[section_key := expanded s section_key]> (session_state s) in
  if expanded s section_key then
    if button env ("show_less_" +:+ section_key)
    then <[section_key := false]> ss else ss
  else if len dataframe >? display_limit then
    if button env ("show_more_" +:+ section_key)
    then <[section_key := true]> ss else ss
  else ss.

(** A widget that renders a report section: every section opens with its
    header on the page and shows a JSON object, a table or a chart. *)
Definition renders_section (e : event) : bool :=
  match e with
  | (Page, WHeader _) | (_, WJson _) | (_, WDataframe _)
  | (_, WGraphvizChart _) => true
  | _ => false
  end.

Definition no_section (e : event) : bool := negb (renders_section e).
Definition any_widget (e : event) : bool := true.

(** From [f] to [f'] the saved upload is the same and no path was
    removed. *)
Definition kept (f f' : FS) : Prop :=
  f' !! temp_twbx_path = f !! temp_twbx_path ∧
  ∀ path, is_Some (f !! path) → is_Some (f' !! path).

(** [frame P keep_report keep_files s s']: from [s] to [s'] the widgets
    drawn so far were only added to, by widgets among [P]; the report
    object is the same if [keep_report]; the files are [kept] if
    [keep_files]. *)
Definition frame (P : event → bool) (keep_report keep_files : bool)
    (s s' : State) : Prop :=
  (∃ evs, out s' = out s ++ evs ∧ forallb P evs = true) ∧
  (keep_report = true → report s' = report s) ∧
  (keep_files = true → kept (fs s) (fs s')).

(** A computation keeps the frame whatever its outcome. *)
Definition preserves {A} (P : event → bool) (keep_report keep_files : bool)
    (m : M A) : Prop :=
  ∀ s, frame P keep_report keep_files s (m s).2.

(** The parser leaves the saved upload alone and removes no file that
    was there before it ran. *)
Definition keeps_files (env : Env) : Prop :=
  ∀ f, kept f (decompress_twbx env f).2.

Definition decompress_error : event :=
  (Page, WError "❌ Failed to decompress the `.twbx` file.").
Definition extract_error : event :=
  (Page, WError "❌ Failed to extract `.twb` content from the uploaded `.twbx` file.").
Definition parse_error : event :=
  (Page, WError "❌ Failed to parse the `.twb` content.").

(** [s] after the widgets [evs] were drawn. *)
Definition drawn (s : State) (evs : list event) : State :=
  mkState (fs s) (session_state s) (report s) (out s ++ evs).

(** The table sections: title, namespace and key of the table, message
    for an empty table. *)
Definition table_sections : list (string * string * string * string) :=
  [("Calculated Fields", "metadata", "calculated_fields", "No calculated fields found.");
   ("Original Fields", "metadata", "original_fields", "No original fields found.");
   ("Worksheets", "metadata", "worksheets", "No worksheets found.");
   ("Data Sources", "data", "data_sources", "No data sources found.")].

(** [report[ns].get(key, pd.DataFrame())], as a frame. *)
Definition table_of (ns key : string) (r : Report) : result DataFrame :=
  try! d := namespace ns r in
  as_frame "empty" (get key (PFrame empty_frame) d).

(** Decompression raises, or yields no document text, or one of the two
    parser calls raises. *)
Definition extraction_or_parsing_fails (env : Env) (f : FS) : Prop :=
  is_ok (decompress_twbx env f).1 = false ∨
  truthy (twb_content env) = false ∨
  is_ok (parse_twb env) = false ∨
  is_ok (get_report env) = false.

(** After a parse that returned a report, every selected table section
    whose table is empty shows its message. *)
Definition explains_empty_tables : Prop :=
  ∀ env s r section ns key msg df,
    report s = None → report (main env s).2 = Some r →
    (section, ns, key, msg) ∈ table_sections →
    checkbox env ("Include " +:+ section) = true →
    table_of ns key r = Ok df → empty df = true →
    (Page, WWrite msg) ∈ out (main env s).2.

(** The widget is the text [msg] written on the page. *)
Definition writes (msg : string) (e : event) : bool :=
  match e with
  | (Page, WWrite m) => String.eqb m msg
  | _ => false
  end.


(** [row[c]], missing when there is no such column. *)
Definition value (cols : list string) (c : string) (row : list cell) : cell :=
  default None (cell_at cols c row).







(** The entry of a field table after the merge stage: what the parser put
    there, or its caption merge with the data source table. *)
Definition merged_entry (r : Report) (md : pydict) (k : string)
    (v' : option pyval) : Prop :=
  v' = md !! k ∨
  ∃ fields ds merged,
    md !! k = Some (PFrame fields) ∧
    table_of "data" "data_sources" r = Ok ds ∧
    caption_merge fields ds = Ok merged ∧
    v' = Some (PFrame merged).

(** [r'] is [r] but for the two field tables, which may have been
    replaced by their caption merge. *)
Definition caption_update (r r' : Report) : Prop :=
  r' = r ∨
  ∃ md md',
    r !! "metadata" = Some md ∧ r' = <["metadata" := md']> r ∧
    (∀ k, k ≠ "calculated_fields" → k ≠ "original_fields" →
          md' !! k = md !! k) ∧
    merged_entry r md "calculated_fields" (md' !! "calculated_fields") ∧
    merged_entry r md "original_fields" (md' !! "original_fields").

(** The chart of the graph [generate_dag] builds from the three tables
    of the report [r] and the worksheet chosen on the page. *)
Definition report_chart (env : Env) (r : Report) : option Digraph :=
  md ← r !! "metadata";
  data ← r !! "data";
  match worksheet_names (get "worksheets" (PFrame empty_frame) md) with
  | Ok names =>
      match generate_dag env
              (get "calculated_fields" (PFrame empty_frame) md)
              (get "original_fields" (PFrame empty_frame) md)
              (get "data_sources" (PFrame empty_frame) data)
              (Some (selectbox env "Select Worksheet for DAG:" ("All" :: names)))
      with
      | Ok G => Some (plot_dag_graphviz G)
      | Raise _ => None
      end
  | Raise _ => None
  end.

(** The image put into the exported report: that of the graph
    [generate_dag] builds from the three tables of the report [r]. *)
Definition report_image (env : Env) (r : Report) : option string :=
  md ← r !! "metadata";
  data ← r !! "data";
  calculated ← md !! "calculated_fields";
  original ← md !! "original_fields";
  data_sources ← data !! "data_sources";
  match generate_dag env calculated original data_sources None with
  | Ok G =>
      match pipe env (plot_dag_graphviz G) with
      | Ok img => Some (dag_image (image_to_base64 env img))
      | Raise _ => None
      end
  | Raise _ => None
  end.

(** The HTML the export hands on for the report [r]: what
    [generate_html_report] makes of [r], as it is or with the image of
    the graph of [r] in place of the placeholder. *)
Definition report_html (env : Env) (selected : list string) (r : Report)
    (html : string) : Prop :=
  ∃ generated,
    generate_html_report env selected r = Ok generated ∧
    (html = generated ∨
     ∃ image, report_image env r = Some image ∧
              html = str_replace dag_placeholder image generated).

(** The sections ticked in the sidebar. *)
Definition ticked (env : Env) : list string :=
  List.filter (λ section, checkbox env ("Include " +:+ section)) report_sections.

(** A chart on the page is the chart of [r]; a download offered by the
    export carries the HTML [generate_html_report] made of [r], possibly
    with the image of the graph of [r] embedded, or its PDF conversion. *)
Definition drawn_from (env : Env) (r : Report) (e : event) : bool :=
  match e with
  | (_, WGraphvizChart dot) => bool_decide (report_chart env r = Some dot)
  | (Placeholder, WDownloadButton _ data _ _) =>
      match generate_html_report env (ticked env) r with
      | Ok generated =>
          let htmls :=
            generated ::
            match report_image env r with
            | Some image => [str_replace dag_placeholder image generated]
            | None => []
            end in
          existsb (λ html, bool_decide (data = html)
                           || bool_decide (convert_html_to_pdf env html
                                           = Ok (Some data))) htmls
      | Raise _ => false
      end
  | _ => true
  end.

(** Run on a state that holds the report [r], [m] leaves the report
    alone and draws widgets among [P] only. *)
Definition preserves_at {A} (r : Report) (P : event → bool) (m : M A) : Prop :=
  ∀ s, report s = Some r → frame P true false s (m s).2.

(** No file [main] wrote is left behind. *)
Definition cleans_up : Prop :=
  ∀ env s path, fs s !! path = None → fs (main env s).2 !! path = None.

Definition insufficient : event :=
  (Page, WWrite "Insufficient data to generate Dependency DAG.").

Definition html_download (env : Env) (html_report : string) : list event :=
  [(Placeholder, WMarkdown "### 📥 Download Report");
   (Placeholder,
    WDownloadButton "📄 Download HTML Report" html_report
      ("tableau_report_" +:+ now env +:+ ".html") "text/html")].

(** The keys of the version entries and the labels they are shown under. *)
Definition version_labels : list (string * string * string) :=
  [("version", "version", "Version");
   ("source-platform", "source_platform", "Source Platform");
   ("source-build", "source_build", "Source Build")].

(** ** Further vocabulary *)

(** The labels [1, 2, ..., n] the table sections number their rows with. *)
Definition from_one (n : nat) : list Z := map Z.of_nat (seq 1 n).

(** The section headers among the widgets drawn, in order. *)
Definition page_headers (evs : list event) : list string :=
  omap (λ e, match e with (Page, WHeader h) => Some h | _ => None end) evs.

Definition no_header (e : event) : bool :=
  match e with (Page, WHeader _) => false | _ => true end.

(** What a section draws when its body raised: its header and its error. *)
Definition section_failed (section : string) : list event :=
  [(Page, WHeader section);
   (Page, WError ("❌ An error occurred while displaying the '"
                  +:+ section +:+ "' section."))].

(** No widget at all. *)
Definition nothing (e : event) : bool := false.

(** What [main] draws before it looks at the upload. *)
Definition startup_widgets : list event :=
  [(Page, WPageConfig page_title "wide" "expanded");
   (Page, WTitle page_title);
   (Page, WWrite description);
   (Sidebar, WHeader "Upload and Settings")].

Definition save_error : event :=
  (Page, WError "❌ Failed to save the uploaded file.").

(** [old] occurs somewhere in [s]. *)
Fixpoint occurs (old s : string) : bool :=
  match drop_prefix old s with
  | Some _ => true
  | None =>
      match s with
      | EmptyString => false
      | String _ s' => occurs old s'
      end
  end.

(** An occurrence of [old] in [pre +:+ rest] starts within [pre]. *)
Fixpoint starts_within (old pre rest : string) : bool :=
  match pre with
  | EmptyString => false
  | String _ pre' =>
      match drop_prefix old (pre +:+ rest) with
      | Some _ => true
      | None => starts_within old pre' rest
      end
  end.

(** * Properties *)

(** ** Graph rendering *)

Lemma node_style_claimed (data : attrs) : claimed_style data (node_style data).
Proof.
  unfold claimed_style, node_style, node_type.
  destruct (data !! "type") as [tag|]; simpl; [|done].
  repeat case_bool_decide; naive_solver.
Qed.

Lemma edge_stmt_claimed (source target : string) (a : attrs) :
  ∃ kw, edge_stmt (source, target, a) = Edge source target kw ∧ claimed_label a kw.
Proof.
  unfold edge_stmt, edge_label, claimed_label.
  destruct (a !! "label") as [[l|]|] eqn:Hl; simpl.
  - case_bool_decide as Hempty; simpl; eexists; split; try reflexivity; intros l'.
    + subst l. rewrite elem_of_nil. naive_solver.
    + rewrite !elem_of_cons, elem_of_nil. naive_solver.
  - eexists; split; [reflexivity|]. intros l'. rewrite elem_of_nil. naive_solver.
  - eexists; split; [reflexivity|]. intros l'. rewrite elem_of_nil. naive_solver.
Qed.

(** C10. [plot_dag_graphviz] is defined on every graph: after the two
    attribute statements it emits one statement per node, in order, styled
    by the node's ['type'] tag (a node without the tag is styled as an
    'Original Field', a tag outside the three known ones gets the default
    style, which differs from the three others), then one statement per
    edge, in order, which carries a label exactly when the edge's label is
    present and non-empty. *)
Theorem plot_dag_graphviz_total (G : DiGraph) :
  (∃ node_stmts edge_stmts,
     body (plot_dag_graphviz G) =
       [GraphAttr [("rankdir", "LR")]; NodeAttr [("fontsize", "10")]]
       ++ node_stmts ++ edge_stmts ∧
     Forall2 (λ nd st, ∃ kw, st = Node nd.1 kw ∧ claimed_style nd.2 kw)
       (nodes G) node_stmts ∧
     Forall2 (λ e st, ∃ kw, st = Edge e.1.1 e.1.2 kw ∧ claimed_label e.2 kw)
       (edges G) edge_stmts) ∧
  style_default ∉ [style_calculated; style_original; style_data_source].
Proof.
  split.
  - eexists _, _. split; [reflexivity|]. split.
    + apply Forall2_fmap_r, Forall_Forall2_diag, Forall_forall.
      intros [name data] _. eexists. split; [reflexivity|].
      apply node_style_claimed.
    + apply Forall2_fmap_r, Forall_Forall2_diag, Forall_forall.
      intros [[source target] a] _. apply edge_stmt_claimed.
  - rewrite !elem_of_cons, elem_of_nil. unfold style_default, style_calculated,
      style_original, style_data_source. naive_solver.
Qed.

(** The sample graph has a node of each kind and a node without a tag. *)
Lemma plot_dag_graphviz_total_sample :
  body (plot_dag_graphviz Sample.sample_graph) =
    [GraphAttr [("rankdir", "LR")]; NodeAttr [("fontsize", "10")];
     Node "ds1" style_data_source; Node "Sales" style_original;
     Node "Profit Ratio" style_calculated; Node "Margin" style_original;
     Edge "ds1" "Sales" [];
     Edge "Sales" "Profit Ratio"
       [("label", "SUM"); ("fontsize", "8"); ("fontcolor", "gray")]].
Proof. reflexivity. Qed.

(** ** The table toggle *)

Lemma show_more_less (k l k' l' : string) : show_more k l ≠ show_less k' l'.
Proof. unfold show_more, show_less. simpl. intros H. inversion H. Qed.

Lemma head_first_rows (n : Z) (df : DataFrame) :
  0 ≤ n → n < len df →
  rows (head n df) = take (Z.to_nat n) (rows df) ∧ len (head n df) = n.
Proof.
  unfold head, head_count, len. intros H0 Hlt. simpl.
  destruct (Z.leb_spec 0 n); [|lia]. split; [done|].
  rewrite length_take. lia.
Qed.

Lemma toggle_table_display_run (env : Env) (section_key : string)
    (dataframe : DataFrame) (display_limit : Z) (section_label : string)
    (s : State) :
  toggle_table_display env section_key dataframe display_limit section_label s
  = (Ok tt,
     mkState (fs s)
       (toggle_flags env section_key dataframe display_limit s)
       (report s)
       (out s ++ toggle_events section_key section_label dataframe display_limit s)).
Proof.
  unfold toggle_table_display, toggle_events, toggle_flags, expanded, init_flag,
    read_flag, write_flag, st_button, bind, get_session, put_session, emit, ret,
    show_less, show_more.
  destruct s as [f ss r o]; simpl.
  destruct (ss !! section_key) as [[|]|] eqn:Hflag; simpl;
    rewrite ?Hflag, ?lookup_insert_eq; simpl;
    rewrite ?(insert_id ss section_key) by done;
    repeat match goal with
      | |- context [button env ?k] => destruct (button env k); simpl
      | |- context [len dataframe >? display_limit] =>
          destruct (len dataframe >? display_limit); simpl
      end;
    rewrite <- ?app_assoc; simpl; reflexivity.
Qed.

(** C8. [toggle_table_display] draws one table and at most one button.
    The table is the whole frame when the section's flag is set or the
    frame has at most [display_limit] rows, and [head(display_limit)] of it
    otherwise, which for a limit from 0 up is exactly its first
    [display_limit] rows.  'Show More' is offered exactly when the frame
    has more than [display_limit] rows and the flag is not set, 'Show Less'
    exactly when the flag is set. *)
Theorem toggle_table_display_shows (env : Env) (section_key : string)
    (dataframe : DataFrame) (display_limit : Z) (section_label : string)
    (s : State) :
  let run :=
    toggle_table_display env section_key dataframe display_limit section_label s in
  ∃ shown controls,
    run.1 = Ok tt ∧
    out run.2 = out s ++ (Page, WDataframe shown) :: controls ∧
    shown = (if expanded s section_key || (len dataframe <=? display_limit)
             then dataframe else head display_limit dataframe) ∧
    (0 ≤ display_limit < len dataframe →
     rows (head display_limit dataframe)
       = take (Z.to_nat display_limit) (rows dataframe) ∧
     len (head display_limit dataframe) = display_limit) ∧
    (show_more section_key section_label ∈ controls ↔
       display_limit < len dataframe ∧ expanded s section_key = false) ∧
    (show_less section_key section_label ∈ controls ↔
       expanded s section_key = true) ∧
    (∀ e, e ∈ controls →
       e = show_more section_key section_label ∨
       e = show_less section_key section_label).
Proof.
  intros run. subst run. rewrite toggle_table_display_run. cbn [fst snd out].
  pose proof (show_more_less section_key section_label section_key section_label)
    as Hne.
  assert (Hhead : 0 ≤ display_limit < len dataframe →
     rows (head display_limit dataframe)
       = take (Z.to_nat display_limit) (rows dataframe) ∧
     len (head display_limit dataframe) = display_limit)
    by (intros [? ?]; by apply head_first_rows).
  unfold toggle_events.
  destruct (expanded s section_key); cbn [orb].
  - exists dataframe, [show_less section_key section_label].
    do 4 (split; [done|]). split; [|split].
    + rewrite list_elem_of_singleton. split; [done|]. by intros [_ ?].
    + by rewrite list_elem_of_singleton.
    + intros e ->%list_elem_of_singleton. by right.
  - destruct (Z.gtb_spec (len dataframe) display_limit) as [Hgt|Hle];
      destruct (Z.leb_spec (len dataframe) display_limit); try lia.
    + exists (head display_limit dataframe), [show_more section_key section_label].
      do 4 (split; [done|]). split; [|split].
      * rewrite list_elem_of_singleton. split; [split; [lia|done]|done].
      * rewrite list_elem_of_singleton. split; [by intros ?%symmetry|done].
      * intros e ->%list_elem_of_singleton. by left.
    + exists dataframe, []. do 4 (split; [done|]). split; [|split].
      * rewrite elem_of_nil. split; [done|]. intros [? _]. lia.
      * by rewrite elem_of_nil.
      * intros e He. by apply elem_of_nil in He.
Qed.

(** A frame of three rows under a limit of two, flag unset: its first two
    rows and 'Show More'. *)
Lemma toggle_table_display_shows_sample :
  0 ≤ 2 < len Sample.three_rows ∧
  rows (head 2 Sample.three_rows) = take (Z.to_nat 2) (rows Sample.three_rows) ∧
  len (head 2 Sample.three_rows) = 2.
Proof.
  destruct (toggle_table_display_shows Sample.sample_env "show_worksheets"
              Sample.three_rows 2 "Worksheets" Sample.start)
    as (shown & controls & _ & _ & _ & H & _).
  split; [unfold len; simpl; lia|]. apply H. unfold len; simpl; lia.
Defined.

(** ** What a stage of [main] leaves untouched *)

Lemma kept_refl (f : FS) : kept f f.
Proof. by split. Qed.

Lemma kept_trans (f1 f2 f3 : FS) : kept f1 f2 → kept f2 f3 → kept f1 f3.
Proof. intros [H1 D1] [H2 D2]. split; [by rewrite H2|auto]. Qed.

Lemma kept_insert (path : string) (n : node) (f : FS) :
  path ≠ temp_twbx_path → kept f (<[path := n]> f).
Proof.
  intros Hne. split; [by rewrite lookup_insert_ne|].
  intros q Hq. destruct (decide (path = q)) as [->|];
    [by rewrite lookup_insert_eq|by rewrite lookup_insert_ne].
Qed.

Section Frame.

Variable P : event → bool.
Variables keep_report keep_files : bool.

#[local] Abbreviation frame := (frame P keep_report keep_files).
#[local] Abbreviation preserves := (preserves P keep_report keep_files).

Lemma frame_refl (s : State) : frame s s.
Proof.
  split; [|split; [done|intros _; apply kept_refl]].
  exists []. by rewrite app_nil_r.
Qed.

Lemma frame_trans (s1 s2 s3 : State) : frame s1 s2 → frame s2 s3 → frame s1 s3.
Proof.
  intros [(e1 & Ho1 & HP1) [Hr1 Hf1]] [(e2 & Ho2 & HP2) [Hr2 Hf2]].
  split; [|split].
  - exists (e1 ++ e2). rewrite Ho2, Ho1, <- app_assoc. split; [done|].
    rewrite forallb_app. by rewrite HP1, HP2.
  - intros H. by rewrite Hr2, Hr1.
  - intros H. eapply kept_trans; eauto.
Qed.

Lemma preserves_same {A} (m : M A) : (∀ s, (m s).2 = s) → preserves m.
Proof. intros H s. rewrite H. apply frame_refl. Qed.

Lemma preserves_ret {A} (a : A) : preserves (ret a).
Proof. by apply preserves_same. Qed.

Lemma preserves_raise {A} (e : exn) : preserves (raise (A:=A) e).
Proof. by apply preserves_same. Qed.

Lemma preserves_lift {A} (r : result A) : preserves (lift r).
Proof. by apply preserves_same. Qed.

Lemma preserves_bind {A B} (m : M A) (k : A → M B) :
  preserves m → (∀ a, preserves (k a)) → preserves (bind m k).
Proof.
  intros Hm Hk s. unfold bind. specialize (Hm s).
  destruct (m s) as [[a|e] s']; simpl in *; [|done].
  eapply frame_trans; [done|]. apply Hk.
Qed.

Lemma preserves_try_except {A} (m : M A) (h : exn → M A) :
  preserves m → (∀ e, preserves (h e)) → preserves (try_except m h).
Proof.
  intros Hm Hh s. unfold try_except. specialize (Hm s).
  destruct (m s) as [[a|e] s']; simpl in *; [done|].
  eapply frame_trans; [done|]. apply Hh.
Qed.

Lemma preserves_for_each {A} (l : list A) (body : A → M unit) :
  (∀ x, preserves (body x)) → preserves (for_each l body).
Proof.
  intros Hbody. induction l as [|x l IH]; simpl.
  - apply preserves_ret.
  - apply preserves_bind; [apply Hbody|done].
Qed.

Lemma preserves_emit (p : place) (w : widget) :
  P (p, w) = true → preserves (emit p w).
Proof.
  intros HP s. split; [|split; [done|intros _; apply kept_refl]].
  exists [(p, w)]. simpl. by rewrite HP.
Qed.

Lemma preserves_session (ss : gmap string bool) : preserves (put_session ss).
Proof.
  intros s. split; [|split; [done|intros _; apply kept_refl]].
  exists []. by rewrite app_nil_r.
Qed.

Lemma append_line_kept (line : string) (f : FS) : kept f (append_line line f).
Proof.
  unfold append_line. destruct (f !! log_path) as [[|c]|]; by apply kept_insert.
Qed.

Lemma preserves_log (line : string) :
  preserves (let! f := get_fs in put_fs (append_line line f)).
Proof.
  intros s. split; [|split; [done|]].
  - exists []. by rewrite app_nil_r.
  - intros _. apply append_line_kept.
Qed.

Lemma preserves_logger_info (msg : string) : preserves (logger_info msg).
Proof. apply preserves_log. Qed.

Lemma preserves_logger_error (msg : string) : preserves (logger_error msg).
Proof. apply preserves_log. Qed.

End Frame.

Create HintDb frames.
#[local] Hint Resolve preserves_ret preserves_raise preserves_lift
  preserves_session preserves_logger_info preserves_logger_error : frames.

(** Splits a computation along its structure; what stays is about a
    primitive or a stage with a lemma of its own. *)
Ltac frame_step :=
  lazymatch goal with
  | |- preserves _ _ _ (bind _ _) => apply preserves_bind; [|intros ?]
  | |- preserves _ _ _ (try_except _ _) => apply preserves_try_except; [|intros ?]
  | |- preserves _ _ _ (for_each _ _) => apply preserves_for_each; intros ?
  | |- preserves _ _ _ (emit _ _) => apply preserves_emit; reflexivity
  | |- preserves _ _ _ (match ?x with _ => _ end) => destruct x
  | |- preserves _ _ _ _ =>
      first [ solve [auto with frames]
            | apply preserves_same; intros ?; reflexivity ]
  end.

Ltac frames := repeat frame_step.

Lemma frame_weaken (P P' : event → bool) (r r' u u' : bool) (s s' : State) :
  (∀ e, P e = true → P' e = true) → (r' = true → r = true) →
  (u' = true → u = true) → frame P r u s s' → frame P' r' u' s s'.
Proof.
  intros HP Hr Hu [(evs & Ho & Hevs) [Hrep Hup]]. split; [|split]; [|auto..].
  exists evs. split; [done|]. rewrite forallb_forall in *. auto.
Qed.

(** A new path, other than that of the saved upload. *)
Ltac fs_frame :=
  split; [exists []; by rewrite app_nil_r|];
  split; [done|]; intros _; simpl; by apply kept_insert.

Lemma preserves_ensure_logs_dir P r u : preserves P r u ensure_logs_dir.
Proof.
  intros s. unfold ensure_logs_dir, bind, get_fs.
  destruct (fs s !! "logs"); [apply frame_refl|fs_frame].
Qed.

Lemma preserves_logfile P r u : preserves P r u logfile.
Proof.
  intros s. unfold logfile, bind, get_fs.
  destruct (fs s !! "logs") as [[|c]|]; try apply frame_refl.
  destruct (fs s !! log_path) as [[|c]|]; try apply frame_refl. fs_frame.
Qed.

Lemma preserves_init_flag P r u key : preserves P r u (init_flag key).
Proof. unfold init_flag. frames. Qed.

#[local] Hint Resolve preserves_ensure_logs_dir preserves_logfile
  preserves_init_flag : frames.

Lemma startup_frame : preserves no_section true true startup.
Proof. unfold startup, init_session_states. frames. Qed.

Lemma save_upload_frame (buf : string) :
  preserves no_section true false (save_upload buf).
Proof.
  unfold save_upload. frames.
  intros s. unfold write_binary, bind, get_fs.
  destruct (fs s !! temp_twbx_path) as [[|c]|]; try apply frame_refl;
    (split; [exists []; by rewrite app_nil_r|done]).
Qed.

Lemma decompress_frame (env : Env) :
  preserves no_section true false (decompress env).
Proof.
  unfold decompress. frames.
  intros s. unfold run_decompress. destruct (decompress_twbx env (fs s)).
  split; [exists []; by rewrite app_nil_r|done].
Qed.

Lemma decompress_frame_files (env : Env) :
  keeps_files env → preserves no_section true true (decompress env).
Proof.
  intros Hkeep. unfold decompress. frames.
  intros s. unfold run_decompress. specialize (Hkeep (fs s)).
  destruct (decompress_twbx env (fs s)).
  split; [exists []; by rewrite app_nil_r|done].
Qed.

Lemma parse_frame (env : Env) : preserves no_section false true (parse env).
Proof.
  unfold parse. frames.
  intros s. split; [exists []; by rewrite app_nil_r|].
  split; [done|intros _; apply kept_refl].
Qed.

Lemma choose_sections_frame (env : Env) (sections : list string) :
  preserves any_widget true true (choose_sections env sections).
Proof.
  induction sections as [|section rest IH]; simpl; [apply preserves_ret|].
  unfold st_checkbox. frames.
Qed.

Lemma select_sections_frame (env : Env) :
  preserves any_widget true true (select_sections env).
Proof. unfold select_sections. frames. apply choose_sections_frame. Qed.

Lemma preserves_the_report P r u : preserves P r u the_report.
Proof.
  apply preserves_same. intros s. unfold the_report. by destruct (report s).
Qed.

#[local] Hint Resolve preserves_the_report : frames.

Lemma set_metadata_frame P (k : string) (v : pyval) :
  preserves P false true (set_metadata k v).
Proof.
  unfold set_metadata. frames.
  intros s. split; [exists []; by rewrite app_nil_r|done].
Qed.

Lemma merge_field_table_frame P (key : string) (v : pyval) (ds : DataFrame) :
  preserves P false true (merge_field_table key v ds).
Proof. unfold merge_field_table. frames. apply set_metadata_frame. Qed.

Lemma merge_captions_frame P : preserves P false true merge_captions.
Proof. unfold merge_captions. frames; apply merge_field_table_frame. Qed.

Lemma toggle_table_display_frame (env : Env) (key : string) (df : DataFrame)
    (limit : Z) (label : string) :
  preserves any_widget true true (toggle_table_display env key df limit label).
Proof.
  intros s. rewrite toggle_table_display_run. split; [|done].
  eexists. split; [reflexivity|]. by apply forallb_forall.
Qed.

#[local] Hint Resolve toggle_table_display_frame : frames.

Lemma render_sections_frame (env : Env) (selected : list string) :
  preserves any_widget true true (render_sections env selected).
Proof.
  unfold render_sections, render_section, section_body, version_information,
    table_section, dependency_dag, insufficient_data, st_selectbox.
  frames.
Qed.

Lemma export_report_frame (env : Env) (selected : list string) :
  preserves any_widget true true (export_report env selected).
Proof.
  unfold export_report, generate_export, offer_download, embed_dag,
    st_selectbox, st_button.
  frames.
Qed.

Lemma download_original_frame (env : Env) :
  preserves any_widget true true (download_original env).
Proof.
  unfold download_original, st_button. frames.
  apply preserves_same. intros s. unfold read_binary, bind, get_fs.
  by destruct (fs s !! temp_twbx_path) as [[|c]|].
Qed.

(** ** The stages of [main], one by one *)

(** [decompress] goes on exactly when the parser's call returns; when it
    raises, the last thing drawn is the error. *)
Lemma decompress_outcome (env : Env) (s : State) :
  ((decompress env s).1 = Ok true ∧ is_ok (decompress_twbx env (fs s)).1 = true) ∨
  ((decompress env s).1 = Ok false ∧ is_ok (decompress_twbx env (fs s)).1 = false ∧
   ∃ evs, out (decompress env s).2 = out s ++ evs ++ [decompress_error]).
Proof.
  unfold decompress, try_except, bind, run_decompress.
  destruct (decompress_twbx env (fs s)) as [[[]|e] f]; simpl.
  - by left.
  - right. do 2 (split; [done|]). by exists [].
Qed.

(** [parse] goes on exactly when the document text is there and both
    parser calls return, and then the report is the parser's; otherwise
    the report is left as it was and the last thing drawn is an error. *)
Lemma parse_outcome (env : Env) (s : State) :
  (∃ r, (parse env s).1 = Ok true ∧ truthy (twb_content env) = true ∧
        parse_twb env = Ok tt ∧ get_report env = Ok r ∧
        report (parse env s).2 = Some r) ∨
  ((parse env s).1 = Ok false ∧
   (truthy (twb_content env) = false ∨ is_ok (parse_twb env) = false ∨
    is_ok (get_report env) = false) ∧
   report (parse env s).2 = report s ∧
   ∃ evs e, out (parse env s).2 = out s ++ evs ++ [e] ∧
            (e = extract_error ∨ e = parse_error)).
Proof.
  unfold parse, try_except, bind, lift.
  destruct (truthy (twb_content env)) eqn:Hc; simpl.
  - destruct (parse_twb env) as [[]|e] eqn:Hp; simpl.
    + destruct (get_report env) as [r|e] eqn:Hr; simpl.
      * left. by exists r.
      * right. split; [done|]. split; [auto|]. split; [done|].
        eexists [_], _. rewrite <- !app_assoc. split; [reflexivity|]. by right.
    + right. split; [done|]. split; [auto|]. split; [done|].
      eexists [], _. split; [reflexivity|]. by right.
  - right. split; [done|]. split; [auto|]. split; [done|].
    eexists [], _. split; [reflexivity|]. by left.
Qed.

Lemma bind_run {A B} (m : M A) (k : A → M B) (s : State) (a : A) (s1 : State) :
  m s = (Ok a, s1) → bind m k s = k a s1.
Proof. intros H. unfold bind. by rewrite H. Qed.

Lemma bind_raise {A B} (m : M A) (k : A → M B) (s : State) (e : exn) (s1 : State) :
  m s = (Raise e, s1) → bind m k s = (Raise e, s1).
Proof. intros H. unfold bind. by rewrite H. Qed.

(** The sections chosen are those whose box is ticked, in page order. *)
Lemma choose_sections_result (env : Env) (sections : list string) (s : State) :
  (choose_sections env sections s).1
  = Ok (List.filter (λ section, checkbox env ("Include " +:+ section)) sections).
Proof.
  revert s. induction sections as [|section rest IH]; intros s; [done|].
  cbn [choose_sections List.filter]. unfold st_checkbox, bind at 1 2. simpl.
  unfold bind at 1.
  specialize (IH (mkState (fs s) (session_state s) (report s)
                    (out s ++ [(Sidebar, WCheckbox ("Include " +:+ section) true)]))).
  destruct (choose_sections env rest _) as [[sel|e] s'']; simpl in *.
  - injection IH as ->. by destruct (checkbox env _).
  - done.
Qed.

Lemma select_sections_result (env : Env) (s : State) :
  (select_sections env s).1
  = Ok (List.filter (λ section, checkbox env ("Include " +:+ section)) report_sections).
Proof.
  unfold select_sections. erewrite bind_run by reflexivity.
  pose proof (choose_sections_result env report_sections
    (emit Sidebar (WHeader "Report Generation") s).2) as H.
  destruct (choose_sections env report_sections _) as [[sel|e] s''] eqn:Hsel;
    simpl in H; [|done].
  injection H as ->. by erewrite bind_run by eassumption.
Qed.

Lemma preserves_run {A} P r u (m : M A) (s : State) (res : result A) (s' : State) :
  preserves P r u m → m s = (res, s') → frame P r u s s'.
Proof. intros Hm Hrun. specialize (Hm s). by rewrite Hrun in Hm. Qed.

Lemma section_body_table (env : Env) (section ns key msg : string) :
  (section, ns, key, msg) ∈ table_sections →
  section_body env section = table_section env ns key section msg.
Proof.
  unfold table_sections. rewrite !elem_of_cons, elem_of_nil.
  intros [H|[H|[H|[H|[]]]]]; by injection H as -> -> -> ->.
Qed.

Lemma table_section_empty (env : Env) (ns key section msg : string)
    (s : State) (r : Report) (df : DataFrame) :
  report s = Some r → table_of ns key r = Ok df → empty df = true →
  table_section env ns key section msg s = (Ok tt, drawn s [(Page, WWrite msg)]).
Proof.
  intros Hr Ht He. unfold table_section, the_report, bind, lift, table_of in *.
  rewrite Hr. destruct (namespace ns r) as [d|]; simpl in *; [|done].
  rewrite Ht. simpl. by rewrite He.
Qed.

(** A selected table section whose table is empty: its header, then its
    message. *)
Lemma render_section_empty (env : Env) (section ns key msg : string)
    (s : State) (r : Report) (df : DataFrame) :
  (section, ns, key, msg) ∈ table_sections →
  report s = Some r → table_of ns key r = Ok df → empty df = true →
  render_section env section s
  = (Ok tt, drawn s [(Page, WHeader section); (Page, WWrite msg)]).
Proof.
  intros Hsec Hr Ht He. unfold render_section.
  erewrite bind_run by reflexivity. unfold try_except.
  rewrite (section_body_table env section ns key msg Hsec).
  erewrite table_section_empty by done.
  unfold drawn. simpl. by rewrite <- app_assoc.
Qed.

Lemma render_section_returns (env : Env) (section : string) (s : State) :
  (render_section env section s).1 = Ok tt.
Proof.
  unfold render_section. erewrite bind_run by reflexivity. unfold try_except.
  by destruct (section_body env section _) as [[[]|e] s'].
Qed.

Lemma for_each_draws {A} (l : list A) (body : A → M unit) (x : A)
    (evs : list event) (Q : State → Prop) :
  x ∈ l →
  (∀ y s, (body y s).1 = Ok tt) →
  (∀ y s, Q s → Q (body y s).2) →
  (∀ y s, ∃ e, out (body y s).2 = out s ++ e) →
  (∀ s, Q s → out (body x s).2 = out s ++ evs) →
  ∀ s, Q s →
    (for_each l body s).1 = Ok tt ∧ Q (for_each l body s).2 ∧
    ∃ before after, out (for_each l body s).2 = out s ++ before ++ evs ++ after.
Proof.
  intros Hx Hok HQ Hout Hevs.
  assert (Hany : ∀ l' s, Q s →
            (for_each l' body s).1 = Ok tt ∧ Q (for_each l' body s).2 ∧
            ∃ e, out (for_each l' body s).2 = out s ++ e).
  { induction l' as [|y l' IH]; intros s Hs; simpl.
    - split; [done|]. split; [done|]. exists []. by rewrite app_nil_r.
    - unfold bind. pose proof (Hok y s) as H1. pose proof (HQ y s Hs) as H2.
      destruct (Hout y s) as [e1 H3].
      destruct (body y s) as [[[]|e] s1]; simpl in *; [|done].
      destruct (IH s1 H2) as (? & ? & e2 & H4). do 2 (split; [done|]).
      exists (e1 ++ e2). by rewrite H4, H3, <- app_assoc. }
  induction l as [|y l IH]; intros s Hs; [by apply elem_of_nil in Hx|].
  simpl. unfold bind. pose proof (Hok y s) as H1. pose proof (HQ y s Hs) as H2.
  destruct (Hout y s) as [e1 H3]. apply elem_of_cons in Hx as [->|Hx].
  - specialize (Hevs s Hs).
    destruct (body y s) as [[[]|e] s1]; simpl in *; [|done].
    destruct (Hany l s1 H2) as (? & ? & e2 & H4). do 2 (split; [done|]).
    exists [], e2. by rewrite H4, Hevs, <- app_assoc.
  - destruct (body y s) as [[[]|e] s1]; simpl in *; [|done].
    destruct (IH Hx s1 H2) as (? & ? & b & a & H4). do 2 (split; [done|]).
    exists (e1 ++ b), a. by rewrite H4, H3, <- !app_assoc.
Qed.

Lemma render_section_frame (env : Env) (section : string) :
  preserves any_widget true true (render_section env section).
Proof.
  unfold render_section, section_body, version_information,
    table_section, dependency_dag, insufficient_data, st_selectbox.
  frames.
Qed.

Lemma table_section_listed (section ns key msg : string) :
  (section, ns, key, msg) ∈ table_sections → section ∈ report_sections.
Proof.
  unfold table_sections, report_sections. rewrite !elem_of_cons, elem_of_nil.
  intros [H|[H|[H|[H|[]]]]]; injection H as -> _ _ _; auto 10.
Qed.

Lemma render_sections_empty (env : Env) (selected : list string)
    (section ns key msg : string) (s : State) (r : Report) (df : DataFrame) :
  (section, ns, key, msg) ∈ table_sections → section ∈ selected →
  report s = Some r → table_of ns key r = Ok df → empty df = true →
  (render_sections env selected s).1 = Ok tt ∧
  report (render_sections env selected s).2 = Some r ∧
  ∃ before after,
    out (render_sections env selected s).2
    = out s ++ before ++ [(Page, WHeader section); (Page, WWrite msg)] ++ after.
Proof.
  intros Hsec Hsel Hr Ht He. unfold render_sections.
  apply (for_each_draws _ _ section _ (λ s, report s = Some r));
    [by eapply table_section_listed| | | | |done].
  - intros y t. case_bool_decide; [apply render_section_returns|done].
  - intros y t Hrt. case_bool_decide; [|done].
    destruct (render_section_frame env y t) as (_ & Hrep & _). by rewrite Hrep.
  - intros y t. case_bool_decide; [|exists []; by rewrite app_nil_r].
    destruct (render_section_frame env y t) as ((e & Ho & _) & _). by exists e.
  - intros t Hrt. rewrite bool_decide_eq_true_2 by done.
    by erewrite render_section_empty by done.
Qed.

(** [main] either stops before a report is presented, having left the
    report object alone, or presents the report the parser returned;
    until then it draws what its first four stages draw. *)
Lemma main_stages (P : event → bool) (env : Env) (s : State) :
  preserves P true true startup →
  (∀ buf, preserves P true false (save_upload buf)) →
  preserves P true false (decompress env) →
  preserves P false true (parse env) →
  frame P true false s (main env s).2 ∨
  ∃ s4 r, frame P false false s s4 ∧ report s4 = Some r ∧
          get_report env = Ok r ∧ main env s = present env s4.
Proof.
  intros startup_frame save_upload_frame decompress_frame Hparse. unfold main.
  destruct (startup s) as [[[]|e] s1] eqn:H1;
    pose proof (preserves_run _ _ _ _ _ _ _ startup_frame H1) as F1;
    [erewrite bind_run by done|erewrite bind_raise by done];
    [|left; eapply frame_weaken; [..|exact F1]; done].
  destruct (uploaded_file env) as [buf|];
    [|left; eapply frame_weaken; [..|exact F1]; done].
  destruct (save_upload buf s1) as [[saved|e] s2] eqn:H2;
    pose proof (preserves_run _ _ _ _ _ _ _ (save_upload_frame buf) H2) as F2;
    [erewrite bind_run by done|erewrite bind_raise by done].
  2: { left. eapply frame_trans; [|exact F2]. eapply frame_weaken; [..|exact F1]; done. }
  assert (F12 : frame P true false s s2).
  { eapply frame_trans; [|exact F2]. eapply frame_weaken; [..|exact F1]; done. }
  destruct saved; simpl; [|by left].
  destruct (decompress env s2) as [[decompressed|e] s3] eqn:H3;
    pose proof (preserves_run _ _ _ _ _ _ _ decompress_frame H3) as F3;
    [erewrite bind_run by done|erewrite bind_raise by done].
  2: { left. by eapply frame_trans. }
  assert (F13 : frame P true false s s3) by by eapply frame_trans.
  destruct decompressed; simpl; [|by left].
  pose proof (Hparse s3) as F4.
  destruct (parse_outcome env s3) as [(r & Hp & _ & _ & Hr & Hrep)|(Hp & _ & Hrep & _)];
    destruct (parse env s3) as [[parsed|e] s4] eqn:H4;
    cbn [fst snd] in Hp, Hrep, F4; try discriminate Hp;
    injection Hp as ->; erewrite bind_run by done; cbn [negb].
  - right. exists s4, r. split; [|done].
    eapply frame_trans; (eapply frame_weaken; [..|done]; done).
  - left. destruct F4 as (Ho & _ & _). eapply frame_trans; [exact F13|].
    split; [done|]. split; [done|]. intros H; discriminate H.
Qed.

(** [main] either stops before a report is presented, having drawn no
    section and left the report object alone, or presents the report the
    parser returned. *)
Lemma main_cases (env : Env) (s : State) :
  frame no_section true false s (main env s).2 ∨
  ∃ s4 r, frame no_section false false s s4 ∧ report s4 = Some r ∧
          get_report env = Ok r ∧ main env s = present env s4.
Proof.
  apply main_stages;
    [apply startup_frame|apply save_upload_frame|apply decompress_frame
    |apply parse_frame].
Qed.

(** ** Errors and empty tables *)

Lemma abort_shown (r u : bool) (s s0 s' : State) (evs : list event) (e : event) :
  frame no_section true false s s0 → frame no_section r u s0 s' →
  out s' = out s0 ++ evs ++ [e] →
  ∃ all, out s' = out s ++ all ∧ e ∈ all ∧ forallb no_section all = true.
Proof.
  intros [(e1 & Ho1 & HP1) _] [(e2 & Ho2 & HP2) _] Ho.
  exists (e1 ++ e2). rewrite Ho2, Ho1, <- app_assoc. split; [done|].
  rewrite Ho2 in Ho. apply app_inv_head in Ho. subst e2.
  split; [|by rewrite forallb_app, HP1, HP2].
  rewrite !elem_of_app, list_elem_of_singleton. auto.
Qed.

(** C2, as the code has it.  When decompression raises, no document text
    was extracted, or parsing raises, [main] shows an error, draws no
    report section, builds no report and returns.  When the workbook was
    parsed and [main] did not raise (the caption merge, which is outside
    every [try], can make it raise before a section is drawn), every
    selected table section whose table is empty shows its header followed
    at once by its empty-state message. *)
Theorem main_aborts_or_explains (env : Env) (s : State) :
  (∀ buf s1 s2,
     uploaded_file env = Some buf →
     startup s = (Ok tt, s1) →
     save_upload buf s1 = (Ok true, s2) →
     extraction_or_parsing_fails env (fs s2) →
     (main env s).1 = Ok tt ∧
     report (main env s).2 = report s ∧
     ∃ evs e,
       out (main env s).2 = out s ++ evs ∧
       e ∈ evs ∧ e ∈ [decompress_error; extract_error; parse_error] ∧
       forallb no_section evs = true) ∧
  (∀ s' r section ns key msg df,
     report s = None →
     main env s = (Ok tt, s') →
     report s' = Some r →
     (section, ns, key, msg) ∈ table_sections →
     checkbox env ("Include " +:+ section) = true →
     table_of ns key r = Ok df → empty df = true →
     ∃ before after,
       out s' = out s ++ before
                ++ [(Page, WHeader section); (Page, WWrite msg)] ++ after).
Proof.
  split.
  - intros buf s1 s2 Hup H1 H2 Hfail.
    pose proof (preserves_run _ _ _ _ _ _ _ startup_frame H1) as F1.
    pose proof (preserves_run _ _ _ _ _ _ _ (save_upload_frame buf) H2) as F2.
    assert (F12 : frame no_section true false s s2).
    { eapply frame_trans; [|exact F2]. eapply frame_weaken; [..|exact F1]; done. }
    unfold main. erewrite bind_run by done. rewrite Hup.
    erewrite bind_run by done. simpl.
    pose proof (decompress_frame env s2) as F3.
    destruct (decompress_outcome env s2) as [[Hd Hok]|(Hd & _ & evs & Ho)];
      destruct (decompress env s2) as [[d|e] s3] eqn:H3; simpl in *; try done;
      injection Hd as ->; erewrite bind_run by done; simpl.
    + pose proof (parse_frame env s3) as F4.
      destruct (parse_outcome env s3)
        as [(r & _ & Hc & Hp & Hr & _)|(Hp & _ & Hrep & evs & e & Ho & He)].
      { exfalso. unfold extraction_or_parsing_fails in Hfail.
        rewrite Hok, Hc, Hp, Hr in Hfail. simpl in Hfail.
        by destruct Hfail as [?|[?|[?|?]]]. }
      destruct (parse env s3) as [[parsed|e'] s4] eqn:H4; simpl in *; try done.
      injection Hp as ->. erewrite bind_run by done. simpl. split; [done|].
      split.
      { destruct F3 as (_ & Hr3 & _). destruct F12 as (_ & Hr2 & _).
        by rewrite Hrep, Hr3, Hr2. }
      destruct (abort_shown false true s s3 s4 evs e) as (all & ? & ? & ?);
        [by eapply frame_trans|done|done|].
      exists all, e. do 2 (split; [done|]). split; [|done].
      rewrite !elem_of_cons. destruct He; auto.
    + split; [done|]. split.
      { destruct F3 as (_ & Hr3 & _). destruct F12 as (_ & Hr2 & _).
        by rewrite Hr3, Hr2. }
      destruct (abort_shown true false s s2 s3 evs decompress_error)
        as (all & ? & ? & ?); [done..|].
      exists all, decompress_error. do 2 (split; [done|]). split; [|done].
      apply elem_of_cons. by left.
  - intros s' r section ns key msg df Hnone Hmain Hr Hsec Hbox Ht He.
    destruct (main_cases env s) as [F|(s4 & r0 & F & _ & _ & Hpresent)].
    { destruct F as (_ & Hrep & _). rewrite Hmain in Hrep. simpl in Hrep.
      rewrite Hrep, Hnone in Hr by done. done. }
    rewrite Hpresent in Hmain. unfold present in Hmain.
    pose proof (select_sections_result env s4) as Hsel.
    destruct (select_sections env s4) as [[selected|e] s5] eqn:H5;
      cbn [fst] in Hsel; [|done].
    assert (Hin : section ∈ selected).
    { assert (selected = List.filter
                (λ section, checkbox env ("Include " +:+ section)) report_sections)
        as -> by congruence.
      apply list_elem_of_In, filter_In. split; [|done].
      apply list_elem_of_In. by eapply table_section_listed. }
    clear Hsel.
    pose proof (preserves_run _ _ _ _ _ _ _ (select_sections_frame env) H5) as F5.
    erewrite bind_run in Hmain by done.
    destruct (merge_captions s5) as [[[]|e] s6] eqn:H6;
      [erewrite bind_run in Hmain by done
      |by erewrite bind_raise in Hmain by done].
    pose proof (preserves_run _ _ _ _ _ _ _ (merge_captions_frame any_widget) H6) as F6.
    destruct (render_sections env selected s6) as [res s7] eqn:H7.
    assert (F8 : frame any_widget true true s7 s').
    { destruct res as [[]|e];
        [erewrite bind_run in Hmain by done
        |erewrite bind_raise in Hmain by done; injection Hmain as _ <-;
         apply frame_refl].
      eapply (preserves_run _ _ _ (bind (export_report env selected)
                (λ _, download_original env))); [|exact Hmain].
      apply preserves_bind; [apply export_report_frame|].
      intros _. apply download_original_frame. }
    pose proof (preserves_run _ _ _ _ _ _ _
                  (render_sections_frame env selected) H7) as F7.
    assert (Hr6 : report s6 = Some r).
    { destruct F7 as (_ & Hr7 & _). destruct F8 as (_ & Hr8 & _).
      by rewrite <- Hr7, <- Hr8. }
    pose proof (render_sections_empty env selected section ns key msg s6 r df
                  Hsec Hin Hr6 Ht He) as (_ & _ & before & after & Ho).
    rewrite H7 in Ho. cbn [snd] in Ho.
    destruct F as [(e4 & Ho4 & _) _]. destruct F5 as [(e5 & Ho5 & _) _].
    destruct F6 as [(e6 & Ho6 & _) _]. destruct F8 as [(e8 & Ho8 & _) _].
    exists (e4 ++ e5 ++ e6 ++ before), (after ++ e8).
    rewrite Ho8, Ho, Ho6, Ho5, Ho4. by rewrite <- !app_assoc.
Qed.

(** A broken archive aborts the run; a workbook without worksheets gets
    'No worksheets found.' under the 'Worksheets' header. *)
Lemma main_aborts_or_explains_sample :
  (extraction_or_parsing_fails Sample.broken_archive_env
     (fs (save_upload "PK-bytes" (startup Sample.start).2).2) ∧
   (main Sample.broken_archive_env Sample.start).1 = Ok tt ∧
   report (main Sample.broken_archive_env Sample.start).2 = None ∧
   ∃ evs e,
     out (main Sample.broken_archive_env Sample.start).2 = [] ++ evs ∧
     e ∈ evs ∧ e ∈ [decompress_error; extract_error; parse_error] ∧
     forallb no_section evs = true) ∧
  (empty Sample.no_worksheets = true ∧
   ∃ before after,
     out (main Sample.no_worksheets_env Sample.start).2
     = [] ++ before
       ++ [(Page, WHeader "Worksheets"); (Page, WWrite "No worksheets found.")]
       ++ after).
Proof.
  split.
  - assert (Hfail : extraction_or_parsing_fails Sample.broken_archive_env
              (fs (save_upload "PK-bytes" (startup Sample.start).2).2))
      by (left; reflexivity).
    split; [exact Hfail|].
    apply (proj1 (main_aborts_or_explains Sample.broken_archive_env Sample.start)
             "PK-bytes" (startup Sample.start).2
             (save_upload "PK-bytes" (startup Sample.start).2).2);
      [reflexivity| vm_compute; reflexivity | vm_compute; reflexivity | exact Hfail].
  - split; [reflexivity|].
    apply (proj2 (main_aborts_or_explains Sample.no_worksheets_env Sample.start)
             (main Sample.no_worksheets_env Sample.start).2
             (default ∅ (report (main Sample.no_worksheets_env Sample.start).2))
             "Worksheets" "metadata" "worksheets" "No worksheets found."
             Sample.no_worksheets);
      [reflexivity | vm_compute; reflexivity | vm_compute; reflexivity
      | | reflexivity | vm_compute; reflexivity | reflexivity].
    unfold table_sections. rewrite !elem_of_cons. auto.
Defined.

Lemma writes_elem (msg : string) (evs : list event) :
  (Page, WWrite msg) ∈ evs → existsb (writes msg) evs = true.
Proof.
  intros Hin. apply existsb_exists. exists (Page, WWrite msg).
  split; [by apply list_elem_of_In|]. cbn. apply String.eqb_refl.
Qed.

(** C2, as stated, fails on a workbook without worksheets whose data
    source table has no ['Caption'] column: the parse succeeds, every box
    is ticked and the worksheet table is empty, yet the caption merge
    raises before the section loop, so no section is drawn and 'No
    worksheets found.' is never shown. *)
Lemma main_raises_after_parse :
  get_report Sample.captionless_env = Ok Sample.captionless_report ∧
  report (main Sample.captionless_env Sample.start).2
    = Some Sample.captionless_report ∧
  table_of "metadata" "worksheets" Sample.captionless_report
    = Ok Sample.no_worksheets ∧
  empty Sample.no_worksheets = true ∧
  checkbox Sample.captionless_env "Include Worksheets" = true ∧
  (main Sample.captionless_env Sample.start).1 = Raise (KeyError "Caption") ∧
  forallb no_section (out (main Sample.captionless_env Sample.start).2) = true ∧
  ((Page, WWrite "No worksheets found.")
     ∉ out (main Sample.captionless_env Sample.start).2) ∧
  ¬ explains_empty_tables.
Proof.
  assert (Hrep : report (main Sample.captionless_env Sample.start).2
                 = Some Sample.captionless_report) by (vm_compute; reflexivity).
  assert (Hout : (Page, WWrite "No worksheets found.")
                   ∉ out (main Sample.captionless_env Sample.start).2).
  { intros Hin%writes_elem. vm_compute in Hin. discriminate Hin. }
  split; [reflexivity|]. split; [exact Hrep|]. do 3 (split; [reflexivity|]).
  do 2 (split; [vm_compute; reflexivity|]). split; [exact Hout|].
  intros Hclaim. apply Hout.
  apply (Hclaim Sample.captionless_env Sample.start Sample.captionless_report
           "Worksheets" "metadata" "worksheets" "No worksheets found."
           Sample.no_worksheets);
    [reflexivity|exact Hrep| |reflexivity..].
  unfold table_sections. rewrite !elem_of_cons. auto.
Qed.

(** ** The caption merge *)

Lemma col_index_elem (c : string) (cols : list string) :
  c ∈ cols → ∃ i, col_index c cols = Some i.
Proof.
  induction cols as [|c' cols IH]; [by intros ?%elem_of_nil|].
  intros Hc. simpl. case_bool_decide as Heq; [by exists 0%nat|].
  apply elem_of_cons in Hc as [->|Hc]; [done|].
  destruct (IH Hc) as [i ->]. by exists (S i).
Qed.




Lemma col_index_found (c : string) (cols : list string) (i : nat) :
  col_index c cols = Some i → c ∈ cols.
Proof.
  revert i. induction cols as [|c' cols IH]; intros i; [done|].
  cbn [col_index]. case_bool_decide as Hc; [subst; by left|].
  destruct (col_index c cols) as [j|]; [|done]. intros _. right. by apply (IH j).
Qed.

(** The key column is where [col_index] finds it. *)
Lemma key_position_index (key : string) (cols : list string) (i : nat) :
  key_position key cols = Ok i → col_index key cols = Some i.
Proof.
  unfold key_position. destruct (col_index key cols) as [j|]; [|done].
  case_bool_decide; [done|]. by intros [= ->].
Qed.

Lemma key_position_found (key : string) (cols : list string) (i : nat) :
  key_position key cols = Ok i → key ∈ cols.
Proof. intros H%key_position_index. by eapply col_index_found. Qed.



Lemma key_position_captions :
  key_position "Data Source ID" ["Data Source ID"; "Caption"] = Ok 0%nat.
Proof. reflexivity. Qed.









Ltac by_computation :=
  lazymatch goal with
  | |- ?Q => apply (bool_decide_unpack Q); vm_compute; exact I
  end.




Lemma set_metadata_run (k : string) (v : pyval) (s : State) (r : Report)
    (md : pydict) :
  report s = Some r → r !! "metadata" = Some md →
  set_metadata k v s
  = (Ok tt, mkState (fs s) (session_state s)
              (Some (<["metadata" := <[k := v]> md]> r)) (out s)).
Proof.
  intros Hr Hmd. unfold set_metadata, the_report, bind, lift, namespace.
  by rewrite Hr, Hmd.
Qed.





(** ** Who writes to the report *)

(** One field table: left as it is, or replaced by its caption merge. *)
Lemma merge_field_table_update (key : string) (v : pyval) (ds : DataFrame)
    (s : State) (r : Report) (md : pydict) :
  report s = Some r → r !! "metadata" = Some md →
  report (merge_field_table key v ds s).2 = Some r ∨
  ∃ fields merged,
    v = PFrame fields ∧ empty fields = false ∧
    caption_merge fields ds = Ok merged ∧
    merge_field_table key v ds s
    = (Ok tt, mkState (fs s) (session_state s)
                (Some (<["metadata" := <[key := PFrame merged]> md]> r)) (out s)).
Proof.
  intros Hr Hmd. unfold merge_field_table, bind, lift.
  destruct v as [| |fields]; simpl; [by left..|].
  destruct (empty fields) eqn:He; simpl; [by left|].
  destruct (has_column "Data Source ID" fields); [|by left].
  destruct (caption_merge fields ds) as [merged|e] eqn:Hm; simpl; [|by left].
  right. exists fields, merged. do 3 (split; [done|]).
  by apply set_metadata_run.
Qed.

Lemma merged_entry_get (r : Report) (md : pydict) (k : string)
    (fields ds merged : DataFrame) :
  get k (PFrame empty_frame) md = PFrame fields → empty fields = false →
  table_of "data" "data_sources" r = Ok ds →
  caption_merge fields ds = Ok merged →
  merged_entry r md k (Some (PFrame merged)).
Proof.
  intros Hget He Hds Hm. right. exists fields, ds, merged.
  split; [|done]. unfold get in Hget.
  destruct (md !! k) as [v|]; simpl in Hget; [by subst|].
  injection Hget as <-. done.
Qed.

(** The merge stage, whatever its outcome. *)
Lemma merge_captions_update (s : State) (r : Report) :
  report s = Some r →
  ∃ r', report (merge_captions s).2 = Some r' ∧ caption_update r r'.
Proof.
  intros Hr. unfold merge_captions. unfold the_report at 1.
  unfold bind at 1. rewrite Hr.
  unfold bind at 1, lift at 1, table_of.
  destruct (namespace "data" r) as [data|e] eqn:Hd; [|exists r; by split; [|left]].
  unfold bind at 1, lift at 1.
  destruct (namespace "metadata" r) as [md|e] eqn:Hmd;
    [|exists r; by split; [|left]].
  assert (Hmd' : r !! "metadata" = Some md).
  { unfold namespace in Hmd. by destruct (r !! "metadata") as [md0|]; simplify_eq. }
  unfold bind at 1, lift at 1.
  destruct (as_frame "empty" (get "data_sources" (PFrame empty_frame) data))
    as [ds|e] eqn:Hds; [|exists r; by split; [|left]].
  assert (Htab : table_of "data" "data_sources" r = Ok ds).
  { unfold table_of. by rewrite Hd. }
  destruct (negb (empty ds)); [|exists r; by split; [|left]].
  set (calc := get "calculated_fields" (PFrame empty_frame) md).
  set (orig := get "original_fields" (PFrame empty_frame) md).
  unfold bind.
  destruct (merge_field_table_update "calculated_fields" calc ds s r md Hr Hmd')
    as [H1|(f1 & m1 & Hc1 & He1 & Hm1 & Hrun1)].
  - destruct (merge_field_table "calculated_fields" calc ds s)
      as [[[]|e] s1]; simpl in H1; [|exists r; by split; [|left]].
    destruct (merge_field_table_update "original_fields" orig ds s1 r md H1 Hmd')
      as [H2|(f2 & m2 & Hc2 & He2 & Hm2 & Hrun2)];
      [exists r; by split; [|left]|].
    rewrite Hrun2. eexists. split; [reflexivity|]. right.
    exists md, (<["original_fields" := PFrame m2]> md).
    do 2 (split; [done|]). split; [|split].
    + intros k _ Hk. by rewrite lookup_insert_ne.
    + left. by rewrite lookup_insert_ne.
    + rewrite lookup_insert_eq. by eapply merged_entry_get.
  - rewrite Hrun1.
    set (r1 := <["metadata" := <["calculated_fields" := PFrame m1]> md]> r).
    set (s1 := mkState (fs s) (session_state s) (Some r1) (out s)).
    destruct (merge_field_table_update "original_fields" orig ds s1 r1
                (<["calculated_fields" := PFrame m1]> md) eq_refl)
      as [H2|(f2 & m2 & Hc2 & He2 & Hm2 & Hrun2)];
      [by apply lookup_insert_eq| |].
    + exists r1. split; [done|]. right.
      exists md, (<["calculated_fields" := PFrame m1]> md).
      do 2 (split; [done|]). split; [|split].
      * intros k Hk _. by rewrite lookup_insert_ne.
      * rewrite lookup_insert_eq. by eapply merged_entry_get.
      * left. by rewrite lookup_insert_ne.
    + rewrite Hrun2. eexists. split; [reflexivity|]. right.
      exists md, (<["original_fields" := PFrame m2]>
                    (<["calculated_fields" := PFrame m1]> md)).
      split; [done|]. split; [subst r1; by rewrite insert_insert_eq|].
      split; [|split].
      * intros k Hk1 Hk2. by rewrite !lookup_insert_ne.
      * rewrite lookup_insert_ne, lookup_insert_eq by done.
        by eapply merged_entry_get.
      * rewrite lookup_insert_eq. by eapply merged_entry_get.
Qed.

Lemma present_report (env : Env) (s : State) (r : Report) :
  report s = Some r →
  ∃ r', report (present env s).2 = Some r' ∧ caption_update r r'.
Proof.
  intros Hr. unfold present, bind at 1.
  destruct (select_sections env s) as [[selected|e] s5] eqn:H5;
    pose proof (preserves_run _ _ _ _ _ _ _ (select_sections_frame env) H5)
      as (_ & Hr5 & _);
    rewrite <- Hr5 in Hr by done; [|exists r; by split; [|left]].
  destruct (merge_captions_update s5 r Hr) as (r6 & Hr6 & Hupd).
  unfold bind at 1.
  destruct (merge_captions s5) as [[[]|e] s6]; simpl in Hr6;
    [|exists r6; by split].
  exists r6. split; [|done]. rewrite <- Hr6.
  assert (F : preserves any_widget true true
                (bind (render_sections env selected)
                   (λ _, bind (export_report env selected)
                           (λ _, download_original env)))).
  { apply preserves_bind; [apply render_sections_frame|]. intros _.
    apply preserves_bind; [apply export_report_frame|]. intros _.
    apply download_original_frame. }
  by destruct (F s6) as (_ & -> & _).
Qed.

(** *** Where the graphs come from *)

Lemma preserves_at_of {A} (r : Report) (P : event → bool) (u : bool) (m : M A) :
  preserves P true u m → preserves_at r P m.
Proof. intros H s _. eapply frame_weaken; [..|apply H]; done. Qed.

Lemma preserves_at_bind {A B} (r : Report) (P : event → bool)
    (m : M A) (k : A → M B) :
  preserves_at r P m → (∀ a, preserves_at r P (k a)) →
  preserves_at r P (bind m k).
Proof.
  intros Hm Hk s Hs. unfold bind. specialize (Hm s Hs).
  destruct (m s) as [[a|e] s']; cbn [snd] in *; [|done].
  eapply frame_trans; [exact Hm|]. apply Hk.
  destruct Hm as (_ & Hr & _). by rewrite Hr.
Qed.

Lemma preserves_at_try_except {A} (r : Report) (P : event → bool)
    (m : M A) (h : exn → M A) :
  preserves_at r P m → (∀ e, preserves_at r P (h e)) →
  preserves_at r P (try_except m h).
Proof.
  intros Hm Hh s Hs. unfold try_except. specialize (Hm s Hs).
  destruct (m s) as [[a|e] s']; cbn [snd] in *; [done|].
  eapply frame_trans; [exact Hm|]. apply Hh.
  destruct Hm as (_ & Hr & _). by rewrite Hr.
Qed.

Lemma preserves_at_for_each {A} (r : Report) (P : event → bool)
    (l : list A) (body : A → M unit) :
  (∀ x, preserves_at r P (body x)) → preserves_at r P (for_each l body).
Proof.
  intros Hbody. induction l as [|x l IH]; cbn [for_each].
  - by apply (preserves_at_of r P true), preserves_ret.
  - apply preserves_at_bind; [apply Hbody|done].
Qed.

Section DrawnFrom.

Variable env : Env.
Variable r : Report.

#[local] Abbreviation P := (drawn_from env r).

Lemma toggle_table_display_drawn_from (key : string) (df : DataFrame)
    (limit : Z) (label : string) :
  preserves P true true (toggle_table_display env key df limit label).
Proof.
  intros s. rewrite toggle_table_display_run. split; [|done].
  eexists. split; [reflexivity|]. unfold toggle_events.
  by destruct (expanded s key), (len df >? limit).
Qed.

Lemma startup_drawn_from : preserves P true true startup.
Proof. unfold startup, init_session_states. frames. Qed.

Lemma save_upload_drawn_from (buf : string) :
  preserves P true false (save_upload buf).
Proof.
  unfold save_upload. frames.
  intros s. unfold write_binary, bind, get_fs.
  destruct (fs s !! temp_twbx_path) as [[|c]|]; try apply frame_refl;
    (split; [exists []; by rewrite app_nil_r|done]).
Qed.

Lemma decompress_drawn_from : preserves P true false (decompress env).
Proof.
  unfold decompress. frames.
  intros s. unfold run_decompress. destruct (decompress_twbx env (fs s)).
  split; [exists []; by rewrite app_nil_r|done].
Qed.

Lemma parse_drawn_from : preserves P false true (parse env).
Proof.
  unfold parse. frames.
  intros s. split; [exists []; by rewrite app_nil_r|].
  split; [done|intros _; apply kept_refl].
Qed.

Lemma choose_sections_drawn_from (sections : list string) :
  preserves P true true (choose_sections env sections).
Proof.
  induction sections as [|section rest IH]; simpl; [apply preserves_ret|].
  unfold st_checkbox. frames.
Qed.

Lemma select_sections_drawn_from : preserves P true true (select_sections env).
Proof. unfold select_sections. frames. apply choose_sections_drawn_from. Qed.

Lemma download_original_drawn_from :
  preserves P true true (download_original env).
Proof.
  unfold download_original, st_button. frames.
  apply preserves_same. intros s. unfold read_binary, bind, get_fs.
  by destruct (fs s !! temp_twbx_path) as [[|c]|].
Qed.

(** The chart of the 'Dependency DAG' section is the chart of the report
    the section reads. *)
Lemma dependency_dag_drawn_from : preserves_at r P (dependency_dag env).
Proof.
  intros s Hr. destruct s as [f ss rep o]. cbn [report] in Hr. subst rep.
  unfold dependency_dag, insufficient_data, st_selectbox, the_report, bind,
    lift, namespace, emit, ret.
  cbn [report fst snd fs session_state out].
  destruct (r !! "metadata") as [md|] eqn:Hmd; [|apply frame_refl].
  destruct (r !! "data") as [data|] eqn:Hdata; [|apply frame_refl].
  destruct (as_frame "empty" (get "calculated_fields" _ md)) as [calc|];
    [|apply frame_refl].
  destruct (negb (empty calc));
    [|split; [by exists [(Page, WWrite "Insufficient data to generate Dependency DAG.")]|done]].
  destruct (as_frame "empty" (get "original_fields" _ md)) as [orig|];
    [|apply frame_refl].
  destruct (negb (empty orig));
    [|split; [by exists [(Page, WWrite "Insufficient data to generate Dependency DAG.")]|done]].
  destruct (worksheet_names _) as [names|e] eqn:Hnames; [|apply frame_refl].
  lazymatch goal with
  | |- context [generate_dag env ?a ?b ?c ?d] =>
      destruct (generate_dag env a b c d) as [G|e] eqn:HG
  end; cbn [fst snd out].
  - split; [|done]. eexists [_; _]. rewrite <- app_assoc.
    split; [reflexivity|]. cbn [forallb drawn_from andb].
    apply andb_true_intro. split; [|done]. apply bool_decide_eq_true_2.
    unfold report_chart. rewrite Hmd, Hdata. cbn [mbind option_bind].
    by rewrite Hnames, HG.
  - split; [|done]. by eexists [_].
Qed.

Lemma section_body_drawn_from (section : string) :
  preserves_at r P (section_body env section).
Proof.
  unfold section_body.
  repeat lazymatch goal with
    | |- preserves_at _ _ (if ?c then _ else _) => destruct c
    end;
    try apply dependency_dag_drawn_from;
    apply (preserves_at_of r P true);
    unfold version_information, table_section; frames;
    apply toggle_table_display_drawn_from.
Qed.

Lemma render_sections_drawn_from (selected : list string) :
  preserves_at r P (render_sections env selected).
Proof.
  unfold render_sections. apply preserves_at_for_each. intros section.
  case_bool_decide; [|by apply (preserves_at_of r P true), preserves_ret].
  unfold render_section. apply preserves_at_bind.
  { apply (preserves_at_of r P true). frames. }
  intros _. apply preserves_at_try_except; [apply section_body_drawn_from|].
  intros e. apply (preserves_at_of r P true). frames.
Qed.

Lemma preserves_bind_lift {A B} (Q : event → bool) (kr kf : bool)
    (res : result A) (k : A → M B) :
  (∀ a, res = Ok a → preserves Q kr kf (k a)) →
  preserves Q kr kf (bind (lift res) k).
Proof.
  intros Hk s. unfold bind, lift.
  destruct res as [a|e]; [by apply Hk|apply frame_refl].
Qed.

(** A download the export offers carries an HTML of the report or its
    PDF conversion. *)
Lemma download_drawn_from (label data name mime generated html : string) :
  generate_html_report env (ticked env) r = Ok generated →
  (html = generated ∨
   ∃ image, report_image env r = Some image ∧
            html = str_replace dag_placeholder image generated) →
  (data = html ∨ convert_html_to_pdf env html = Ok (Some data)) →
  P (Placeholder, WDownloadButton label data name mime) = true.
Proof.
  intros Hgen Hhtml Hdata. cbn [drawn_from]. rewrite Hgen.
  apply existsb_exists. exists html. split.
  - destruct Hhtml as [->|(image & -> & ->)]; [by left|right; by left].
  - apply orb_true_iff.
    destruct Hdata as [->|Hpdf]; [left|right]; by apply bool_decide_eq_true_2.
Qed.

Lemma offer_download_drawn_from (export_format generated html : string) :
  generate_html_report env (ticked env) r = Ok generated →
  (html = generated ∨
   ∃ image, report_image env r = Some image ∧
            html = str_replace dag_placeholder image generated) →
  preserves P true true (offer_download env export_format html).
Proof.
  intros Hgen Hhtml. unfold offer_download.
  destruct (String.eqb export_format "HTML").
  { apply preserves_bind; [frames|intros _].
    apply preserves_bind; [|intros _; frames].
    apply preserves_emit. eapply download_drawn_from; eauto. }
  destruct (String.eqb export_format "PDF"); [|apply preserves_ret].
  apply preserves_try_except; [|intros e; frames].
  apply preserves_bind_lift. intros pdf Hpdf.
  destruct pdf as [data|]; cbn [truthy]; [|frames].
  destruct (negb (bool_decide (data = ""))); [|frames].
  apply preserves_bind; [frames|intros _].
  apply preserves_bind; [|intros _; frames].
  apply preserves_emit. cbn [default from_option id].
  eapply download_drawn_from; eauto.
Qed.

Lemma embed_dag_drawn_from (html : string) :
  preserves P true true (embed_dag env html).
Proof. unfold embed_dag. frames. Qed.

(** What [embed_dag] returns: the report with the image of the graph of
    [r] in place of the placeholder. *)
Lemma embed_dag_result (html : string) (s s' : State) (html' : string) :
  report s = Some r → embed_dag env html s = (Ok html', s') →
  ∃ image, report_image env r = Some image ∧
           html' = str_replace dag_placeholder image html.
Proof.
  intros Hr Hrun. unfold report_image.
  unfold embed_dag, logger_info, the_report, bind, lift, namespace, item,
    get_fs, put_fs, ret in Hrun.
  rewrite Hr in Hrun.
  destruct (r !! "metadata") as [md|]; [|done].
  destruct (md !! "calculated_fields") as [calculated|] eqn:Hcalc; [|done].
  destruct (md !! "original_fields") as [original|] eqn:Horig; [|done].
  destruct (r !! "data") as [data|]; [|done].
  destruct (data !! "data_sources") as [data_sources|] eqn:Hds; [|done].
  destruct (generate_dag env calculated original data_sources None)
    as [G|] eqn:HG; [|done].
  destruct (pipe env (plot_dag_graphviz G)) as [img|] eqn:Himg; [|done].
  injection Hrun as <- _. cbn [mbind option_bind].
  rewrite Hcalc. cbn [mbind option_bind]. rewrite Horig. cbn [mbind option_bind].
  rewrite Hds. cbn [mbind option_bind]. rewrite HG, Himg. by eexists.
Qed.

Lemma preserves_at_the_report {A} (k : Report → M A) :
  preserves_at r P (k r) → preserves_at r P (bind the_report k).
Proof.
  intros Hk s Hs. unfold bind, the_report. rewrite Hs. by apply Hk.
Qed.

Lemma generate_export_drawn_from (export_format : string) :
  preserves_at r P (generate_export env (ticked env) export_format).
Proof.
  unfold generate_export. apply preserves_at_the_report.
  intros s Hs. unfold bind at 1, lift at 1.
  destruct (generate_html_report env (ticked env) r) as [generated|e] eqn:Hgen;
    [|apply frame_refl].
  revert s Hs. apply preserves_at_bind;
    [by apply (preserves_at_of r P true), preserves_logger_info|intros _].
  intros s Hs. unfold bind at 1, lift at 1.
  destruct (export_embeds_dag (ticked env) r) as [[|]|e]; [| |apply frame_refl].
  - unfold bind.
    pose proof (embed_dag_drawn_from generated s) as F.
    pose proof (embed_dag_result generated s) as Hres.
    destruct (embed_dag env generated s) as [[html|e] s1];
      cbn [snd] in F; [|eapply frame_weaken; [..|exact F]; done].
    eapply frame_trans; [eapply frame_weaken; [..|exact F]; done|].
    eapply frame_weaken;
      [..|apply (offer_download_drawn_from export_format generated html)];
      try done.
    right. by eapply Hres.
  - unfold bind, ret.
    eapply frame_weaken;
      [..|apply (offer_download_drawn_from export_format generated generated)];
      try done.
    by left.
Qed.

Lemma export_report_drawn_from :
  preserves_at r P (export_report env (ticked env)).
Proof.
  unfold export_report, st_selectbox, st_button.
  repeat lazymatch goal with
    | |- preserves_at _ _ (bind _ _) => apply preserves_at_bind; [|intros ?]
    | |- preserves_at _ _ (try_except _ _) =>
        apply preserves_at_try_except; [|intros ?]
    | |- preserves_at _ _ (if ?c then _ else _) => destruct c
    | |- preserves_at _ _ (generate_export _ _ _) =>
        apply generate_export_drawn_from
    | |- preserves_at _ _ _ => apply (preserves_at_of r P true); solve [frames]
    end.
Qed.

(** What [main] has drawn when it ends with the report [r]. *)
Lemma main_drawn_from (s : State) (evs : list event) :
  report s = None → report (main env s).2 = Some r →
  out (main env s).2 = out s ++ evs →
  forallb P evs = true.
Proof.
  intros Hnone Hr Hevs.
  assert (F : frame P false false s (main env s).2).
  { destruct (main_stages P env s startup_drawn_from save_upload_drawn_from
                decompress_drawn_from parse_drawn_from)
      as [F|(s4 & r0 & F4 & Hr4 & _ & Hpresent)].
    { destruct F as (_ & Hrep & _). rewrite Hrep, Hnone in Hr by done. done. }
    rewrite Hpresent in Hr |- *. eapply frame_trans; [exact F4|].
    unfold present in Hr |- *.
    pose proof (select_sections_result env s4) as Hsel.
    destruct (select_sections env s4) as [[selected|e] s5] eqn:H5;
      cbn [fst] in Hsel; [|done]. injection Hsel as Hsel.
    change (List.filter _ report_sections) with (ticked env) in Hsel.
    subst selected.
    pose proof (preserves_run _ _ _ _ _ _ _ select_sections_drawn_from H5) as F5.
    rewrite (bind_run _ _ _ _ _ H5) in Hr |- *.
    eapply frame_trans; [eapply frame_weaken; [..|exact F5]; done|].
    destruct (merge_captions s5) as [[[]|e] s6] eqn:H6;
      pose proof (preserves_run _ _ _ _ _ _ _ (merge_captions_frame P) H6) as F6;
      [rewrite (bind_run _ _ _ _ _ H6) in Hr |- *
      |rewrite (bind_raise _ _ _ _ _ H6);
       eapply frame_weaken; [..|exact F6]; done].
    eapply frame_trans; [eapply frame_weaken; [..|exact F6]; done|].
    assert (Hkeep : preserves any_widget true true
                      (bind (render_sections env (ticked env))
                         (λ _, bind (export_report env (ticked env))
                                 (λ _, download_original env)))).
    { apply preserves_bind; [apply render_sections_frame|]. intros _.
      apply preserves_bind; [apply export_report_frame|]. intros _.
      apply download_original_frame. }
    assert (Hr6 : report s6 = Some r).
    { destruct (Hkeep s6) as (_ & Hrep & _). by rewrite <- Hrep. }
    assert (Hrest : preserves_at r P
                      (bind (render_sections env (ticked env))
                         (λ _, bind (export_report env (ticked env))
                                 (λ _, download_original env)))).
    { apply preserves_at_bind; [apply render_sections_drawn_from|]. intros _.
      apply preserves_at_bind; [apply export_report_drawn_from|]. intros _.
      apply (preserves_at_of r P true), download_original_drawn_from. }
    eapply frame_weaken; [| | |exact (Hrest s6 Hr6)]; [auto|auto|auto]. }
  destruct F as ((evs' & Ho & HP) & _). rewrite Ho in Hevs.
  by apply app_inv_head in Hevs as <-.
Qed.

End DrawnFrom.

(** C5, as the code has it.  The data source table, the worksheet table
    and the version entries of the report are never written after the
    parse; the two field tables are written by the merge stage alone,
    which may replace each by its caption merge with the data source
    table; the section, export and download stages do not write to the
    report.  Every dependency graph is built from the tables of the
    report the merge stage left: a chart [main] draws is that of the graph
    [generate_dag] returns for the three tables of that report and the
    worksheet chosen, and a download the export offers carries the HTML
    [generate_html_report] made of that report, as it is or with the image
    of the graph [generate_dag] returns for its three tables in place of
    the placeholder, or the PDF conversion of that HTML. *)
Theorem report_written_by_merge_only (env : Env) (s : State) :
  (∀ r', report s = None → report (main env s).2 = Some r' →
     ∃ r, get_report env = Ok r ∧ caption_update r r' ∧
          r' !! "data" = r !! "data") ∧
  (∀ selected t,
     report (render_sections env selected t).2 = report t ∧
     report (export_report env selected t).2 = report t ∧
     report (download_original env t).2 = report t) ∧
  (∀ r' evs,
     report s = None → report (main env s).2 = Some r' →
     out (main env s).2 = out s ++ evs →
     (∀ p dot, (p, WGraphvizChart dot) ∈ evs →
        report_chart env r' = Some dot) ∧
     (∀ label data name mime,
        (Placeholder, WDownloadButton label data name mime) ∈ evs →
        ∃ html, report_html env (ticked env) r' html ∧
                (data = html ∨ convert_html_to_pdf env html = Ok (Some data)))).
Proof.
  split; [|split].
  - intros r' Hnone Hr'.
    destruct (main_cases env s) as [F|(s4 & r & F & Hr4 & Hget & Hpresent)].
    { destruct F as (_ & Hrep & _). rewrite Hrep, Hnone in Hr' by done. done. }
    exists r. split; [done|]. rewrite Hpresent in Hr'.
    destruct (present_report env s4 r Hr4) as (r'' & Hr'' & Hupd).
    rewrite Hr' in Hr''. injection Hr'' as <-. split; [done|].
    destruct Hupd as [->|(md & md' & _ & -> & _)]; [done|].
    by rewrite lookup_insert_ne.
  - intros selected t. split; [|split].
    + by destruct (render_sections_frame env selected t) as (_ & -> & _).
    + by destruct (export_report_frame env selected t) as (_ & -> & _).
    + by destruct (download_original_frame env t) as (_ & -> & _).
  - intros r' evs Hnone Hr' Hevs.
    pose proof (main_drawn_from env r' s evs Hnone Hr' Hevs) as Hall.
    rewrite forallb_forall in Hall. split.
    + intros p dot Hin%list_elem_of_In. apply Hall in Hin.
      cbn [drawn_from] in Hin.
      by destruct p; apply bool_decide_eq_true_1 in Hin.
    + intros label data name mime Hin%list_elem_of_In. apply Hall in Hin.
      cbn [drawn_from] in Hin. unfold report_html.
      destruct (generate_html_report env (ticked env) r') as [generated|];
        [|done].
      apply existsb_exists in Hin as (html & Hhtml & Hdata).
      exists html. split.
      * exists generated. split; [done|].
        destruct Hhtml as [<-|Hhtml]; [by left|right].
        destruct (report_image env r') as [image|]; [|done].
        destruct Hhtml as [<-|[]]. by exists image.
      * apply orb_true_iff in Hdata as [H|H];
          apply bool_decide_eq_true_1 in H; auto.
Qed.

(** On the sample workbook the parser returns the sample report, the
    report [main] leaves is its caption update, and a chart [main] has
    drawn is the chart of the report it leaves. *)
Lemma report_written_by_merge_only_sample :
  report Sample.start = None ∧
  ∃ r', report (main Sample.sample_env Sample.start).2 = Some r' ∧
        (∃ r, get_report Sample.sample_env = Ok r ∧ caption_update r r' ∧
              r' !! "data" = r !! "data") ∧
        ∀ p dot,
          (p, WGraphvizChart dot) ∈ out (main Sample.sample_env Sample.start).2 →
          report_chart Sample.sample_env r' = Some dot.
Proof.
  split; [reflexivity|].
  exists (default ∅ (report (main Sample.sample_env Sample.start).2)).
  assert (H : report (main Sample.sample_env Sample.start).2
              = Some (default ∅ (report (main Sample.sample_env Sample.start).2)))
    by (vm_compute; reflexivity).
  split; [exact H|].
  destruct (report_written_by_merge_only Sample.sample_env Sample.start)
    as (Hupdate & _ & Hgraphs).
  split; [exact (Hupdate _ eq_refl H)|].
  exact (proj1 (Hgraphs _ (out (main Sample.sample_env Sample.start).2)
                  eq_refl H eq_refl)).
Defined.

(** C5, as stated, fails on the sample workbook: the calculated field
    table [main] leaves in the report is not the one the parser returned,
    it has one more column. *)
Lemma main_overwrites_field_tables :
  get_report Sample.sample_env = Ok Sample.sample_report ∧
  ∃ r', report (main Sample.sample_env Sample.start).2 = Some r' ∧
        table_of "metadata" "calculated_fields" r'
        ≠ table_of "metadata" "calculated_fields" Sample.sample_report.
Proof.
  split; [reflexivity|].
  exists (default ∅ (report (main Sample.sample_env Sample.start).2)).
  split; [vm_compute; reflexivity|]. intros H.
  apply (f_equal (λ t, match t with
                       | Ok df => length (columns df)
                       | Raise _ => 0%nat
                       end)) in H.
  vm_compute in H. discriminate H.
Qed.

(** ** What stays on disk *)

Lemma preserves_weaken {A} (P P' : event → bool) (r r' u u' : bool) (m : M A) :
  (∀ e, P e = true → P' e = true) → (r' = true → r = true) →
  (u' = true → u = true) → preserves P r u m → preserves P' r' u' m.
Proof. intros HP Hr Hu Hm s. eapply frame_weaken; [..|apply Hm]; done. Qed.

Lemma present_frame (env : Env) : preserves any_widget false true (present env).
Proof.
  unfold present.
  apply preserves_bind;
    [eapply preserves_weaken; [..|apply select_sections_frame]; done|].
  intros selected. apply preserves_bind; [apply merge_captions_frame|].
  intros _. apply preserves_bind;
    [eapply preserves_weaken; [..|apply render_sections_frame]; done|].
  intros _. apply preserves_bind;
    [eapply preserves_weaken; [..|apply export_report_frame]; done|].
  intros _. eapply preserves_weaken; [..|apply download_original_frame]; done.
Qed.

Lemma init_flag_run (key : string) (s : State) :
  ∃ ss, init_flag key s = (Ok tt, mkState (fs s) ss (report s) (out s)).
Proof.
  destruct s as [f ss0 r o]. unfold init_flag, bind, get_session. simpl.
  destruct (ss0 !! key); eexists; reflexivity.
Qed.

Lemma init_session_states_run (s : State) :
  ∃ ss, init_session_states s = (Ok tt, mkState (fs s) ss (report s) (out s)).
Proof.
  unfold init_session_states. generalize (map snd section_keys). intros l.
  revert s. induction l as [|key l IH]; intros s; simpl.
  - exists (session_state s). by destruct s.
  - destruct (init_flag_run key s) as [ss Hss]. erewrite bind_run by done.
    destruct (IH (mkState (fs s) ss (report s) (out s))) as [ss' Hss'].
    by exists ss'.
Qed.

Lemma append_line_log (line : string) (f : FS) :
  is_Some (append_line line f !! log_path).
Proof.
  unfold append_line. destruct (f !! log_path) as [[|c]|];
    by rewrite lookup_insert_eq.
Qed.

(** Runs the first stage of a sequence; a stage that raises ends it. *)
Ltac run_stage :=
  lazymatch goal with
  | |- context [bind ?m ?k ?s] =>
      let H := fresh "Hstage" in
      destruct (m s) as [[[]|?] ?] eqn:H;
      [rewrite (bind_run m k s _ _ H)|rewrite (bind_raise m k s _ _ H)]
  end.

(** Once the app has started there is a log file. *)
Lemma startup_log (s : State) :
  (startup s).1 = Ok tt → is_Some (fs (startup s).2 !! log_path).
Proof.
  unfold startup. do 3 (run_stage; [|done]). intros _.
  unfold logger_info, bind, get_fs, put_fs, emit. simpl. apply append_line_log.
Qed.

(** Saving the upload writes it to [temp_uploaded.twbx] and removes
    nothing. *)
Lemma save_upload_run (buf : string) (s : State) :
  fs s !! temp_twbx_path ≠ Some Dir →
  ∃ s2, save_upload buf s = (Ok true, s2) ∧
        fs s2 !! temp_twbx_path = Some (File [buf]) ∧
        ∀ path, is_Some (fs s !! path) → is_Some (fs s2 !! path).
Proof.
  intros Hdir.
  set (f := <[temp_twbx_path := File [buf]]> (fs s)).
  pose proof (append_line_kept
                (log_line "I" ("Uploaded file saved to " +:+ temp_twbx_path)) f)
    as [Hup Hdom].
  assert (Hrun : ∃ s2, save_upload buf s = (Ok true, s2) ∧
            fs s2 = append_line
                      (log_line "I" ("Uploaded file saved to " +:+ temp_twbx_path)) f).
  { unfold save_upload, try_except, write_binary, logger_info, bind, get_fs,
      put_fs, emit, ret. simpl.
    destruct (fs s !! temp_twbx_path) as [[|c]|]; try done; eexists; done. }
  destruct Hrun as (s2 & Hrun & Hfs). exists s2. split; [done|]. rewrite Hfs.
  split.
  - rewrite Hup. apply lookup_insert_eq.
  - intros path Hpath. apply Hdom. unfold f.
    destruct (decide (temp_twbx_path = path)) as [<-|];
      [by rewrite lookup_insert_eq|by rewrite lookup_insert_ne].
Qed.

(** Whether the upload could be written or not, saving it removes
    nothing. *)
Lemma save_upload_grows (buf : string) (s : State) (path : string) :
  is_Some (fs s !! path) → is_Some (fs (save_upload buf s).2 !! path).
Proof.
  destruct (fs s !! temp_twbx_path) as [[|c]|] eqn:Htemp.
  - unfold save_upload, try_except, write_binary, logger_error, bind, get_fs,
      put_fs, emit, raise, ret.
    rewrite Htemp. cbn [fst snd fs]. apply append_line_kept.
  - destruct (save_upload_run buf s) as (s2 & -> & _ & Hdom);
      [by rewrite Htemp|apply Hdom].
  - destruct (save_upload_run buf s) as (s2 & -> & _ & Hdom);
      [by rewrite Htemp|apply Hdom].
Qed.

(** C6, as the code has it.  [main] removes no file on any path through
    it: with a parser whose extraction leaves the saved upload alone and
    removes nothing that was there before it ran, every path that exists
    when [main] begins exists when it ends, whether it returns or raises.
    When there is an upload, the log could be opened and
    [temp_uploaded.twbx] is not a directory, the copy of the uploaded
    package saved under that name is on disk with the uploaded bytes when
    [main] ends, on every exit path; so is the log file. *)
Theorem files_stay_on_disk (env : Env) (s : State) :
  keeps_files env →
  (∀ path, is_Some (fs s !! path) → is_Some (fs (main env s).2 !! path)) ∧
  (∀ buf,
     uploaded_file env = Some buf →
     (startup s).1 = Ok tt →
     fs s !! temp_twbx_path ≠ Some Dir →
     fs (main env s).2 !! temp_twbx_path = Some (File [buf]) ∧
     is_Some (fs (main env s).2 !! log_path)).
Proof.
  intros Hkeep.
  assert (F : preserves any_widget false true
                (bind (decompress env) (λ decompressed,
                   if negb decompressed then ret tt else
                   bind (parse env) (λ parsed,
                     if negb parsed then ret tt else present env)))).
  { apply preserves_bind;
      [eapply preserves_weaken; [..|by apply decompress_frame_files]; done|].
    intros [|]; simpl; [|apply preserves_ret].
    apply preserves_bind;
      [eapply preserves_weaken; [..|apply parse_frame]; done|].
    intros [|]; simpl; [apply present_frame|apply preserves_ret]. }
  destruct (startup_frame s) as (_ & _ & [Htemp1 Hdom1]); [done|].
  split.
  - intros path Hpath. apply Hdom1 in Hpath. unfold main.
    destruct (startup s) as [[[]|e] s1] eqn:H1;
      [erewrite bind_run by done|by erewrite bind_raise by done].
    cbn [snd] in *. destruct (uploaded_file env) as [buf|]; [|done].
    apply (save_upload_grows buf) in Hpath.
    destruct (save_upload buf s1) as [[saved|e] s2] eqn:H2;
      [erewrite bind_run by done|by erewrite bind_raise by done].
    cbn [snd] in Hpath. destruct saved; [|done]. cbn [negb].
    destruct (F s2) as (_ & _ & [_ Hdom3]); [done|]. by apply Hdom3.
  - intros buf Hup Hstart Hdir.
    pose proof (startup_log s Hstart) as Hlog.
    unfold main. destruct (startup s) as [[[]|e] s1] eqn:H1; [|done].
    erewrite bind_run by done. rewrite Hup. simpl in *.
    destruct (save_upload_run buf s1) as (s2 & H2 & Htemp2 & Hdom2);
      [by rewrite Htemp1|].
    erewrite bind_run by done. simpl.
    destruct (F s2) as (_ & _ & [Htemp3 Hdom3]); [done|].
    split; [by rewrite Htemp3|]. auto.
Qed.

(** The sample run: started on an empty disk, with a parser that touches
    no file, it leaves the saved upload behind. *)
Lemma files_stay_on_disk_sample :
  uploaded_file Sample.sample_env = Some "PK-bytes" ∧
  (startup Sample.start).1 = Ok tt ∧
  fs Sample.start !! temp_twbx_path ≠ Some Dir ∧
  keeps_files Sample.sample_env ∧
  fs (main Sample.sample_env Sample.start).2 !! temp_twbx_path
    = Some (File ["PK-bytes"]).
Proof.
  assert (H1 : uploaded_file Sample.sample_env = Some "PK-bytes") by reflexivity.
  assert (H2 : (startup Sample.start).1 = Ok tt) by (vm_compute; reflexivity).
  assert (H3 : fs Sample.start !! temp_twbx_path ≠ Some Dir)
    by (vm_compute; discriminate).
  assert (H4 : keeps_files Sample.sample_env) by (intros f; apply kept_refl).
  do 4 (split; [assumption|]).
  exact (proj1 (proj2 (files_stay_on_disk Sample.sample_env Sample.start H4)
                  "PK-bytes" H1 H2 H3)).
Defined.

(** C6, as stated, fails: after a run on an archive that cannot be
    opened, started on an empty disk, the saved upload and the log are
    still there. *)
Lemma main_leaves_files :
  fs Sample.start = ∅ ∧
  (main Sample.broken_archive_env Sample.start).1 = Ok tt ∧
  fs (main Sample.broken_archive_env Sample.start).2 !! temp_twbx_path
    = Some (File ["PK-bytes"]) ∧
  is_Some (fs (main Sample.broken_archive_env Sample.start).2 !! log_path) ∧
  ¬ cleans_up.
Proof.
  assert (H : fs (main Sample.broken_archive_env Sample.start).2 !! temp_twbx_path
              = Some (File ["PK-bytes"])) by (vm_compute; reflexivity).
  split; [reflexivity|]. split; [vm_compute; reflexivity|]. split; [exact H|].
  split; [vm_compute; eexists; reflexivity|].
  intros Hclean.
  specialize (Hclean Sample.broken_archive_env Sample.start temp_twbx_path eq_refl).
  rewrite H in Hclean. discriminate Hclean.
Qed.

(** ** When a dependency graph is built *)

(** What the 'Dependency DAG' section draws for a report that holds the
    two field tables [calc] and [orig]. *)
Lemma dependency_dag_run (env : Env) (s : State) (r : Report)
    (md data : pydict) (calc orig : DataFrame) :
  report s = Some r →
  r !! "metadata" = Some md → r !! "data" = Some data →
  md !! "calculated_fields" = Some (PFrame calc) →
  md !! "original_fields" = Some (PFrame orig) →
  let data_sources := get "data_sources" (PFrame empty_frame) data in
  dependency_dag env s =
    if empty calc || empty orig then (Ok tt, drawn s [insufficient]) else
    match worksheet_names (get "worksheets" (PFrame empty_frame) md) with
    | Raise e => (Raise e, s)
    | Ok names =>
        let box := (Page, WSelectbox "Select Worksheet for DAG:" ("All" :: names)) in
        let chosen := selectbox env "Select Worksheet for DAG:" ("All" :: names) in
        match generate_dag env (PFrame calc) (PFrame orig) data_sources
                (Some chosen) with
        | Raise e => (Raise e, drawn s [box])
        | Ok G =>
            (Ok tt, drawn s [box; (Page, WGraphvizChart (plot_dag_graphviz G))])
        end
    end.
Proof.
  intros Hr Hmd Hdata Hcalc Horig data_sources.
  assert (Hgc : get "calculated_fields" (PFrame empty_frame) md = PFrame calc)
    by (unfold get; by rewrite Hcalc).
  assert (Hgo : get "original_fields" (PFrame empty_frame) md = PFrame orig)
    by (unfold get; by rewrite Horig).
  destruct s as [f ss rep o]. simpl in Hr. subst rep.
  unfold dependency_dag, the_report, bind, lift, namespace, insufficient_data,
    st_selectbox, emit, ret, drawn, insufficient.
  simpl. rewrite Hmd, Hdata, Hgc, Hgo. fold data_sources. simpl.
  destruct (empty calc); simpl; [done|]. destruct (empty orig); simpl; [done|].
  destruct (worksheet_names _) as [names|e]; simpl; [|done].
  destruct (generate_dag env _ _ _ _) as [G|e]; simpl; [|done].
  by rewrite <- app_assoc.
Qed.

Lemma export_embeds_dag_run (selected : list string) (r : Report) (md : pydict)
    (calc : DataFrame) :
  r !! "metadata" = Some md →
  md !! "calculated_fields" = Some (PFrame calc) →
  export_embeds_dag selected r
  = Ok (bool_decide ("Dependency DAG" ∈ selected) && negb (empty calc)).
Proof.
  intros Hmd Hcalc. unfold export_embeds_dag, namespace.
  case_bool_decide; [|done]. rewrite Hmd. simpl. unfold get. by rewrite Hcalc.
Qed.

(** The HTML export of a report with a non-empty calculated field table,
    'Dependency DAG' selected: the graph is built, rendered and put in
    place of the placeholder, whatever the original field table holds. *)
Lemma generate_export_embeds (env : Env) (s : State) (r : Report)
    (md data : pydict) (calc : DataFrame) (original data_sources : pyval)
    (selected : list string) (html : string) (G : DiGraph) (img : string) :
  report s = Some r →
  r !! "metadata" = Some md → r !! "data" = Some data →
  md !! "calculated_fields" = Some (PFrame calc) →
  md !! "original_fields" = Some original →
  data !! "data_sources" = Some data_sources →
  "Dependency DAG" ∈ selected → empty calc = false →
  generate_html_report env selected r = Ok html →
  generate_dag env (PFrame calc) original data_sources None = Ok G →
  pipe env (plot_dag_graphviz G) = Ok img →
  (generate_export env selected "HTML" s).1 = Ok tt ∧
  out (generate_export env selected "HTML" s).2
  = out s ++ html_download env
               (str_replace dag_placeholder
                  (dag_image (image_to_base64 env img)) html).
Proof.
  intros Hr Hmd Hdata Hcalc Horig Hds Hsel He Hhtml HG Himg.
  destruct s as [f ss rep o]. simpl in Hr. subst rep.
  unfold generate_export, the_report, bind, lift. simpl. rewrite Hhtml. simpl.
  rewrite (export_embeds_dag_run selected r md calc Hmd Hcalc).
  rewrite bool_decide_eq_true_2, He by done. simpl.
  unfold embed_dag, the_report, bind, lift, namespace, item. simpl.
  rewrite Hmd, Hdata, Hcalc, Horig, Hds. simpl. rewrite HG. simpl.
  rewrite Himg. simpl. split; [done|]. by rewrite <- app_assoc.
Qed.




(** ** Version information *)

(** [version_info] falls back on ['Unknown'] for an entry the report does
    not have. *)
Lemma version_info_default (metadata : pydict) (attr key label : string) :
  (attr, key, label) ∈ version_labels → metadata !! key = None →
  (label, PStr "Unknown") ∈ version_info metadata.
Proof.
  unfold version_labels, version_info, get.
  rewrite !elem_of_cons, elem_of_nil.
  intros [H|[H|[H|[]]]] Hkey; injection H as -> -> ->; rewrite Hkey; simpl;
    auto.
Qed.

Lemma version_entries_lookup (root : gmap string string) (attr key label : string) :
  (attr, key, label) ∈ version_labels →
  ParserSpec.version_entries root !! key
  = Some (PStr (default "Unknown" (root !! attr))).
Proof.
  unfold version_labels, ParserSpec.version_entries, ParserSpec.attribute.
  rewrite !elem_of_cons, elem_of_nil.
  intros [H|[H|[H|[]]]]; injection H as -> -> ->; by simplify_map_eq.
Qed.

Lemma get_report_metadata (dsc fc wc : list string) (root : gmap string string)
    (dss : list ParserSpec.DataSource) (orig calc : list ParserSpec.Field)
    (wss : list ParserSpec.Worksheet) :
  ParserSpec.get_report dsc fc wc root dss orig calc wss !! "metadata"
  = Some (<["calculated_fields" := PFrame (ParserSpec.fields_table fc calc)]>
          (<["original_fields" := PFrame (ParserSpec.fields_table fc orig)]>
          (<["worksheets" := PFrame (ParserSpec.worksheets_table wc wss)]>
          (ParserSpec.version_entries root)))).
Proof. unfold ParserSpec.get_report. by simplify_map_eq. Qed.

Lemma get_report_data (dsc fc wc : list string) (root : gmap string string)
    (dss : list ParserSpec.DataSource) (orig calc : list ParserSpec.Field)
    (wss : list ParserSpec.Worksheet) :
  ParserSpec.get_report dsc fc wc root dss orig calc wss !! "data"
  = Some {[ "data_sources" := PFrame (ParserSpec.data_sources_table dsc dss) ]}.
Proof. unfold ParserSpec.get_report. by simplify_map_eq. Qed.

(** C7. A root element may lack any of [version], [source-platform] and
    [source-build]: the version entries are built all the same, the entry
    of a missing attribute is ['Unknown'], and the 'Version Information'
    section shows the three entries, ['Unknown'] for a missing one.  The
    section itself shows ['Unknown'] for any entry a report lacks. *)
Theorem missing_version_is_unknown (dsc fc wc : list string)
    (root : gmap string string) (dss : list ParserSpec.DataSource)
    (orig calc : list ParserSpec.Field) (wss : list ParserSpec.Worksheet)
    (s : State) :
  report s = Some (ParserSpec.get_report dsc fc wc root dss orig calc wss) →
  (∃ md,
     ParserSpec.get_report dsc fc wc root dss orig calc wss !! "metadata" = Some md ∧
     version_information s = (Ok tt, drawn s [(Page, WJson (version_info md))]) ∧
     version_info md
     = [("Version", PStr (default "Unknown" (root !! "version")));
        ("Source Platform", PStr (default "Unknown" (root !! "source-platform")));
        ("Source Build", PStr (default "Unknown" (root !! "source-build")))] ∧
     ∀ attr key label,
       (attr, key, label) ∈ version_labels → root !! attr = None →
       md !! key = Some (PStr "Unknown") ∧
       (label, PStr "Unknown") ∈ version_info md) ∧
  (∀ metadata attr key label,
     (attr, key, label) ∈ version_labels → metadata !! key = None →
     (label, PStr "Unknown") ∈ version_info metadata).
Proof.
  intros Hr. split; [|apply version_info_default].
  eexists. split; [apply get_report_metadata|].
  set (md := <["calculated_fields" := _]> _).
  assert (Hkeys : ∀ attr key label, (attr, key, label) ∈ version_labels →
            md !! key = Some (PStr (default "Unknown" (root !! attr)))).
  { intros attr key label Hin.
    rewrite <- (version_entries_lookup root attr key label Hin). unfold md.
    unfold version_labels in Hin. rewrite !elem_of_cons, elem_of_nil in Hin.
    destruct Hin as [H|[H|[H|[]]]]; injection H as -> -> ->;
      by rewrite !lookup_insert_ne. }
  assert (Hinfo : version_info md
     = [("Version", PStr (default "Unknown" (root !! "version")));
        ("Source Platform", PStr (default "Unknown" (root !! "source-platform")));
        ("Source Build", PStr (default "Unknown" (root !! "source-build")))]).
  { unfold version_info, get.
    rewrite (Hkeys "version" "version" "Version"),
      (Hkeys "source-platform" "source_platform" "Source Platform"),
      (Hkeys "source-build" "source_build" "Source Build");
      [done|unfold version_labels; rewrite !elem_of_cons; auto..]. }
  split; [|split; [done|]].
  - destruct s as [f ss rep o]. simpl in Hr. subst rep.
    unfold version_information, the_report, bind, lift, namespace, emit, drawn.
    simpl. by rewrite get_report_metadata.
  - intros attr key label Hin Hnone. rewrite (Hkeys attr key label Hin), Hnone.
    split; [done|]. rewrite Hinfo.
    unfold version_labels in Hin. rewrite !elem_of_cons, elem_of_nil in Hin.
    destruct Hin as [H|[H|[H|[]]]]; injection H as -> -> ->; rewrite Hnone;
      simpl; rewrite !elem_of_cons; auto.
Qed.

(** A root element that has a version only. *)
Lemma missing_version_is_unknown_sample :
  report (mkState ∅ ∅ (Some Sample.version_only_report) [])
    = Some Sample.version_only_report ∧
  Sample.version_only !! "source-build" = None ∧
  ∃ md, Sample.version_only_report !! "metadata" = Some md ∧
        md !! "source_build" = Some (PStr "Unknown") ∧
        ("Source Build", PStr "Unknown") ∈ version_info md.
Proof.
  destruct (missing_version_is_unknown [] [] [] Sample.version_only [] [] [] []
              (mkState ∅ ∅ (Some Sample.version_only_report) []) eq_refl)
    as [(md & Hmd & _ & _ & Hmissing) _].
  split; [reflexivity|]. split; [reflexivity|].
  exists md. split; [exact Hmd|].
  apply (Hmissing "source-build" "source_build" "Source Build");
    [unfold version_labels; do 2 apply list_elem_of_further; apply list_elem_of_here
    |reflexivity].
Defined.

(** ** The report contract *)

Lemma col_index_head (c : string) (cols : list string) :
  col_index c (c :: cols) = Some 0%nat.
Proof. simpl. by rewrite bool_decide_eq_true_2. Qed.

Lemma col_index_second (c c' : string) (cols : list string) :
  c' ≠ c → col_index c (c' :: c :: cols) = Some 1%nat.
Proof.
  intros Hne. simpl.
  by rewrite bool_decide_eq_false_2, bool_decide_eq_true_2 by done.
Qed.

(** The two columns the caption merge takes from the data source table. *)
Lemma select_captions (dsc : list string) (dss : list ParserSpec.DataSource) :
  select ["Data Source ID"; "Caption"] (ParserSpec.data_sources_table dsc dss)
  = Ok (mkDF (range_index (length dss)) ["Data Source ID"; "Caption"]
          (map (λ d, [Some (ParserSpec.ds_id d); ParserSpec.ds_caption d]) dss)).
Proof.
  unfold select, ParserSpec.data_sources_table. cbn [columns rows index].
  cbn [select_positions]. rewrite col_index_head, col_index_second by done.
  simpl. by rewrite map_map.
Qed.

(** Joining a field table of the report with the data source table finds
    its key on both sides. *)
Lemma caption_merge_finds_key (dsc fc : list string)
    (dss : list ParserSpec.DataSource) (l : list ParserSpec.Field) (k : string) :
  caption_merge (ParserSpec.fields_table fc l) (ParserSpec.data_sources_table dsc dss)
  ≠ Raise (KeyError k).
Proof.
  unfold caption_merge. rewrite select_captions. cbn [rbind].
  unfold merge_left, ParserSpec.fields_table. cbn [columns rows].
  rewrite key_position_captions. cbn [rbind].
  unfold key_position. rewrite col_index_head.
  case_bool_decide; [done|]. unfold rbind, merge_columns.
  by destruct (_ || _).
Qed.

Lemma worksheet_names_table (wc : list string) (wss : list ParserSpec.Worksheet) :
  worksheet_names (PFrame (ParserSpec.worksheets_table wc wss))
  = Ok (dropna_unique (map (λ w, Some (ParserSpec.ws_name w)) wss)).
Proof.
  unfold worksheet_names, column, ParserSpec.worksheets_table.
  cbn [as_frame rbind columns rows]. rewrite col_index_head. simpl.
  by rewrite map_map.
Qed.

(** C1. The report aggregate has exactly the two namespaces ['metadata']
    and ['data'].  ['metadata'] holds exactly the three version entries
    (strings) and the calculated field, original field and worksheet
    tables; ['data'] holds exactly the data source table.  The field
    tables have a ['Data Source ID'] column, the data source table has
    ['Data Source ID'] and ['Caption'], the worksheet table has
    ['Worksheet Name']; so the caption merge finds its columns and the
    worksheet selection reads the worksheet names off the table. *)
Theorem report_exposes_two_namespaces (dsc fc wc : list string)
    (root : gmap string string) (dss : list ParserSpec.DataSource)
    (orig calc : list ParserSpec.Field) (wss : list ParserSpec.Worksheet) :
  let r := ParserSpec.get_report dsc fc wc root dss orig calc wss in
  let data_sources := ParserSpec.data_sources_table dsc dss in
  let calculated := ParserSpec.fields_table fc calc in
  let original := ParserSpec.fields_table fc orig in
  let worksheets := ParserSpec.worksheets_table wc wss in
  dom r = ({[ "metadata"; "data" ]} : gset string) ∧
  ∃ md data,
    r !! "metadata" = Some md ∧ r !! "data" = Some data ∧
    dom md = ({[ "version"; "source_platform"; "source_build";
                 "calculated_fields"; "original_fields"; "worksheets" ]}
              : gset string) ∧
    dom data = ({[ "data_sources" ]} : gset string) ∧
    (∃ v p b, md !! "version" = Some (PStr v) ∧
              md !! "source_platform" = Some (PStr p) ∧
              md !! "source_build" = Some (PStr b)) ∧
    md !! "calculated_fields" = Some (PFrame calculated) ∧
    md !! "original_fields" = Some (PFrame original) ∧
    md !! "worksheets" = Some (PFrame worksheets) ∧
    data !! "data_sources" = Some (PFrame data_sources) ∧
    has_column "Data Source ID" calculated = true ∧
    has_column "Data Source ID" original = true ∧
    has_column "Data Source ID" data_sources = true ∧
    has_column "Caption" data_sources = true ∧
    has_column "Worksheet Name" worksheets = true ∧
    is_ok (select ["Data Source ID"; "Caption"] data_sources) = true ∧
    (∀ k, caption_merge calculated data_sources ≠ Raise (KeyError k)) ∧
    (∀ k, caption_merge original data_sources ≠ Raise (KeyError k)) ∧
    worksheet_names (PFrame worksheets)
    = Ok (dropna_unique (map (λ w, Some (ParserSpec.ws_name w)) wss)).
Proof.
  intros r data_sources calculated original worksheets.
  split.
  { unfold r, ParserSpec.get_report.
    rewrite dom_insert_L, dom_singleton_L. set_solver. }
  eexists _, _. split; [apply get_report_metadata|].
  split; [apply get_report_data|].
  split.
  { unfold ParserSpec.version_entries.
    rewrite !dom_insert_L, dom_singleton_L. set_solver. }
  split; [by rewrite dom_singleton_L|].
  split.
  { exists (default "Unknown" (root !! "version")),
      (default "Unknown" (root !! "source-platform")),
      (default "Unknown" (root !! "source-build")).
    unfold ParserSpec.version_entries, ParserSpec.attribute.
    by simplify_map_eq. }
  do 4 (split; [by simplify_map_eq|]).
  unfold has_column.
  do 5 (split; [apply bool_decide_eq_true_2; cbn [columns
          ParserSpec.fields_table ParserSpec.data_sources_table
          ParserSpec.worksheets_table]; set_solver|]).
  split; [unfold data_sources; by rewrite select_captions|].
  split; [intros k; apply caption_merge_finds_key|].
  split; [intros k; apply caption_merge_finds_key|].
  apply worksheet_names_table.
Qed.

(** * Further properties of [app.py] *)

(** ** The table toggle and the table sections *)

(** X1. [toggle_table_display] changes the section's own flag only, and
    only on a click: an expanded section stays expanded unless 'Show Less'
    is clicked, a collapsed one becomes expanded exactly when 'Show More'
    was offered and clicked.  The other flags, the files and the report
    are left alone. *)
Theorem toggle_table_display_flag (env : Env) (section_key : string)
    (dataframe : DataFrame) (display_limit : Z) (section_label : string)
    (s : State) :
  let s' :=
    (toggle_table_display env section_key dataframe display_limit
       section_label s).2 in
  expanded s' section_key
  = (if expanded s section_key
     then negb (button env ("show_less_" +:+ section_key))
     else (len dataframe >? display_limit)
          && button env ("show_more_" +:+ section_key)) ∧
  (∀ k, k ≠ section_key → session_state s' !! k = session_state s !! k) ∧
  fs s' = fs s ∧ report s' = report s.
Proof.
  intros s'. subst s'. rewrite toggle_table_display_run. cbn [snd fs report].
  split; [|split; [|done]].
  - unfold toggle_flags.
    destruct (expanded s section_key) eqn:He; unfold expanded;
      cbn [session_state].
    + destruct (button env _); by rewrite ?lookup_insert_eq.
    + destruct (len dataframe >? display_limit); cbn [andb];
        [destruct (button env _)|]; by rewrite ?lookup_insert_eq.
  - intros k Hk. cbn [session_state]. unfold toggle_flags.
    destruct (expanded s section_key);
      [|destruct (len dataframe >? display_limit)];
      try destruct (button env _); by rewrite ?lookup_insert_ne.
Qed.

Lemma head_prefix (n : Z) (df : DataFrame) :
  columns (head n df) = columns df ∧
  rows (head n df) `prefix_of` rows df ∧
  index (head n df) `prefix_of` index df.
Proof.
  unfold head. cbn [columns rows index].
  split; [done|]. split; apply prefix_take.
Qed.

(** X2. The table [toggle_table_display] draws always has the columns of
    the frame and a leading part of its rows and labels; for a collapsed
    section and a limit from 0 up it has [min(len, display_limit)] rows,
    so never more than the limit. *)
Theorem toggle_table_display_prefix (env : Env) (section_key : string)
    (dataframe : DataFrame) (display_limit : Z) (section_label : string)
    (s : State) :
  ∃ shown controls,
    out (toggle_table_display env section_key dataframe display_limit
           section_label s).2
    = out s ++ (Page, WDataframe shown) :: controls ∧
    columns shown = columns dataframe ∧
    rows shown `prefix_of` rows dataframe ∧
    index shown `prefix_of` index dataframe ∧
    (expanded s section_key = false → 0 ≤ display_limit →
     len shown = Z.min (len dataframe) display_limit).
Proof.
  rewrite toggle_table_display_run. cbn [snd out]. unfold toggle_events.
  destruct (expanded s section_key).
  - eexists _, _. split; [reflexivity|]. by repeat split.
  - destruct (Z.gtb_spec (len dataframe) display_limit) as [Hgt|Hle].
    + eexists _, _. split; [reflexivity|].
      destruct (head_prefix display_limit dataframe) as (? & ? & ?).
      do 3 (split; [done|]). intros _ Hlimit.
      destruct (head_first_rows display_limit dataframe Hlimit) as [_ ->]; lia.
    + eexists _, _. split; [reflexivity|]. do 3 (split; [done|]).
      intros _ _. lia.
Qed.

(** A collapsed section, three rows, a limit of two: two rows. *)
Lemma toggle_table_display_prefix_sample :
  expanded Sample.start "show_worksheets" = false ∧ 0 ≤ 2 ∧
  ∃ shown controls,
    out (toggle_table_display Sample.sample_env "show_worksheets"
           Sample.three_rows 2 "Worksheets" Sample.start).2
    = [] ++ (Page, WDataframe shown) :: controls ∧
    len shown = Z.min (len Sample.three_rows) 2.
Proof.
  split; [reflexivity|]. split; [lia|].
  destruct (toggle_table_display_prefix Sample.sample_env "show_worksheets"
              Sample.three_rows 2 "Worksheets" Sample.start)
    as (shown & controls & Hout & _ & _ & _ & Hlen).
  exists shown, controls. split; [exact Hout|].
  apply Hlen; [reflexivity|lia].
Defined.

Lemma from_one_shift (n : nat) :
  map (Z.add 1) (range_index n) = from_one n.
Proof.
  unfold range_index, from_one. rewrite <- seq_shift, !map_map.
  apply map_ext. intros k. lia.
Qed.

(** X3. A table section with a non-empty table hands the toggle the table
    with its rows numbered 1, 2, ..., n, whatever labels the parser gave
    them, under the section's own flag and a limit of 10 rows; columns and
    rows are the table's. *)
Theorem table_section_numbers_rows (env : Env) (section ns key msg : string)
    (s : State) (r : Report) (df : DataFrame) :
  (section, ns, key, msg) ∈ table_sections →
  report s = Some r → table_of ns key r = Ok df → empty df = false →
  section_body env section s
  = toggle_table_display env (section_key section)
      (mkDF (from_one (length (rows df))) (columns df) (rows df)) 10 section s.
Proof.
  intros Hsec Hr Ht He. rewrite (section_body_table env section ns key msg Hsec).
  unfold table_section, the_report, bind, lift, table_of in *. rewrite Hr.
  destruct (namespace ns r) as [d|]; cbn [rbind] in Ht; [|done].
  rewrite Ht, He. cbn [negb].
  unfold shift_index, reset_index. cbn [index columns rows].
  by rewrite from_one_shift.
Qed.

(** The sample worksheets, labelled 0 by the parser, are shown as row 1. *)
Lemma table_section_numbers_rows_sample :
  report (mkState ∅ ∅ (Some Sample.sample_report) []) = Some Sample.sample_report ∧
  table_of "metadata" "worksheets" Sample.sample_report = Ok Sample.worksheets ∧
  empty Sample.worksheets = false ∧
  out (section_body Sample.sample_env "Worksheets"
         (mkState ∅ ∅ (Some Sample.sample_report) [])).2
  = [(Page, WDataframe (mkDF [1] ["Worksheet Name"] [[Some "Overview"]]))].
Proof.
  assert (H1 : table_of "metadata" "worksheets" Sample.sample_report
               = Ok Sample.worksheets) by (vm_compute; reflexivity).
  do 3 (split; [done|]).
  rewrite (table_section_numbers_rows Sample.sample_env "Worksheets" "metadata"
             "worksheets" "No worksheets found."
             (mkState ∅ ∅ (Some Sample.sample_report) [])
             Sample.sample_report Sample.worksheets);
    [vm_compute; reflexivity| |reflexivity|exact H1|reflexivity].
  unfold table_sections. do 2 apply list_elem_of_further. apply list_elem_of_here.
Defined.

(** ** The section loop *)

Lemma toggle_table_display_no_header (env : Env) (key : string) (df : DataFrame)
    (limit : Z) (label : string) :
  preserves no_header true true (toggle_table_display env key df limit label).
Proof.
  intros s. rewrite toggle_table_display_run.
  split; [|split; [done|intros _; apply kept_refl]].
  eexists. split; [reflexivity|]. unfold toggle_events.
  destruct (expanded s key); [done|]. by destruct (len df >? limit).
Qed.

#[local] Hint Resolve toggle_table_display_no_header : frames.

Lemma section_body_no_header (env : Env) (section : string) :
  preserves no_header true true
    (try_except (section_body env section)
       (λ e,
        logger_error ("Error displaying section '" +:+ section +:+ "': "
                      +:+ exn_str e) >>
        emit Page (WError ("❌ An error occurred while displaying the '"
                           +:+ section +:+ "' section.")))).
Proof.
  unfold section_body, version_information, table_section, dependency_dag,
    insufficient_data, st_selectbox.
  frames.
Qed.

Lemma page_headers_none (evs : list event) :
  forallb no_header evs = true → page_headers evs = [].
Proof.
  induction evs as [|[p w] evs IH]; [done|]. cbn [forallb].
  intros [Hw Hevs]%andb_true_iff. specialize (IH Hevs).
  change (page_headers ((p, w) :: evs))
    with (match (match p, w with Page, WHeader h => Some h | _, _ => None end) with
          | Some h => h :: page_headers evs
          | None => page_headers evs
          end).
  by destruct p, w.
Qed.

Lemma render_section_header (env : Env) (section : string) (s : State) :
  ∃ evs, out (render_section env section s).2
         = out s ++ (Page, WHeader section) :: evs ∧
         page_headers evs = [].
Proof.
  unfold render_section.
  rewrite (bind_run _ _ s tt (emit Page (WHeader section) s).2 eq_refl).
  destruct (section_body_no_header env section
              (emit Page (WHeader section) s).2) as [(evs & Ho & Hevs) _].
  exists evs. split; [|by apply page_headers_none].
  rewrite Ho. cbn [emit snd out]. by rewrite <- app_assoc.
Qed.

Lemma for_each_headers (env : Env) (selected l : list string) (s : State) :
  let loop :=
    for_each l (λ section,
      if bool_decide (section ∈ selected)
      then render_section env section else ret tt) in
  (loop s).1 = Ok tt ∧
  ∃ evs, out (loop s).2 = out s ++ evs ∧
         page_headers evs
         = List.filter (λ section, bool_decide (section ∈ selected)) l.
Proof.
  revert s. induction l as [|section l IH]; intros s; cbn [for_each List.filter].
  - split; [done|]. exists []. by rewrite app_nil_r.
  - unfold bind. case_bool_decide as Hsel.
    + pose proof (render_section_returns env section s) as Hok.
      destruct (render_section_header env section s) as (e1 & Ho1 & Hh1).
      destruct (render_section env section s) as [[[]|e] s1];
        cbn [fst snd] in *; [|done].
      destruct (IH s1) as (Hok2 & e2 & Ho2 & Hh2). split; [done|].
      exists ((Page, WHeader section) :: e1 ++ e2). split.
      * rewrite Ho2, Ho1, <- app_assoc. done.
      * change ((Page, WHeader section) :: e1 ++ e2)
          with ([(Page, WHeader section)] ++ e1 ++ e2).
        unfold page_headers in *. rewrite !omap_app, Hh1, Hh2. done.
    + cbn [ret]. destruct (IH s) as (Hok2 & e2 & Ho2 & Hh2). by eauto.
Qed.

(** X4. The section loop never raises and draws the header of every
    selected section exactly once, in page order, whatever happens inside
    a section: a section whose body raises does not stop the sections
    after it, and no section draws a header of its own. *)
Theorem render_sections_headers (env : Env) (selected : list string) (s : State) :
  (render_sections env selected s).1 = Ok tt ∧
  ∃ evs,
    out (render_sections env selected s).2 = out s ++ evs ∧
    page_headers evs
    = List.filter (λ section, bool_decide (section ∈ selected)) report_sections.
Proof. apply (for_each_headers env selected report_sections s). Qed.

Lemma col_index_absent (c : string) (cols : list string) :
  c ∉ cols → col_index c cols = None.
Proof.
  induction cols as [|c' cols IH]; [done|].
  intros [Hne Hc]%not_elem_of_cons. cbn [col_index].
  rewrite bool_decide_eq_false_2 by done. by rewrite IH.
Qed.

(** X5. With both field tables non-empty and a worksheet table that has
    no ['Worksheet Name'] column (as the empty default frame has none),
    the 'Dependency DAG' section builds no graph: reading the worksheet
    names raises, and the section shows its header and its error. *)
Theorem dependency_dag_needs_worksheet_column (env : Env) (s : State)
    (r : Report) (md data : pydict) (calc orig ws : DataFrame) :
  report s = Some r →
  r !! "metadata" = Some md → r !! "data" = Some data →
  md !! "calculated_fields" = Some (PFrame calc) →
  md !! "original_fields" = Some (PFrame orig) →
  empty calc = false → empty orig = false →
  get "worksheets" (PFrame empty_frame) md = PFrame ws →
  "Worksheet Name" ∉ columns ws →
  (render_section env "Dependency DAG" s).1 = Ok tt ∧
  out (render_section env "Dependency DAG" s).2
  = out s ++ section_failed "Dependency DAG".
Proof.
  intros Hr Hmd Hdata Hcalc Horig Hc Ho Hws Hcol.
  unfold render_section.
  pose (s1 := (emit Page (WHeader "Dependency DAG") s).2).
  rewrite (bind_run (emit Page (WHeader "Dependency DAG")) _ s tt s1 eq_refl).
  unfold try_except. change (section_body env "Dependency DAG")
    with (dependency_dag env).
  rewrite (dependency_dag_run env s1 r md data calc orig Hr Hmd Hdata Hcalc Horig).
  rewrite Hc, Ho, Hws. cbn [orb].
  unfold worksheet_names, column. cbn [as_frame rbind].
  rewrite (col_index_absent _ _ Hcol). cbn [mbind option_bind].
  unfold logger_error, bind, get_fs, put_fs, emit, section_failed.
  cbn [fst snd out]. split; [done|]. subst s1. cbn [emit snd out].
  by rewrite <- app_assoc.
Qed.

(** The sample report without its worksheet table. *)
Lemma dependency_dag_needs_worksheet_column_sample :
  empty Sample.calculated_fields = false ∧ empty Sample.original_fields = false ∧
  ("Worksheet Name" ∉ columns empty_frame) ∧
  out (render_section Sample.sample_env "Dependency DAG"
         Sample.no_worksheet_table_state).2
  = section_failed "Dependency DAG".
Proof.
  assert (H : "Worksheet Name" ∉ columns empty_frame) by by_computation.
  do 2 (split; [reflexivity|]). split; [exact H|].
  exact (proj2 (dependency_dag_needs_worksheet_column Sample.sample_env
                  Sample.no_worksheet_table_state Sample.no_worksheet_table_report
                  Sample.no_worksheet_table_metadata Sample.sample_data
                  Sample.calculated_fields Sample.original_fields empty_frame
                  eq_refl eq_refl eq_refl eq_refl eq_refl eq_refl eq_refl eq_refl H)).
Defined.

(** ** The caption merge, further *)

Lemma merge_row_length (kl kr width : nat) (rrows : list (list cell))
    (lrow : list cell) :
  (1 ≤ length (merge_row kl kr width rrows lrow))%nat.
Proof.
  unfold merge_row. destruct (matches kl kr lrow rrows); cbn; lia.
Qed.

Lemma merge_rows_length (kl kr width : nat) (rrows lrows : list (list cell)) :
  (length lrows ≤ length (concat (map (merge_row kl kr width rrows) lrows)))%nat.
Proof.
  induction lrows as [|lrow lrows IH]; [done|]. cbn [map concat length].
  rewrite length_app. pose proof (merge_row_length kl kr width rrows lrow). lia.
Qed.

(** A caption merge that returns has at least the rows and the columns it
    was given, and is empty exactly when the field table was. *)
Lemma caption_merge_size (fields ds merged : DataFrame) :
  caption_merge fields ds = Ok merged →
  (length (rows fields) ≤ length (rows merged))%nat ∧
  (length (columns fields) ≤ length (columns merged))%nat ∧
  "Data Source ID" ∈ columns fields ∧
  empty merged = empty fields.
Proof.
  unfold caption_merge. destruct (select _ ds) as [captions|e]; [|done].
  cbn [rbind]. unfold merge_left.
  destruct (key_position "Data Source ID" (columns captions)) as [kr|]; [|done].
  cbn [rbind].
  destruct (key_position "Data Source ID" (columns fields)) as [kl|] eqn:Hkl;
    [|done].
  cbn [rbind]. unfold merge_columns. destruct (_ || _); [done|]. cbn [rbind].
  intros [= <-]. unfold rename. cbn [rows columns index].
  pose proof (key_position_found _ _ _ Hkl) as Hid.
  pose proof (merge_rows_length kl kr (length (columns captions)) (rows captions)
                (rows fields)) as Hrows.
  split; [done|]. split; [rewrite length_map, length_app, length_map; lia|].
  split; [done|].
  unfold empty. cbn [rows columns].
  destruct (columns fields) as [|c cols]; [by apply elem_of_nil in Hid|].
  cbn [map app]. destruct (rows fields) as [|lrow lrows]; [done|].
  cbn [map concat] in *. pose proof (merge_row_length kl kr
    (length (columns captions)) (rows captions) lrow) as H1.
  destruct (merge_row _ _ _ _ lrow); [cbn in H1; lia|done].
Qed.

Lemma table_of_metadata (r : Report) (md : pydict) (key : string) :
  r !! "metadata" = Some md →
  table_of "metadata" key r = as_frame "empty" (get key (PFrame empty_frame) md).
Proof. intros Hmd. unfold table_of, namespace. by rewrite Hmd. Qed.

Lemma merged_entry_table (r : Report) (md md' : pydict) (key : string)
    (df : DataFrame) :
  merged_entry r md key (md' !! key) →
  as_frame "empty" (get key (PFrame empty_frame) md) = Ok df →
  ∃ df', as_frame "empty" (get key (PFrame empty_frame) md') = Ok df' ∧
         empty df' = empty df ∧
         (length (rows df) ≤ length (rows df'))%nat.
Proof.
  intros [Hsame|(fields & ds & merged & Hk & _ & Hm & Hk')] Hdf; unfold get in *.
  - rewrite Hsame. by exists df.
  - rewrite Hk in Hdf. rewrite Hk'. cbn in *. injection Hdf as <-.
    destruct (caption_merge_size fields ds merged Hm) as (? & _ & _ & ?).
    by exists merged.
Qed.

(** X6. The merge stage never changes whether a table of the report is
    empty, and never drops a row: whatever its outcome, a table that was
    readable before it is readable after it, empty exactly when it was,
    with at least as many rows.  So the empty-state message of a section
    is decided by the table the parser returned. *)
Theorem merge_captions_keeps_emptiness (s : State) (r : Report) (key : string)
    (df : DataFrame) :
  report s = Some r →
  table_of "metadata" key r = Ok df →
  ∃ r' df',
    report (merge_captions s).2 = Some r' ∧
    table_of "metadata" key r' = Ok df' ∧
    empty df' = empty df ∧
    (length (rows df) ≤ length (rows df'))%nat ∧
    table_of "data" "data_sources" r' = table_of "data" "data_sources" r.
Proof.
  intros Hr Hdf.
  destruct (merge_captions_update s r Hr) as (r' & Hr' & Hupd).
  exists r'. destruct Hupd as [->|(md & md' & Hmd & -> & Hother & Hcalc & Horig)].
  { by exists df. }
  rewrite (table_of_metadata r md key Hmd) in Hdf.
  assert (Hdata : table_of "data" "data_sources" (<["metadata" := md']> r)
                  = table_of "data" "data_sources" r).
  { unfold table_of, namespace. by rewrite lookup_insert_ne. }
  assert (Hentry : merged_entry r md key (md' !! key)).
  { destruct (decide (key = "calculated_fields")) as [->|Hk1]; [done|].
    destruct (decide (key = "original_fields")) as [->|Hk2]; [done|].
    left. by apply Hother. }
  destruct (merged_entry_table r md md' key df Hentry Hdf) as (df' & Hdf' & ? & ?).
  exists df'. split; [done|]. split; [|done].
  rewrite (table_of_metadata _ md' key); [done|]. by rewrite lookup_insert_eq.
Qed.

(** The sample report: two calculated fields before and after the merge. *)
Lemma merge_captions_keeps_emptiness_sample :
  table_of "metadata" "calculated_fields" Sample.sample_report
    = Ok Sample.calculated_fields ∧
  ∃ r' df',
    report (merge_captions (mkState ∅ ∅ (Some Sample.sample_report) [])).2
      = Some r' ∧
    table_of "metadata" "calculated_fields" r' = Ok df' ∧
    empty df' = empty Sample.calculated_fields ∧
    (length (rows Sample.calculated_fields) ≤ length (rows df'))%nat.
Proof.
  assert (H : table_of "metadata" "calculated_fields" Sample.sample_report
              = Ok Sample.calculated_fields) by (vm_compute; reflexivity).
  split; [exact H|].
  destruct (merge_captions_keeps_emptiness
              (mkState ∅ ∅ (Some Sample.sample_report) []) Sample.sample_report
              "calculated_fields" Sample.calculated_fields eq_refl H)
    as (r' & df' & H1 & H2 & H3 & H4 & _).
  by exists r', df'.
Defined.

Lemma select_sections_quiet (env : Env) :
  preserves no_section true true (select_sections env).
Proof.
  unfold select_sections. frames.
  generalize report_sections. intros l.
  induction l as [|section rest IH]; cbn [choose_sections];
    [apply preserves_ret|].
  unfold st_checkbox. frames.
Qed.

Lemma select_captions_missing (ds : DataFrame) :
  "Data Source ID" ∈ columns ds → "Caption" ∉ columns ds →
  select ["Data Source ID"; "Caption"] ds = Raise (KeyError "Caption").
Proof.
  intros Hid Hcap. unfold select. cbn [select_positions].
  destruct (col_index_elem _ _ Hid) as [i ->].
  by rewrite (col_index_absent _ _ Hcap).
Qed.

(** X7. A non-empty data source table without a ['Caption'] column breaks
    the merge as soon as a field table is to be merged: the [KeyError]
    leaves [main]'s presentation uncaught, with the report as the parser
    returned it and no section drawn. *)
Theorem merge_needs_caption_column (env : Env) (s : State) (r : Report)
    (md data : pydict) (ds calc : DataFrame) :
  report s = Some r →
  r !! "metadata" = Some md → r !! "data" = Some data →
  data !! "data_sources" = Some (PFrame ds) →
  empty ds = false →
  "Data Source ID" ∈ columns ds → "Caption" ∉ columns ds →
  md !! "calculated_fields" = Some (PFrame calc) →
  empty calc = false → "Data Source ID" ∈ columns calc →
  (present env s).1 = Raise (KeyError "Caption") ∧
  report (present env s).2 = Some r ∧
  ∃ evs, out (present env s).2 = out s ++ evs ∧ forallb no_section evs = true.
Proof.
  intros Hr Hmd Hdata Hds Heds Hid Hcap Hcalc Hecalc Hcid.
  assert (Hmerge : ∀ t, report t = Some r →
            merge_captions t = (Raise (KeyError "Caption"), t)).
  { intros t Ht. destruct t as [f ss rep o]. cbn in Ht. subst rep.
    unfold merge_captions, the_report, bind, lift, namespace, get.
    cbn [report]. rewrite Hdata, Hmd, Hds, Hcalc.
    cbn [default from_option id as_frame].
    rewrite Heds. cbn [negb].
    unfold merge_field_table, bind, lift. cbn [as_frame].
    rewrite Hecalc. unfold has_column.
    rewrite bool_decide_eq_true_2 by done. cbn [negb andb].
    unfold caption_merge. by rewrite (select_captions_missing ds Hid Hcap). }
  unfold present.
  pose proof (select_sections_result env s) as Hsel.
  destruct (select_sections env s) as [[selected|e] s5] eqn:H5;
    cbn [fst] in Hsel; [|done]. clear Hsel.
  destruct (preserves_run _ _ _ _ _ _ _ (select_sections_quiet env) H5)
    as ((evs & Ho & Hevs) & Hrep & _).
  rewrite (bind_run _ _ s selected s5 H5).
  rewrite (bind_raise _ _ s5 (KeyError "Caption") s5);
    [|apply Hmerge; by rewrite Hrep].
  cbn [fst snd]. split; [done|]. split; [by rewrite Hrep|]. by exists evs.
Qed.

(** A data source table that has ids only. *)
Lemma merge_needs_caption_column_sample :
  empty Sample.ids_only = false ∧
  "Data Source ID" ∈ columns Sample.ids_only ∧
  ("Caption" ∉ columns Sample.ids_only) ∧
  (present Sample.sample_env Sample.ids_only_state).1 = Raise (KeyError "Caption").
Proof.
  assert (H1 : "Data Source ID" ∈ columns Sample.ids_only) by by_computation.
  assert (H2 : "Caption" ∉ columns Sample.ids_only) by by_computation.
  assert (H3 : "Data Source ID" ∈ columns Sample.calculated_fields)
    by by_computation.
  split; [reflexivity|]. do 2 (split; [assumption|]).
  exact (proj1 (merge_needs_caption_column Sample.sample_env
                  Sample.ids_only_state Sample.ids_only_report
                  Sample.no_worksheet_table_metadata Sample.ids_only_data
                  Sample.ids_only Sample.calculated_fields
                  eq_refl eq_refl eq_refl eq_refl eq_refl H1 H2 eq_refl eq_refl H3)).
Defined.









(** ** [main] before the parser runs *)

Lemma nothing_drawn (evs : list event) : forallb nothing evs = true → evs = [].
Proof. by destruct evs. Qed.

Lemma silent_run {A} (m : M A) (s : State) :
  preserves nothing true true m →
  out (m s).2 = out s ∧ report (m s).2 = report s ∧ kept (fs s) (fs (m s).2).
Proof.
  intros Hm. destruct (Hm s) as ((evs & Ho & ->%nothing_drawn) & Hr & Hf).
  rewrite app_nil_r in Ho. auto.
Qed.

Lemma startup_prefix_silent :
  preserves nothing true true
    (init_session_states >> ensure_logs_dir >> logfile >>
     logger_info "Streamlit app started.").
Proof. unfold init_session_states. frames. Qed.

(** The state the widgets of [startup] are drawn on. *)
Lemma startup_run (s : State) :
  match startup s with
  | (Ok _, s') =>
      out s' = out s ++ startup_widgets ∧ report s' = report s ∧
      kept (fs s) (fs s')
  | (Raise _, s') =>
      out s' = out s ∧ report s' = report s ∧ kept (fs s) (fs s')
  end.
Proof.
  destruct (silent_run _ s startup_prefix_silent) as (Ho & Hr & Hf).
  unfold startup, bind in *.
  destruct (init_session_states s) as [[[]|e0] s0]; [|done].
  destruct (ensure_logs_dir s0) as [[[]|e1] s1]; [|done].
  destruct (logfile s1) as [[[]|e2] s2]; [|done].
  destruct (logger_info "Streamlit app started." s2) as [[[]|e3] s3]; [|done].
  cbn [emit fst snd out report fs] in *.
  rewrite <- !app_assoc, Ho. done.
Qed.

(** X10. Without an upload [main] draws the page configuration, the
    title, the description and the sidebar header, and returns: no parser
    call, no report, no file but the log touched. *)
Theorem main_without_upload (env : Env) (s : State) :
  uploaded_file env = None →
  (startup s).1 = Ok tt →
  (main env s).1 = Ok tt ∧
  out (main env s).2 = out s ++ startup_widgets ∧
  report (main env s).2 = report s ∧
  fs (main env s).2 !! temp_twbx_path = fs s !! temp_twbx_path.
Proof.
  intros Hup Hok. pose proof (startup_run s) as Hrun. unfold main, bind.
  destruct (startup s) as [[[]|e] s1]; [|done]. rewrite Hup. cbn [ret fst snd].
  destruct Hrun as (Ho & Hr & [Hf _]). done.
Qed.

Lemma main_without_upload_sample :
  (startup Sample.start).1 = Ok tt ∧
  out (main Sample.no_upload_env Sample.start).2 = startup_widgets.
Proof.
  assert (H : (startup Sample.start).1 = Ok tt) by (vm_compute; reflexivity).
  split; [exact H|].
  exact (proj1 (proj2 (main_without_upload Sample.no_upload_env Sample.start
                         eq_refl H))).
Defined.

(** X11. When [logs] exists and is not a directory, opening the log file
    fails and [main] raises before anything is drawn: no widget, no
    report, no saved upload. *)
Theorem main_needs_logs_directory (env : Env) (s : State) (c : list string) :
  fs s !! "logs" = Some (File c) →
  (main env s).1 = Raise (OSError "NotADirectoryError") ∧
  out (main env s).2 = out s ∧
  report (main env s).2 = report s ∧
  fs (main env s).2 = fs s.
Proof.
  intros Hlogs.
  assert (Hstart : ∃ ss, startup s
            = (Raise (OSError "NotADirectoryError"),
               mkState (fs s) ss (report s) (out s))).
  { unfold startup. destruct (init_session_states_run s) as [ss Hss].
    exists ss. rewrite (bind_run _ _ _ _ _ Hss).
    set (s0 := mkState (fs s) ss (report s) (out s)).
    assert (H1 : ensure_logs_dir s0 = (Ok tt, s0)).
    { unfold ensure_logs_dir, bind, get_fs. cbn [fs s0]. by rewrite Hlogs. }
    assert (H2 : logfile s0 = (Raise (OSError "NotADirectoryError"), s0)).
    { unfold logfile, bind, get_fs. cbn [fs s0]. by rewrite Hlogs. }
    by rewrite (bind_run _ _ _ _ _ H1), (bind_raise _ _ _ _ _ H2). }
  destruct Hstart as [ss Hstart]. unfold main.
  by rewrite (bind_raise _ _ _ _ _ Hstart).
Qed.

Lemma main_needs_logs_directory_sample :
  fs Sample.logs_is_a_file !! "logs" = Some (File ["not a directory"]) ∧
  (main Sample.sample_env Sample.logs_is_a_file).1
    = Raise (OSError "NotADirectoryError").
Proof.
  split; [reflexivity|].
  exact (proj1 (main_needs_logs_directory Sample.sample_env Sample.logs_is_a_file
                  ["not a directory"] eq_refl)).
Defined.

Lemma save_upload_fails (buf : string) (s : State) :
  fs s !! temp_twbx_path = Some Dir →
  save_upload buf s
  = (Ok false,
     mkState
       (append_line
          (log_line "E" ("Failed to save uploaded file: " +:+ "IsADirectoryError"))
          (fs s))
       (session_state s) (report s) (out s ++ [save_error])).
Proof.
  intros Hdir.
  unfold save_upload, try_except, write_binary, logger_error, bind, get_fs,
    put_fs, emit, ret, raise. cbn [fs]. by rewrite Hdir.
Qed.

(** X12. When the upload cannot be written because its path is taken by a
    directory, [main] logs the failure, shows 'Failed to save the uploaded
    file' and returns: the parser is not run (the files are those of the
    start-up plus one log line), no report is built, no section drawn. *)
Theorem main_cannot_save (env : Env) (s : State) (buf : string) :
  uploaded_file env = Some buf →
  (startup s).1 = Ok tt →
  fs s !! temp_twbx_path = Some Dir →
  (main env s).1 = Ok tt ∧
  out (main env s).2 = out s ++ startup_widgets ++ [save_error] ∧
  report (main env s).2 = report s ∧
  fs (main env s).2
  = append_line
      (log_line "E" ("Failed to save uploaded file: " +:+ "IsADirectoryError"))
      (fs (startup s).2).
Proof.
  intros Hup Hok Hdir. pose proof (startup_run s) as Hrun. unfold main.
  destruct (startup s) as [[[]|e] s1] eqn:H1; [|done].
  destruct Hrun as (Ho & Hr & [Hf _]).
  rewrite (bind_run _ _ _ _ _ H1), Hup.
  rewrite (bind_run _ _ _ _ _ (save_upload_fails buf s1 ltac:(by rewrite Hf))).
  cbn [negb ret fst snd out report fs]. by rewrite Ho, <- app_assoc.
Qed.

Lemma main_cannot_save_sample :
  (startup Sample.upload_path_is_a_directory).1 = Ok tt ∧
  fs Sample.upload_path_is_a_directory !! temp_twbx_path = Some Dir ∧
  out (main Sample.sample_env Sample.upload_path_is_a_directory).2
  = startup_widgets ++ [save_error].
Proof.
  assert (H : (startup Sample.upload_path_is_a_directory).1 = Ok tt)
    by (vm_compute; reflexivity).
  split; [exact H|]. split; [reflexivity|].
  exact (proj1 (proj2 (main_cannot_save Sample.sample_env
                         Sample.upload_path_is_a_directory "PK-bytes"
                         eq_refl H eq_refl))).
Defined.

(** ** The download of the original file *)

Lemma bind_ok_inv {A B} (m : M A) (k : A → M B) (s : State) (b : B) (s' : State) :
  bind m k s = (Ok b, s') → ∃ a s1, m s = (Ok a, s1) ∧ k a s1 = (Ok b, s').
Proof.
  unfold bind. destruct (m s) as [[a|e] s1]; [|done]. intros H. by exists a, s1.
Qed.

Lemma download_original_run (env : Env) (s : State) (c : list string) :
  fs s !! temp_twbx_path = Some (File c) →
  button env "⬇️ Download Uploaded `.twbx`" = true →
  (download_original env s).1 = Ok tt ∧
  out (download_original env s).2
  = out s ++ [(Sidebar, WHeader "Download Original File");
              (Sidebar, WButton "⬇️ Download Uploaded `.twbx`" None);
              (Sidebar, WDownloadButton "⬇️ Download `.twbx` File"
                          (String.concat "" c) temp_twbx_path
                          "application/octet-stream")].
Proof.
  intros Hfile Hclick.
  unfold download_original, st_button, try_except, read_binary, logger_info,
    bind, get_fs, put_fs, emit, ret. cbn [fs default from_option id].
  rewrite Hclick. cbn [fs]. rewrite Hfile. cbn [fst snd out].
  split; [done|]. by rewrite <- !app_assoc.
Qed.

(** X13. Save and download round trip.  When a run that started without a
    report ends with one, the upload was saved, parsed and presented; if
    the parser left the saved upload alone and 'Download Uploaded .twbx'
    is clicked, the last widget drawn is the download button, and it
    carries exactly the uploaded bytes under the name
    [temp_uploaded.twbx]. *)
Theorem download_returns_upload (env : Env) (s s' : State) (buf : string)
    (r : Report) :
  uploaded_file env = Some buf →
  report s = None →
  fs s !! temp_twbx_path ≠ Some Dir →
  keeps_files env →
  main env s = (Ok tt, s') →
  report s' = Some r →
  button env "⬇️ Download Uploaded `.twbx`" = true →
  ∃ before,
    out s' = out s ++ before
             ++ [(Sidebar, WHeader "Download Original File");
                 (Sidebar, WButton "⬇️ Download Uploaded `.twbx`" None);
                 (Sidebar, WDownloadButton "⬇️ Download `.twbx` File" buf
                             temp_twbx_path "application/octet-stream")].
Proof.
  intros Hup Hnone Hdir Hkeep Hmain Hr Hclick.
  pose proof (startup_run s) as Hrun. unfold main in Hmain.
  destruct (startup s) as [[[]|e] s1] eqn:H1;
    [|by rewrite (bind_raise _ _ _ _ _ H1) in Hmain].
  destruct Hrun as (Ho1 & Hr1 & [Hf1 _]).
  rewrite (bind_run _ _ _ _ _ H1), Hup in Hmain.
  destruct (save_upload_run buf s1) as (s2 & H2 & Hf2 & _); [by rewrite Hf1|].
  destruct (preserves_run _ _ _ _ _ _ _ (save_upload_frame buf) H2)
    as ((e2 & Ho2 & _) & Hr2 & _).
  rewrite (bind_run _ _ _ _ _ H2) in Hmain. cbn [negb] in Hmain.
  apply bind_ok_inv in Hmain as (d & s3 & H3 & Hmain).
  destruct (preserves_run _ _ _ _ _ _ _ (decompress_frame_files env Hkeep) H3)
    as ((e3 & Ho3 & _) & Hr3 & Hf3).
  assert (Hnone3 : report s3 = None) by (by rewrite Hr3, Hr2, Hr1).
  destruct d; cbn [negb] in Hmain;
    [|injection Hmain as <-; by rewrite Hnone3 in Hr].
  apply bind_ok_inv in Hmain as (p & s4 & H4 & Hmain).
  destruct (preserves_run _ _ _ _ _ _ _ (parse_frame env) H4)
    as ((e4 & Ho4 & _) & _ & Hf4).
  destruct p; cbn [negb] in Hmain.
  2: { injection Hmain as <-.
       destruct (parse_outcome env s3) as [(? & Hp & _)|(_ & _ & Hrep & _)];
         rewrite H4 in *; cbn [fst snd] in *; [done|].
       by rewrite Hrep, Hnone3 in Hr. }
  unfold present in Hmain.
  apply bind_ok_inv in Hmain as (selected & s5 & H5 & Hmain).
  apply bind_ok_inv in Hmain as ([] & s6 & H6 & Hmain).
  apply bind_ok_inv in Hmain as ([] & s7 & H7 & Hmain).
  apply bind_ok_inv in Hmain as ([] & s8 & H8 & Hmain).
  destruct (preserves_run _ _ _ _ _ _ _ (select_sections_frame env) H5)
    as ((e5 & Ho5 & _) & _ & Hf5).
  destruct (preserves_run _ _ _ _ _ _ _ (merge_captions_frame any_widget) H6)
    as ((e6 & Ho6 & _) & _ & Hf6).
  destruct (preserves_run _ _ _ _ _ _ _ (render_sections_frame env selected) H7)
    as ((e7 & Ho7 & _) & _ & Hf7).
  destruct (preserves_run _ _ _ _ _ _ _ (export_report_frame env selected) H8)
    as ((e8 & Ho8 & _) & _ & Hf8).
  assert (Hfile : fs s8 !! temp_twbx_path = Some (File [buf])).
  { destruct (Hf3 eq_refl) as [E3 _]. destruct (Hf4 eq_refl) as [E4 _].
    destruct (Hf5 eq_refl) as [E5 _]. destruct (Hf6 eq_refl) as [E6 _].
    destruct (Hf7 eq_refl) as [E7 _]. destruct (Hf8 eq_refl) as [E8 _].
    by rewrite E8, E7, E6, E5, E4, E3. }
  destruct (download_original_run env s8 [buf] Hfile Hclick) as [_ Hout].
  rewrite Hmain in Hout. cbn [snd] in Hout.
  exists (startup_widgets ++ e2 ++ e3 ++ e4 ++ e5 ++ e6 ++ e7 ++ e8).
  rewrite Hout, Ho8, Ho7, Ho6, Ho5, Ho4, Ho3, Ho2, Ho1.
  cbn [String.concat]. by rewrite <- !app_assoc.
Qed.

(** The sample run with the download control clicked. *)
Lemma download_returns_upload_sample :
  uploaded_file Sample.download_env = Some "PK-bytes" ∧
  fs Sample.start !! temp_twbx_path ≠ Some Dir ∧
  keeps_files Sample.download_env ∧
  button Sample.download_env "⬇️ Download Uploaded `.twbx`" = true ∧
  ∃ before,
    out (main Sample.download_env Sample.start).2
    = [] ++ before
      ++ [(Sidebar, WHeader "Download Original File");
          (Sidebar, WButton "⬇️ Download Uploaded `.twbx`" None);
          (Sidebar, WDownloadButton "⬇️ Download `.twbx` File" "PK-bytes"
                      temp_twbx_path "application/octet-stream")].
Proof.
  assert (H1 : fs Sample.start !! temp_twbx_path ≠ Some Dir)
    by (vm_compute; discriminate).
  assert (H2 : keeps_files Sample.download_env) by (intros f; apply kept_refl).
  split; [reflexivity|]. do 2 (split; [assumption|]). split; [reflexivity|].
  apply (download_returns_upload Sample.download_env Sample.start
           (main Sample.download_env Sample.start).2 "PK-bytes"
           (default ∅ (report (main Sample.download_env Sample.start).2)));
    [reflexivity|reflexivity|exact H1|exact H2
    |vm_compute; reflexivity|vm_compute; reflexivity|reflexivity].
Defined.

(** ** The export *)

Lemma try_except_returns (m : M unit) (h : exn → M unit) (s : State) :
  (∀ e t, (h e t).1 = Ok tt) → (try_except m h s).1 = Ok tt.
Proof.
  intros Hh. unfold try_except. destruct (m s) as [[[]|e] s1]; [done|apply Hh].
Qed.

(** X14. [export_report] never raises: whatever fails while the report is
    generated, graph, image or PDF included, is caught under the spinner.
    When [generate_html_report] itself raises, the placeholder shows the
    error with the exception's text and no download is offered. *)
Theorem export_report_catches (env : Env) (selected : list string) (s : State) :
  (export_report env selected s).1 = Ok tt ∧
  (∀ r e,
     report s = Some r →
     button env "Generate and Download Report" = true →
     generate_html_report env selected r = Raise e →
     out (export_report env selected s).2
     = out s ++ [(Page, WMarkdown "---");
                 (Sidebar, WHeader "Export Report");
                 (Sidebar, WSelectbox "Select export format:" ["HTML"; "PDF"]);
                 (Sidebar, WButton "Generate and Download Report" None);
                 (Placeholder, WSpinner "🔄 Generating report...");
                 (Placeholder,
                  WError ("❌ An error occurred during report generation: "
                          +:+ exn_str e))]).
Proof.
  split.
  - unfold export_report, st_selectbox, st_button, logger_info, bind, emit, ret,
      get_fs, put_fs.
    cbn [default from_option id].
    destruct (button env "Generate and Download Report"); [|done].
    apply try_except_returns. intros e t. reflexivity.
  - intros r e Hr Hclick Hgen. destruct s as [f ss rep o]. cbn in Hr. subst rep.
    unfold export_report, st_selectbox, st_button, try_except, generate_export,
      the_report, logger_info, logger_error, bind, lift, get_fs, put_fs, emit, ret.
    cbn [default from_option id report fs out session_state].
    rewrite Hclick. cbn [report]. rewrite Hgen. cbn [fst snd out].
    by rewrite <- !app_assoc.
Qed.

Lemma export_report_catches_sample :
  button Sample.broken_export_env "Generate and Download Report" = true ∧
  generate_html_report Sample.broken_export_env [] Sample.sample_report
    = Raise (Other "template missing") ∧
  (export_report Sample.broken_export_env []
     (mkState ∅ ∅ (Some Sample.sample_report) [])).1 = Ok tt.
Proof.
  do 2 (split; [reflexivity|]).
  exact (proj1 (export_report_catches Sample.broken_export_env []
                  (mkState ∅ ∅ (Some Sample.sample_report) []))).
Defined.

(** X15. [offer_download] never raises, and a download button it draws is
    either the HTML report itself, as [text/html], or the PDF the
    converter returned, which is then not empty: an empty or missing PDF
    and a converter that raises give an error and no button.  The file
    name carries the time stamp of the run. *)
Theorem offer_download_offers (env : Env) (export_format html_report : string)
    (s : State) :
  (offer_download env export_format html_report s).1 = Ok tt ∧
  ∀ evs p label data name mime,
    out (offer_download env export_format html_report s).2 = out s ++ evs →
    (p, WDownloadButton label data name mime) ∈ evs →
    (export_format = "HTML" ∧ data = html_report ∧
     name = "tableau_report_" +:+ now env +:+ ".html" ∧ mime = "text/html") ∨
    (export_format = "PDF" ∧
     convert_html_to_pdf env html_report = Ok (Some data) ∧ data ≠ "" ∧
     name = "tableau_report_" +:+ now env +:+ ".pdf" ∧ mime = "application/pdf").
Proof.
  unfold offer_download, try_except, logger_info, logger_error, bind, lift,
    get_fs, put_fs, emit, ret.
  destruct (String.eqb_spec export_format "HTML") as [->|Hhtml].
  { cbn [fst snd out]. split; [done|].
    intros evs p label data name mime Hevs Hin. left.
    rewrite <- !app_assoc in Hevs. apply app_inv_head in Hevs as <-.
    cbn [app] in Hin. rewrite !elem_of_cons, elem_of_nil in Hin.
    destruct Hin as [[= _]|[[= _ _ -> -> ->]|[]]]. done. }
  destruct (String.eqb_spec export_format "PDF") as [->|Hpdf].
  2: { cbn [fst snd]. split; [done|].
       intros evs p label data name mime Hevs Hin.
       rewrite <- (app_nil_r (out s)) in Hevs at 1.
       apply app_inv_head in Hevs as <-. by apply elem_of_nil in Hin. }
  destruct (convert_html_to_pdf env html_report) as [[pdf|]|e] eqn:Hconv;
    cbn [truthy]; [case_bool_decide as Hempty; cbn [negb]| |];
    cbn [fst snd out]; (split; [done|]);
    intros evs p label data name mime Hevs Hin;
    rewrite <- ?app_assoc in Hevs; apply app_inv_head in Hevs as <-;
    cbn [app] in Hin; rewrite !elem_of_cons, elem_of_nil in Hin.
  - by destruct Hin as [[= _]|[]].
  - destruct Hin as [[= _]|[[= _ _ -> -> ->]|[]]]. right.
    cbn [default from_option id]. done.
  - by destruct Hin as [[= _]|[]].
  - by destruct Hin as [[= _]|[]].
Qed.

(** ** Embedding the graph in the exported report *)

Lemma replace_absent (old new s : string) :
  occurs old s = false → replace_from 0 old new s = s.
Proof.
  induction s as [|c s IH]; [done|]. cbn [occurs replace_from].
  destruct (drop_prefix old (String c s)); [done|]. intros H. by rewrite IH.
Qed.

Lemma drop_prefix_app (old rest : string) : drop_prefix old (old +:+ rest) = Some rest.
Proof.
  induction old as [|a old IH]; [by destruct rest|].
  change (String a old +:+ rest) with (String a (old +:+ rest)).
  cbn [drop_prefix]. by rewrite Ascii.eqb_refl.
Qed.

Lemma replace_skip (x old new rest : string) :
  replace_from (String.length x) old new (x +:+ rest) = replace_from 0 old new rest.
Proof.
  induction x as [|a x IH]; [done|].
  change (String a x +:+ rest) with (String a (x +:+ rest)).
  cbn [String.length replace_from]. exact IH.
Qed.

(** [str.replace] takes the leftmost occurrence first. *)
Lemma replace_first (old new pre rest : string) :
  old ≠ "" → starts_within old pre (old +:+ rest) = false →
  str_replace old new (pre +:+ old +:+ rest)
  = pre +:+ new +:+ str_replace old new rest.
Proof.
  intros Hold. unfold str_replace. induction pre as [|c pre IH].
  - intros _. destruct old as [|a old]; [done|].
    change ("" +:+ String a old +:+ rest) with (String a (old +:+ rest)).
    cbn [replace_from].
    change (String a (old +:+ rest)) with (String a old +:+ rest).
    rewrite drop_prefix_app.
    change (String.length (String a old) - 1)%nat with (String.length old - 0)%nat.
    by rewrite Nat.sub_0_r, replace_skip.
  - cbn [starts_within].
    destruct (drop_prefix old (String c pre +:+ old +:+ rest)) eqn:Hd; [done|].
    intros Hpre. change (String c pre +:+ old +:+ rest)
      with (String c (pre +:+ old +:+ rest)) in *.
    cbn [replace_from]. rewrite Hd, IH by done. done.
Qed.

(** X16. If the HTML report does not contain the placeholder sentence, the
    export still builds and renders the graph but embeds nothing: the
    report offered for download is the one [generate_html_report]
    returned, unchanged. *)
Theorem export_without_placeholder (env : Env) (s : State) (r : Report)
    (md data : pydict) (calc : DataFrame) (original data_sources : pyval)
    (selected : list string) (html : string) (G : DiGraph) (img : string) :
  report s = Some r →
  r !! "metadata" = Some md → r !! "data" = Some data →
  md !! "calculated_fields" = Some (PFrame calc) →
  md !! "original_fields" = Some original →
  data !! "data_sources" = Some data_sources →
  "Dependency DAG" ∈ selected → empty calc = false →
  generate_html_report env selected r = Ok html →
  generate_dag env (PFrame calc) original data_sources None = Ok G →
  pipe env (plot_dag_graphviz G) = Ok img →
  occurs dag_placeholder html = false →
  out (generate_export env selected "HTML" s).2 = out s ++ html_download env html.
Proof.
  intros Hr Hmd Hdata Hcalc Horig Hds Hsel He Hhtml HG Himg Habsent.
  destruct (generate_export_embeds env s r md data calc original data_sources
              selected html G img) as [_ ->]; try done.
  unfold str_replace. by rewrite replace_absent.
Qed.

(** X17. If the HTML report contains the placeholder sentence once, the
    export puts the heading and the base64 image of the graph in its
    place and leaves the text before and after it as it is. *)
Theorem export_replaces_placeholder (env : Env) (s : State) (r : Report)
    (md data : pydict) (calc : DataFrame) (original data_sources : pyval)
    (selected : list string) (before after : string) (G : DiGraph)
    (img : string) :
  report s = Some r →
  r !! "metadata" = Some md → r !! "data" = Some data →
  md !! "calculated_fields" = Some (PFrame calc) →
  md !! "original_fields" = Some original →
  data !! "data_sources" = Some data_sources →
  "Dependency DAG" ∈ selected → empty calc = false →
  generate_html_report env selected r
    = Ok (before +:+ dag_placeholder +:+ after) →
  generate_dag env (PFrame calc) original data_sources None = Ok G →
  pipe env (plot_dag_graphviz G) = Ok img →
  starts_within dag_placeholder before (dag_placeholder +:+ after) = false →
  occurs dag_placeholder after = false →
  out (generate_export env selected "HTML" s).2
  = out s ++ html_download env
               (before +:+ dag_image (image_to_base64 env img) +:+ after).
Proof.
  intros Hr Hmd Hdata Hcalc Horig Hds Hsel He Hhtml HG Himg Hfirst Hrest.
  destruct (generate_export_embeds env s r md data calc original data_sources
              selected (before +:+ dag_placeholder +:+ after) G img)
    as [_ ->]; try done.
  rewrite replace_first by done. unfold str_replace.
  by rewrite (replace_absent _ _ after).
Qed.

(** A report generator that writes no placeholder. *)
Lemma export_without_placeholder_sample :
  generate_html_report Sample.no_worksheets_env ["Dependency DAG"]
    Sample.no_originals_report = Ok "<html></html>" ∧
  occurs dag_placeholder "<html></html>" = false ∧
  out (generate_export Sample.no_worksheets_env ["Dependency DAG"] "HTML"
         Sample.no_originals_state).2
  = [] ++ html_download Sample.no_worksheets_env "<html></html>".
Proof.
  do 2 (split; [reflexivity|]).
  apply (export_without_placeholder Sample.no_worksheets_env
           Sample.no_originals_state Sample.no_originals_report
           Sample.no_originals_metadata Sample.sample_data
           Sample.calculated_fields (PFrame Sample.no_originals)
           (PFrame Sample.data_sources) ["Dependency DAG"] "<html></html>"
           Sample.sample_graph "png");
    try reflexivity.
  apply list_elem_of_here.
Defined.

(** The sample report generator writes the placeholder once. *)
Lemma export_replaces_placeholder_sample :
  generate_html_report Sample.sample_env ["Dependency DAG"]
    Sample.no_originals_report
    = Ok ("<html>" +:+ dag_placeholder +:+ "</html>") ∧
  starts_within dag_placeholder "<html>" (dag_placeholder +:+ "</html>") = false ∧
  occurs dag_placeholder "</html>" = false ∧
  out (generate_export Sample.sample_env ["Dependency DAG"] "HTML"
         Sample.no_originals_state).2
  = [] ++ html_download Sample.sample_env
            ("<html>" +:+ dag_image (image_to_base64 Sample.sample_env "png")
             +:+ "</html>").
Proof.
  do 3 (split; [reflexivity|]).
  apply (export_replaces_placeholder Sample.sample_env
           Sample.no_originals_state Sample.no_originals_report
           Sample.no_originals_metadata Sample.sample_data
           Sample.calculated_fields (PFrame Sample.no_originals)
           (PFrame Sample.data_sources) ["Dependency DAG"] "<html>" "</html>"
           Sample.sample_graph "png");
    try reflexivity.
  apply list_elem_of_here.
Defined.

(** ** The worksheet choice *)

Lemma unique_spec (seen l : list string) :
  NoDup (unique seen l) ∧
  (∀ x, x ∈ unique seen l ↔ x ∈ l ∧ x ∉ seen) ∧
  unique seen l `sublist_of` l.
Proof.
  revert seen. induction l as [|y l IH]; intros seen; cbn [unique].
  - split; [constructor|]. split; [|done]. intros x. rewrite elem_of_nil. tauto.
  - case_bool_decide as Hy.
    + destruct (IH seen) as (Hnd & Hin & Hsub). split; [done|]. split.
      * intros x. rewrite Hin, elem_of_cons. split; [tauto|].
        intros [[->|?] ?]; tauto.
      * by apply sublist_cons.
    + destruct (IH (y :: seen)) as (Hnd & Hin & Hsub). split; [|split].
      * apply NoDup_cons. split; [|done]. rewrite Hin, elem_of_cons. tauto.
      * intros x. rewrite !elem_of_cons, Hin, elem_of_cons.
        destruct (decide (x = y)) as [->|]; tauto.
      * by apply sublist_skip.
Qed.

(** X18. The worksheets offered for the graph are ['All'] followed by the
    names in the ['Worksheet Name'] column: every name that is not missing,
    exactly once, as a subsequence of the column. *)
Theorem worksheet_options (env : Env) (s : State) (r : Report)
    (md data : pydict) (calc orig ws : DataFrame) (cells : list cell) :
  report s = Some r →
  r !! "metadata" = Some md → r !! "data" = Some data →
  md !! "calculated_fields" = Some (PFrame calc) →
  md !! "original_fields" = Some (PFrame orig) →
  empty calc = false → empty orig = false →
  get "worksheets" (PFrame empty_frame) md = PFrame ws →
  column "Worksheet Name" ws = Some cells →
  ∃ names rest,
    out (dependency_dag env s).2
    = out s ++ (Page, WSelectbox "Select Worksheet for DAG:" ("All" :: names))
               :: rest ∧
    NoDup names ∧
    (∀ x, x ∈ names ↔ Some x ∈ cells) ∧
    names `sublist_of` omap id cells.
Proof.
  intros Hr Hmd Hdata Hcalc Horig Hc Ho Hws Hcol.
  rewrite (dependency_dag_run env s r md data calc orig Hr Hmd Hdata Hcalc Horig).
  rewrite Hc, Ho, Hws. cbn [orb]. unfold worksheet_names. cbn [as_frame rbind].
  rewrite Hcol. destruct (unique_spec [] (omap id cells)) as (Hnd & Hin & Hsub).
  exists (dropna_unique cells).
  assert (Hnames : ∀ x, x ∈ dropna_unique cells ↔ Some x ∈ cells).
  { intros x. unfold dropna_unique. rewrite Hin, list_elem_of_omap. split.
    - intros [(c & Hc' & Hid) _]. unfold id in Hid. by subst c.
    - intros Hx. split; [by exists (Some x)|]. by intros ?%elem_of_nil. }
  destruct (generate_dag env _ _ _ _); eexists; (split; [reflexivity|done]).
Qed.

(** Two worksheets, one named twice and one row without a name. *)
Lemma worksheet_options_sample :
  column "Worksheet Name" Sample.repeated_worksheets
    = Some [Some "Overview"; None; Some "Detail"; Some "Overview"] ∧
  ∃ rest,
    out (dependency_dag Sample.sample_env Sample.repeated_worksheets_state).2
    = [] ++ (Page, WSelectbox "Select Worksheet for DAG:"
                     ["All"; "Overview"; "Detail"]) :: rest.
Proof.
  split; [reflexivity|].
  destruct (worksheet_options Sample.sample_env Sample.repeated_worksheets_state
              Sample.repeated_worksheets_report
              Sample.repeated_worksheets_metadata Sample.sample_data
              Sample.calculated_fields Sample.original_fields
              Sample.repeated_worksheets
              [Some "Overview"; None; Some "Detail"; Some "Overview"]
              eq_refl eq_refl eq_refl eq_refl eq_refl eq_refl eq_refl eq_refl
              eq_refl)
    as (names & rest & Hout & _).
  exists (tail (out (dependency_dag Sample.sample_env
                       Sample.repeated_worksheets_state).2)).
  vm_compute. reflexivity.
Defined.

(** ** The session flags (lines 77-87) *)

Lemma init_flags_lookup (l : list string) (s : State) (key : string) :
  session_state (for_each l init_flag s).2 !! key
  = if bool_decide (key ∈ l)
    then Some (default false (session_state s !! key))
    else session_state s !! key.
Proof.
  revert s. induction l as [|k l IH]; intros s; [done|].
  cbn [for_each]. destruct (init_flag_run k s) as [ss Hss].
  rewrite (bind_run _ _ s tt _ Hss), IH. cbn [session_state].
  assert (Hk : ∀ key', ss !! key'
                 = if bool_decide (key' = k)
                   then Some (default false (session_state s !! key'))
                   else session_state s !! key').
  { intros key'. destruct s as [f ss0 r o].
    unfold init_flag, bind, get_session, put_session, ret in Hss.
    cbn [session_state fs report out] in *.
    destruct (ss0 !! k) as [b|] eqn:Hb; injection Hss as <-;
      destruct (bool_decide_reflect (key' = k)) as [->|Hkey];
      rewrite ?Hb, ?lookup_insert_eq; try done.
    by rewrite lookup_insert_ne. }
  rewrite Hk. rewrite (bool_decide_ext (key ∈ k :: l) (key = k ∨ key ∈ l))
    by apply elem_of_cons.
  repeat case_bool_decide; try done; tauto.
Qed.

(** X19. Initialising the session never raises and draws nothing; after
    it each of the four section flags is set, to the value it had, or to
    [False] when it was missing; every other entry of the session is as
    before. *)
Theorem init_session_states_keeps (s : State) (key : string) :
  let s' := (init_session_states s).2 in
  (init_session_states s).1 = Ok tt ∧
  session_state s' !! key
  = (if bool_decide (key ∈ ["show_original_fields"; "show_calculated_fields";
                            "show_worksheets"; "show_data_sources"])
     then Some (default false (session_state s !! key))
     else session_state s !! key) ∧
  fs s' = fs s ∧ report s' = report s ∧ out s' = out s.
Proof.
  intros s'. subst s'. destruct (init_session_states_run s) as [ss Hss].
  split; [by rewrite Hss|]. split.
  - apply (init_flags_lookup (map snd section_keys)).
  - by rewrite Hss.
Qed.

(** ** The section choice (lines 156-167) *)

Lemma choose_sections_run (env : Env) (sections : list string) (s : State) :
  choose_sections env sections s
  = (Ok (List.filter (λ section, checkbox env ("Include " +:+ section)) sections),
     drawn s (map (λ section, (Sidebar, WCheckbox ("Include " +:+ section) true))
                sections)).
Proof.
  revert s. induction sections as [|section rest IH]; intros s.
  - unfold drawn. cbn [choose_sections List.filter map ret].
    rewrite app_nil_r. by destruct s.
  - cbn [choose_sections List.filter map]. unfold st_checkbox, bind at 1 2.
    cbn [emit ret fst snd]. unfold bind at 1. rewrite IH. unfold drawn.
    cbn [fs session_state report out ret]. rewrite <- app_assoc.
    by destruct (checkbox env _).
Qed.

(** X20. The section choice never raises.  It offers one ticked-by-default
    checkbox for each of the six sections, in page order, and returns the
    sections whose box is ticked, in page order; their names, joined by
    commas, are written under the heading.  The report is left alone. *)
Theorem select_sections_ticked (env : Env) (s : State) :
  let selected :=
    List.filter (λ section, checkbox env ("Include " +:+ section))
      report_sections in
  (select_sections env s).1 = Ok selected ∧
  out (select_sections env s).2
  = out s
    ++ (Sidebar, WHeader "Report Generation")
       :: map (λ section, (Sidebar, WCheckbox ("Include " +:+ section) true))
            report_sections
    ++ [(Page, WWrite "### Selected Report Sections");
        (Page, WWrite (String.concat ", " selected));
        (Page, WMarkdown "---")] ∧
  selected `sublist_of` report_sections ∧
  report (select_sections env s).2 = report s.
Proof.
  intros selected. split; [apply select_sections_result|].
  split; [|split].
  - unfold select_sections. unfold bind at 1. cbn [emit fst snd].
    unfold bind at 1. rewrite choose_sections_run. fold selected.
    unfold drawn, logger_info, bind, get_fs, put_fs, emit, ret.
    cbn [fst snd fs session_state report out].
    rewrite <- !app_assoc. reflexivity.
  - subst selected. generalize report_sections. intros l.
    induction l as [|x l IH]; [done|]. cbn [List.filter].
    destruct (checkbox env _); [by apply sublist_skip|by apply sublist_cons].
  - destruct (select_sections_frame env s) as (_ & Hr & _). by apply Hr.
Qed.

(** ** A table that is not a table (lines 205-259, 276-278) *)

(** X21. A table section whose entry in the report is not a data frame
    ([None] or a string) reads [.empty] off it and fails: the page shows
    the section's header and its error, neither a table nor the 'No ...
    found.' message, and the loop goes on. *)
Theorem table_section_needs_frame (env : Env) (section ns key msg : string)
    (s : State) (r : Report) (d : pydict) (v : pyval) :
  (section, ns, key, msg) ∈ table_sections →
  report s = Some r → r !! ns = Some d → d !! key = Some v →
  (∀ df, v ≠ PFrame df) →
  (render_section env section s).1 = Ok tt ∧
  out (render_section env section s).2 = out s ++ section_failed section ∧
  report (render_section env section s).2 = report s.
Proof.
  intros Hsec Hr Hns Hkey Hv.
  assert (Hbody : ∀ s0, report s0 = Some r →
            ∃ e, table_section env ns key section msg s0 = (Raise e, s0)).
  { intros s0 Hr0. unfold table_section, the_report, bind, lift, namespace, get.
    rewrite Hr0, Hns, Hkey. cbn [default from_option id].
    destruct v as [|str|df]; [| |by destruct (Hv df)];
      eexists; reflexivity. }
  assert (Hrun : ∃ f', render_section env section s
                       = (Ok tt, mkState f' (session_state s) (report s)
                                   (out s ++ section_failed section))).
  { unfold render_section, bind at 1. cbn [emit fst snd]. unfold try_except.
    rewrite (section_body_table env section ns key msg Hsec).
    destruct (Hbody (mkState (fs s) (session_state s) (report s)
                       (out s ++ [(Page, WHeader section)])) Hr) as [e He].
    rewrite He.
    unfold logger_error, bind, get_fs, put_fs, emit, ret, section_failed.
    cbn [fst snd fs session_state report out].
    rewrite <- app_assoc. eexists. reflexivity. }
  destruct Hrun as [f' ->]. done.
Qed.

(** A report whose worksheet table is [None]. *)
Lemma table_section_needs_frame_sample :
  out (render_section Sample.sample_env "Worksheets"
         (mkState ∅ ∅ (Some (<["metadata" := <["worksheets" := PNone]>
                                Sample.repeated_worksheets_metadata]>
                              Sample.repeated_worksheets_report)) [])).2
  = [] ++ section_failed "Worksheets".
Proof.
  refine (proj1 (proj2 (table_section_needs_frame Sample.sample_env
    "Worksheets" "metadata" "worksheets" "No worksheets found."
    (mkState ∅ ∅ (Some (<["metadata" := <["worksheets" := PNone]>
                          Sample.repeated_worksheets_metadata]>
                        Sample.repeated_worksheets_report)) [])
    _ (<["worksheets" := PNone]> Sample.repeated_worksheets_metadata) PNone
    _ eq_refl eq_refl eq_refl _))).
  - unfold table_sections. rewrite !elem_of_cons. tauto.
  - intros df. discriminate.
Defined.
